(** * NHL fantasy draft tool: scoring, ranking and aggregation

    A shallow embedding of [main.py] (Streamlit front end over pandas) and the
    properties of its data pipeline:

    - [load_data]: numeric coercion and missing-value filling,
    - [calculate_fantasy_points]: weighted stat sums rounded to one decimal,
    - [create_combined_rankings]: merge, sort and rank,
    - the summary metrics, the position tabs and the team breakdown of [main].

    Numbers.  pandas stores the stat columns as 64 bit floats.  A cell
    carries the rational it denotes ([Q]).  The function that scores is
    embedded twice: with exact products and sums, for what does not depend
    on the rounding of the operations, and with the binary64 operations, for
    the values of the fantasy points themselves.

    Library calls.  pandas operations are embedded by their documented
    behaviour on positionally indexed frames.  The sorting algorithm behind
    [sort_values] (numpy's [argsort] of the requested [kind]) is a parameter
    of the development, constrained by the contract every kind satisfies. *)

From Stdlib Require Import String Ascii List Bool Arith ZArith QArith Qround Qabs.
From Stdlib Require Import Lia Lqa Permutation Sorted Morphisms.
Import ListNotations.

Open Scope string_scope.
Open Scope Q_scope.

(** ** Numbers *)

(** [numpy.rint]: nearest integer, halves go to the even neighbour. *)
Definition rint (x : Q) : Z :=
  let f := Qfloor x in
  match Qcompare (x - inject_Z f) (1 # 2) with
  | Lt => f
  | Gt => (f + 1)%Z
  | Eq => if Z.even f then f else (f + 1)%Z
  end.

(** [Series.round(1)] delegates to [numpy.round(a, 1)], which scales by ten,
    applies [rint] and scales back. *)
Definition round1 (x : Q) : Q := Qred (rint (x * 10) # 10).

(** ** Cells, columns, frames *)

(** A cell of a frame: a number, a Python string, or the missing marker. *)
Inductive value : Type :=
| VNum (q : Q)
| VStr (s : string)
| VNaN.

Definition Series := list value.

(** A frame with a positional index [0 .. index_len - 1] and named columns in
    display order. *)
Record DataFrame : Type := mkDF {
  index_len : nat;
  columns : list (string * Series)
}.

Definition is_num (v : value) : bool :=
  match v with VNum _ => true | _ => false end.
Definition is_str (v : value) : bool :=
  match v with VStr _ => true | _ => false end.
Definition isna (v : value) : bool :=
  match v with VNaN => true | _ => false end.

(** The number a numeric cell holds (0 elsewhere; used under [is_num]). *)
Definition num_of (v : value) : Q :=
  match v with VNum q => q | _ => 0 end.

(** Elementwise [==] of pandas: numbers by value, strings by content, and a
    missing cell equals nothing. *)
Definition value_eqb (a b : value) : bool :=
  match a, b with
  | VNum x, VNum y => Qeq_bool x y
  | VStr s, VStr t => String.eqb s t
  | _, _ => false
  end.

(** ** Exceptions *)

Inductive exn : Type :=
| KeyError (key : string)
| TypeError
| IndexError
| NameError.

Inductive result (A : Type) : Type :=
| Ok (a : A)
| Raise (e : exn).
Arguments Ok {A} a.
Arguments Raise {A} e.

Definition rbind {A B} (r : result A) (k : A -> result B) : result B :=
  match r with
  | Ok a => k a
  | Raise e => Raise e
  end.

Notation "'let*' x ':=' e 'in' k" := (rbind e (fun x => k))
  (at level 10, x name, e at level 100, k at level 200).

Fixpoint mapM {A B} (f : A -> result B) (l : list A) : result (list B) :=
  match l with
  | [] => Ok []
  | a :: l' =>
      let* b := f a in
      let* bs := mapM f l' in
      Ok (b :: bs)
  end.

(** ** pandas operations on frames *)

Fixpoint lookup {A} (c : string) (l : list (string * A)) : option A :=
  match l with
  | [] => None
  | (c', a) :: l' => if String.eqb c c' then Some a else lookup c l'
  end.

(** [df.columns] *)
Definition names (df : DataFrame) : list string := map fst (columns df).

Definition mem (c : string) (l : list string) : bool :=
  existsb (String.eqb c) l.

(** [c in df.columns] *)
Definition has_column (c : string) (df : DataFrame) : bool := mem c (names df).

(** [df[c]] *)
Definition getitem (df : DataFrame) (c : string) : result Series :=
  match lookup c (columns df) with
  | Some s => Ok s
  | None => Raise (KeyError c)
  end.

(** Column assignment: an existing column is replaced in place, a new one is
    appended after the others. *)
Fixpoint assign (c : string) (s : Series) (cols : list (string * Series))
  : list (string * Series) :=
  match cols with
  | [] => [(c, s)]
  | (c', s') :: rest =>
      if String.eqb c c' then (c, s) :: rest else (c', s') :: assign c s rest
  end.

(** [df[c] = s] for a column [s] of the frame's length. *)
Definition setitem (df : DataFrame) (c : string) (s : Series) : DataFrame :=
  mkDF (index_len df) (assign c s (columns df)).

(** [df[c] = v] for a scalar [v], broadcast along the index. *)
Definition setitem_scalar (df : DataFrame) (c : string) (v : value) : DataFrame :=
  setitem df c (repeat v (index_len df)).

(** The cell of column [c] at position [i]. *)
Definition cell (df : DataFrame) (c : string) (i : nat) : value :=
  match lookup c (columns df) with
  | Some s => nth i s VNaN
  | None => VNaN
  end.

(** [series * w] for a float [w]. *)
Definition value_mul (v : value) (w : Q) : result value :=
  match v with
  | VNum q => Ok (VNum (q * w))
  | VNaN => Ok VNaN
  | VStr _ => Raise TypeError
  end.

Definition series_mul (s : Series) (w : Q) : result Series :=
  mapM (fun v => value_mul v w) s.

(** [a + b] on cells. *)
Definition value_add (a b : value) : result value :=
  match a, b with
  | VNum x, VNum y => Ok (VNum (x + y))
  | VStr s, VStr t => Ok (VStr (s ++ t))
  | VStr _, _ | _, VStr _ => Raise TypeError
  | _, _ => Ok VNaN
  end.

(** [a + b] on two columns of one frame (same index, so positional). *)
Fixpoint series_add (a b : Series) : result Series :=
  match a, b with
  | x :: a', y :: b' =>
      let* z := value_add x y in
      let* zs := series_add a' b' in
      Ok (z :: zs)
  | _, _ => Ok []
  end.

(** [series.round(1)] *)
Definition value_round1 (v : value) : result value :=
  match v with
  | VNum q => Ok (VNum (round1 q))
  | VNaN => Ok VNaN
  | VStr _ => Raise TypeError
  end.

Definition series_round1 (s : Series) : result Series := mapM value_round1 s.

(** [df[cols]] for a list of labels. *)
Definition select (df : DataFrame) (cols : list string) : result DataFrame :=
  let* ss := mapM (getitem df) cols in
  Ok (mkDF (index_len df) (combine cols ss)).

Definition column_or_nan (df : DataFrame) (c : string) : Series :=
  match lookup c (columns df) with
  | Some s => s
  | None => repeat VNaN (index_len df)
  end.

(** [pd.concat([a, b], ignore_index=True)]: rows of [a] then rows of [b],
    columns aligned by label (labels of [a] first), absent cells missing. *)
Definition concat (a b : DataFrame) : DataFrame :=
  let labels :=
    (names a ++ filter (fun c => negb (has_column c a)) (names b))%list in
  mkDF (index_len a + index_len b)
       (map (fun c => (c, (column_or_nan a c ++ column_or_nan b c)%list)) labels).

(** [df.take(indexer)]: the rows at the given positions, in that order. *)
Definition take (df : DataFrame) (indexer : list nat) : DataFrame :=
  mkDF (length indexer)
       (map (fun cs => (fst cs, map (fun i => nth i (snd cs) VNaN) indexer))
            (columns df)).

(** [df[mask]] for a boolean mask along the index. *)
Fixpoint mask_select {A} (mask : list bool) (l : list A) : list A :=
  match mask, l with
  | m :: mask', x :: l' =>
      if m then x :: mask_select mask' l' else mask_select mask' l'
  | _, _ => []
  end.

Definition count_true (mask : list bool) : nat :=
  length (filter (fun b => b) mask).

Definition boolean_index (df : DataFrame) (mask : list bool) : DataFrame :=
  mkDF (count_true (firstn (index_len df) mask))
       (map (fun cs => (fst cs, mask_select mask (snd cs))) (columns df)).

(** [df[c] == v] *)
Definition series_eq (s : Series) (v : value) : list bool :=
  map (fun x => value_eqb x v) s.

(** [df.head(n)] *)
Definition head (n : nat) (df : DataFrame) : DataFrame :=
  mkDF (Nat.min n (index_len df))
       (map (fun cs => (fst cs, firstn n (snd cs))) (columns df)).

(** [df.fillna(v)]: every missing cell of every column becomes [v]. *)
Definition fill_value (v0 v : value) : value :=
  match v with VNaN => v0 | _ => v end.

Definition fillna (v0 : value) (df : DataFrame) : DataFrame :=
  mkDF (index_len df)
       (map (fun cs => (fst cs, map (fill_value v0) (snd cs))) (columns df)).

(** [df.columns = labels] *)
Definition set_columns (df : DataFrame) (labels : list string) : DataFrame :=
  mkDF (index_len df) (combine labels (map snd (columns df))).

(** A row as [iloc] returns it: label/cell pairs. *)
Definition Row := list (string * value).

(** [df.iloc[0]] *)
Definition iloc0 (df : DataFrame) : result Row :=
  match index_len df with
  | O => Raise IndexError
  | S _ => Ok (map (fun cs => (fst cs, nth 0 (snd cs) VNaN)) (columns df))
  end.

(** [row[c]] *)
Definition row_get (r : Row) (c : string) : result value :=
  match lookup c r with
  | Some v => Ok v
  | None => Raise (KeyError c)
  end.

(** [df.empty] *)
Definition empty (df : DataFrame) : bool :=
  (index_len df =? 0)%nat || (length (columns df) =? 0)%nat.

(** ** Sorting *)

(** The algorithm behind [ndarray.argsort(kind=...)] on a float array without
    missing entries: it returns the positions of the array in ascending order
    of their entries.  [sort_values] takes [kind] from ['quicksort'],
    ['mergesort'], ['heapsort'] and ['stable'], with ['quicksort'] the
    default; its documentation names ['mergesort'] and ['stable'] as the only
    stable ones.  [main.py] passes no [kind], so the order of equal entries
    is whatever the default algorithm leaves. *)
Definition sort_kind := list Q -> list nat.

(** What every kind guarantees: the positions, each once, in an order that
    makes the entries non-decreasing. *)
Definition sort_kind_ok (kind : sort_kind) : Prop :=
  forall a : list Q,
    Permutation (kind a) (seq 0 (length a)) /\
    Sorted Qle (map (fun i => nth i a 0) (kind a)).

(** The key of a string among the entries of a column: the number of
    strings of the column before it in Python's order, which orders the
    strings as they are ordered. *)
Definition string_rank (items : Series) (v : value) : Q :=
  match v with
  | VStr s =>
      inject_Z (Z.of_nat (length (filter (fun t =>
        match t with
        | VStr u => negb (String.leb s u)
        | _ => false
        end) items)))
  | _ => 0
  end.

(** pandas' [nargsort] with [na_position='last']: the present entries are
    sorted by [kind]; a descending sort is an ascending sort of the reversed
    column, reversed again; missing entries follow in their original order.
    The entries of a column of numbers are compared as numbers and those of
    a column of strings as strings, [kind] seeing them through their ranks;
    strings cannot be compared with numbers. *)
Definition nargsort (kind : sort_kind) (items : Series) (ascending : bool)
  : result (list nat) :=
  if existsb is_str items then
    if existsb is_num items then Raise TypeError
    else
      let idx := seq 0 (length items) in
      let non_nan_idx :=
        filter (fun i => negb (isna (nth i items VNaN))) idx in
      let nan_idx := filter (fun i => isna (nth i items VNaN)) idx in
      let non_nan_idx := if ascending then non_nan_idx else rev non_nan_idx in
      let non_nans :=
        map (fun i => string_rank items (nth i items VNaN)) non_nan_idx in
      let indexer := map (fun j => nth j non_nan_idx O) (kind non_nans) in
      let indexer := if ascending then indexer else rev indexer in
      Ok (indexer ++ nan_idx)%list
  else
    let idx := seq 0 (length items) in
    let non_nan_idx := filter (fun i => negb (isna (nth i items VNaN))) idx in
    let nan_idx := filter (fun i => isna (nth i items VNaN)) idx in
    let non_nan_idx := if ascending then non_nan_idx else rev non_nan_idx in
    let non_nans := map (fun i => num_of (nth i items VNaN)) non_nan_idx in
    let indexer := map (fun j => nth j non_nan_idx O) (kind non_nans) in
    let indexer := if ascending then indexer else rev indexer in
    Ok (indexer ++ nan_idx)%list.

(** [df.sort_values(by, ascending=...)] with the default [kind]. *)
Definition sort_values (kind : sort_kind) (df : DataFrame) (by_ : string)
    (ascending : bool) : result DataFrame :=
  let* items := getitem df by_ in
  let* indexer := nargsort kind items ascending in
  Ok (take df indexer).

(** [df.reset_index(drop=True)]: the index is positional already. *)
Definition reset_index (df : DataFrame) : DataFrame := df.

(** [range(lo, hi)] as a column of integers. *)
Definition range_series (lo hi : nat) : Series :=
  map (fun i => VNum (inject_Z (Z.of_nat i))) (seq lo (hi - lo)).

(** Insertion of a (position, entry) pair into an ascending list.  With
    [before_equal] the pair is put in front of the entries equal to it,
    otherwise behind them. *)
Fixpoint insert_entry (before_equal : bool) (x : nat * Q) (l : list (nat * Q))
  : list (nat * Q) :=
  match l with
  | [] => [x]
  | y :: l' =>
      if (if before_equal then Qle_bool (snd x) (snd y)
          else negb (Qle_bool (snd y) (snd x)))
      then x :: y :: l'
      else y :: insert_entry before_equal x l'
  end.

Definition insertion_argsort (before_equal : bool) (a : list Q) : list nat :=
  map fst (fold_right (insert_entry before_equal) []
                      (combine (seq 0 (length a)) a)).

(** [kind='stable']: equal entries keep their order. *)
Definition kind_stable : sort_kind := insertion_argsort true.

(** A kind that is not stable: equal entries come out in reverse order. *)
Definition kind_reversing : sort_kind := insertion_argsort false.

(** ** Grouping *)

(** Distinct values in order of first appearance. *)
Fixpoint unique (l : list value) : list value :=
  match l with
  | [] => []
  | v :: l' => v :: filter (fun x => negb (value_eqb x v)) (unique l')
  end.

(** Order of group keys: numbers ascending, then strings in lexicographic
    order. *)
Definition value_leb (a b : value) : bool :=
  match a, b with
  | VNum x, VNum y => Qle_bool x y
  | VNum _, _ => true
  | VStr s, VStr t => String.leb s t
  | VStr _, VNum _ => false
  | VStr _, VNaN => true
  | VNaN, VNaN => true
  | VNaN, _ => false
  end.

Fixpoint insert_key (k : value) (l : list value) : list value :=
  match l with
  | [] => [k]
  | k' :: l' => if value_leb k k' then k :: k' :: l' else k' :: insert_key k l'
  end.

Definition sort_keys (l : list value) : list value :=
  fold_right insert_key [] l.

(** The group keys of [df.groupby(key)]: the distinct present values of the
    key column, sorted. *)
Definition group_keys (ks : Series) : list value :=
  sort_keys (unique (filter (fun k => negb (isna k)) ks)).

(** Sum of the cells of [vs] on the rows whose key is [g]; missing cells are
    skipped. *)
Fixpoint group_sum (g : value) (ks vs : Series) : result Q :=
  match ks, vs with
  | k :: ks', v :: vs' =>
      let* rest := group_sum g ks' vs' in
      if value_eqb k g then
        match v with
        | VNum q => Ok (q + rest)
        | VNaN => Ok rest
        | VStr _ => Raise TypeError
        end
      else Ok rest
  | _, _ => Ok 0
  end.

(** [df.groupby(key)[col].sum().reset_index()] *)
Definition groupby_sum (df : DataFrame) (key col : string) : result DataFrame :=
  let* ks := getitem df key in
  let* vs := getitem df col in
  let groups := group_keys ks in
  let* sums := mapM (fun g => group_sum g ks vs) groups in
  Ok (mkDF (length groups) [(key, groups); (col, map VNum sums)]).

(** ** Objects and references

    Frames are mutable objects; a variable holds a reference.  Functions that
    assign into a frame they were given run in the monad [M] over the store
    of frames.  An exception ends the computation and leaves the store as
    the assignments made so far left it. *)

Definition ref := nat.
Definition heap := list DataFrame.

Definition M (A : Type) : Type := heap -> result A * heap.

Definition ret {A} (a : A) : M A := fun h => (Ok a, h).

Definition bind {A B} (m : M A) (k : A -> M B) : M B :=
  fun h =>
    match m h with
    | (Ok a, h') => k a h'
    | (Raise e, h') => (Raise e, h')
    end.

Definition lift {A} (r : result A) : M A := fun h => (r, h).

Notation "x <- m ;; k" := (bind m (fun x => k))
  (at level 61, m at next level, right associativity).
Notation "m ;; k" := (bind m (fun _ => k))
  (at level 61, right associativity).

Fixpoint update {A} (n : nat) (a : A) (l : list A) : list A :=
  match n, l with
  | O, _ :: l' => a :: l'
  | S n', x :: l' => x :: update n' a l'
  | _, [] => []
  end.

(** Reading and writing the object behind a reference.  A dangling reference
    does not arise in Python; it is reported as [NameError]. *)
Definition deref (r : ref) : M DataFrame :=
  fun h =>
    match nth_error h r with
    | Some d => (Ok d, h)
    | None => (Raise NameError, h)
    end.

Definition store (r : ref) (d : DataFrame) : M unit :=
  fun h =>
    match nth_error h r with
    | Some _ => (Ok tt, update r d h)
    | None => (Raise NameError, h)
    end.

Definition alloc (d : DataFrame) : M ref :=
  fun h => (Ok (length h), (h ++ [d])%list).

(** [df.copy()]: a new object with the same contents. *)
Definition df_copy (r : ref) : M ref :=
  d <- deref r ;; alloc d.

Definition df_columns (r : ref) : M (list string) :=
  d <- deref r ;; ret (names d).

Definition df_getitem (r : ref) (c : string) : M Series :=
  d <- deref r ;; lift (getitem d c).

Definition df_setitem (r : ref) (c : string) (s : Series) : M unit :=
  d <- deref r ;; store r (setitem d c s).

Definition df_setitem_scalar (r : ref) (c : string) (v : value) : M unit :=
  d <- deref r ;; store r (setitem_scalar d c v).

(** Python dictionaries from stat label to weight. *)
Definition dict := list (string * Q).

Definition dict_mem (k : string) (d : dict) : bool := mem k (map fst d).

Definition dict_getitem (d : dict) (k : string) : result Q :=
  match lookup k d with
  | Some w => Ok w
  | None => Raise (KeyError k)
  end.

(** ** [load_data] *)

Definition double_quote : ascii := ascii_of_nat 34.

(** [columns.str.replace(quote, '')]: every double quote is dropped. *)
Fixpoint remove_quotes (s : string) : string :=
  match s with
  | EmptyString => EmptyString
  | String c s' =>
      if Ascii.eqb c double_quote then remove_quotes s'
      else String c (remove_quotes s')
  end.

Definition numeric_cols_skaters : list string :=
  ["VAR"; "GP"; "G"; "A"; "PTS"; "(+/-)"; "PIM"; "EV";
   "PPG"; "PPA"; "PPP"; "SOG"; "ATOI"; "FOW"; "BLK"; "HIT"].

Definition numeric_cols_goalies : list string :=
  ["VAR"; "GS"; "W"; "L"; "T/O"; "SO"; "SV"; "SV%"; "GA"; "GAA"; "SA"].

(** [pd.to_numeric(series, errors='coerce')]: numbers stay, a string becomes
    the number it spells or else missing.  [parse] is pandas' numeral
    parser. *)
Definition coerce (parse : string -> option Q) (v : value) : value :=
  match v with
  | VStr s => match parse s with Some q => VNum q | None => VNaN end
  | _ => v
  end.

Definition to_numeric (parse : string -> option Q) (s : Series) : Series :=
  map (coerce parse) s.

(** The loop [for col in numeric_cols: if col in df.columns: df[col] = ...]. *)
Fixpoint convert_numeric (parse : string -> option Q) (cols : list string)
    (df : DataFrame) : result DataFrame :=
  match cols with
  | [] => Ok df
  | col :: rest =>
      if has_column col df then
        let* s := getitem df col in
        convert_numeric parse rest (setitem df col (to_numeric parse s))
      else convert_numeric parse rest df
  end.

(** Lines 22 to 24: the labels without their quotes. *)
Definition clean_column_names (df : DataFrame) : DataFrame :=
  set_columns df (map remove_quotes (names df)).

(** [load_data] from the two frames [pd.read_csv] returned.  An exception in
    the body is caught and the pair [(None, None)] returned, here [None]. *)
Definition load_data (parse : string -> option Q) (skaters goalies : DataFrame)
  : option (DataFrame * DataFrame) :=
  let body :=
    let skaters := clean_column_names skaters in
    let goalies := clean_column_names goalies in
    let* skaters := convert_numeric parse numeric_cols_skaters skaters in
    let* goalies := convert_numeric parse numeric_cols_goalies goalies in
    let skaters := fillna (VNum 0) skaters in
    let goalies := fillna (VNum 0) goalies in
    Ok (skaters, goalies) in
  match body with
  | Ok p => Some p
  | Raise _ => None
  end.

(** A parser of plain decimal numerals: an optional minus sign, digits, and
    an optional fraction part. *)
Definition digit_of (c : ascii) : option Z :=
  let n := nat_of_ascii c in
  if ((48 <=? n) && (n <=? 57))%nat then Some (Z.of_nat (n - 48)) else None.

Fixpoint parse_digits (s : string) (acc : Z) (den : positive)
    (frac any : bool) : option Q :=
  match s with
  | EmptyString => if any then Some (acc # den) else None
  | String c s' =>
      match digit_of c with
      | Some d =>
          parse_digits s' (acc * 10 + d)%Z
                       (if frac then (den * 10)%positive else den) frac true
      | None =>
          if Ascii.eqb c "."%char && negb frac
          then parse_digits s' acc den true any
          else None
      end
  end.

Definition parse_decimal (s : string) : option Q :=
  match s with
  | String "-"%char s' => option_map Qopp (parse_digits s' 0 1 false false)
  | _ => parse_digits s 0 1 false false
  end.

(** ** [calculate_fantasy_points] *)

(** One block
    [if stat in df.columns and stat in scoring:
         df['Fantasy Points'] += df[stat] * scoring[stat]]. *)
Definition add_stat (df : ref) (scoring : dict) (stat : string) : M unit :=
  cols <- df_columns df ;;
  if mem stat cols && dict_mem stat scoring then
    fp <- df_getitem df "Fantasy Points" ;;
    s <- df_getitem df stat ;;
    w <- lift (dict_getitem scoring stat) ;;
    prod <- lift (series_mul s w) ;;
    total <- lift (series_add fp prod) ;;
    df_setitem df "Fantasy Points" total
  else ret tt.

(** Lines 89 to 117: the copy, the zero column and the blocks of the
    category. *)
Definition accumulate_fantasy_points (df : ref) (scoring : dict)
    (player_type : string) : M ref :=
  df <- df_copy df ;;
  df_setitem_scalar df "Fantasy Points" (VNum 0) ;;
  (if String.eqb player_type "skater" then
     add_stat df scoring "G" ;;
     add_stat df scoring "A" ;;
     add_stat df scoring "PIM" ;;
     add_stat df scoring "PPG" ;;
     add_stat df scoring "PPP" ;;
     add_stat df scoring "SOG" ;;
     add_stat df scoring "HIT" ;;
     add_stat df scoring "BLK"
   else
     add_stat df scoring "W" ;;
     add_stat df scoring "SV" ;;
     add_stat df scoring "SO") ;;
  ret df.

(** The whole function: the accumulated column is rounded and the copy
    returned. *)
Definition calculate_fantasy_points (df : ref) (scoring : dict)
    (player_type : string) : M ref :=
  df <- accumulate_fantasy_points df scoring player_type ;;
  fp <- df_getitem df "Fantasy Points" ;;
  rounded <- lift (series_round1 fp) ;;
  df_setitem df "Fantasy Points" rounded ;;
  ret df.

(** ** [create_combined_rankings]

    The function reads its two arguments and assigns only into the copies it
    makes, so it is embedded on frame values. *)

Definition skater_cols : list string :=
  ["Player"; "Team"; "Pos"; "Fantasy Points";
   "G"; "A"; "PTS"; "PIM"; "PPG"; "PPP"; "SOG"; "HIT"; "BLK"].

Definition goalie_cols : list string :=
  ["Player"; "Team"; "Fantasy Points"; "W"; "SV"; "SO"; "SV%"; "GAA"].

(** Lines 124 to 144: the two display frames and their concatenation, the
    value of [combined] before it is sorted. *)
Definition display_concat (skaters goalies : DataFrame) : result DataFrame :=
  let* skaters_display := select skaters skater_cols in
  let skaters_display :=
    setitem_scalar skaters_display "Player Type" (VStr "Skater") in
  let* goalies_display := select goalies goalie_cols in
  let goalies_display :=
    setitem_scalar goalies_display "Player Type" (VStr "Goalie") in
  let goalies_display := setitem_scalar goalies_display "Pos" (VStr "G") in
  let goalies_display :=
    fold_left (fun d col => setitem_scalar d col (VNum 0))
      ["G"; "A"; "PTS"; "PIM"; "PPG"; "PPP"; "SOG"; "HIT"; "BLK"]
      goalies_display in
  let skaters_display :=
    fold_left (fun d col => setitem_scalar d col (VNum 0))
      ["W"; "SV"; "SO"; "SV%"; "GAA"]
      skaters_display in
  Ok (concat skaters_display goalies_display).

Definition create_combined_rankings (kind : sort_kind)
    (skaters goalies : DataFrame) : result DataFrame :=
  let* combined := display_concat skaters goalies in
  let* combined := sort_values kind combined "Fantasy Points" false in
  let combined := reset_index combined in
  Ok (setitem combined "Rank" (range_series 1 (index_len combined + 1))).

(** ** [main]: the computation behind the views *)

(** Lines 208 to 212: score both tables and merge them. *)
Definition combined_rankings_of (kind : sort_kind) (skaters goalies : ref)
    (scoring : dict) : M DataFrame :=
  skaters_with_points <- calculate_fantasy_points skaters scoring "skater" ;;
  goalies_with_points <- calculate_fantasy_points goalies scoring "goalie" ;;
  s <- deref skaters_with_points ;;
  g <- deref goalies_with_points ;;
  lift (create_combined_rankings kind s g).

(** The four summary metrics. *)
Record Summary : Type := mkSummary {
  total_players_ranked : nat;
  top_player : value;
  top_fantasy_points : value;
  top_goalie : value
}.

Definition summary_stats (combined_rankings : DataFrame) : result Summary :=
  let total := index_len combined_rankings in
  let* top_player := iloc0 combined_rankings in
  let* name := row_get top_player "Player" in
  let* points := row_get top_player "Fantasy Points" in
  let* pos := getitem combined_rankings "Pos" in
  let* top_goalie :=
    iloc0 (boolean_index combined_rankings (series_eq pos (VStr "G"))) in
  let* goalie_name := row_get top_goalie "Player" in
  Ok (mkSummary total name points goalie_name).

(** A position tab (Defense, LW, RW): a ranked table, the chart data and the
    player count, or a warning when the position has no player. *)
Inductive TabView : Type :=
| TabTable (table chart_data : DataFrame) (total : nat)
| TabWarning (message : string).

Definition position_tab (combined_rankings : DataFrame)
    (pos rank_label message : string) : result TabView :=
  let* p := getitem combined_rankings "Pos" in
  let only :=
    reset_index (boolean_index combined_rankings (series_eq p (VStr pos))) in
  if negb (empty only) then
    let only :=
      setitem only rank_label (range_series 1 (index_len only + 1)) in
    let* table :=
      select only [rank_label; "Fantasy Points"; "Player"; "Team";
                   "G"; "A"; "PTS"; "PIM"; "PPG"; "PPP"; "SOG"; "HIT"; "BLK"] in
    let chart_data :=
      if (10 <=? index_len only)%nat then head 15 only else only in
    Ok (TabTable table chart_data (index_len only))
  else Ok (TabWarning message).

Definition defense_tab (combined_rankings : DataFrame) : result TabView :=
  position_tab combined_rankings "D" "D Rank"
               "No Defensemen found in the data.".

Definition lw_tab (combined_rankings : DataFrame) : result TabView :=
  position_tab combined_rankings "LW" "LW Rank"
               "No Left Wingers found in the data.".

Definition rw_tab (combined_rankings : DataFrame) : result TabView :=
  position_tab combined_rankings "RW" "RW Rank"
               "No Right Wingers found in the data.".

(** The team breakdown of the analysis tab. *)
Definition team_totals (combined_rankings : DataFrame) : result DataFrame :=
  let* team_stats :=
    groupby_sum combined_rankings "Team" "Fantasy Points" in
  Ok (set_columns team_stats ["Team"; "Total Fantasy Points"]).

Definition team_breakdown (kind : sort_kind) (combined_rankings : DataFrame)
  : result DataFrame :=
  let* team_stats := team_totals combined_rankings in
  let* team_stats :=
    sort_values kind team_stats "Total Fantasy Points" false in
  Ok (head 10 team_stats).

(** The run of [main] after the button press, from the loaded tables to the
    summary metrics. *)
Definition main_summary (kind : sort_kind) (skaters goalies : DataFrame)
    (scoring : dict) : result Summary :=
  match combined_rankings_of kind 0%nat 1%nat scoring [skaters; goalies] with
  | (Ok combined_rankings, _) => summary_stats combined_rankings
  | (Raise e, _) => Raise e
  end.

(** ** Vocabulary of the statements *)

(** The two player categories and the tag [main] passes for each. *)
Inductive category : Type := Skater | Goalie.

Definition category_tag (cat : category) : string :=
  match cat with
  | Skater => "skater"
  | Goalie => "goalie"
  end.

Definition skater_stats : list string :=
  ["G"; "A"; "PIM"; "PPG"; "PPP"; "SOG"; "HIT"; "BLK"].

Definition goalie_stats : list string := ["W"; "SV"; "SO"].

Definition applicable_stats (cat : category) : list string :=
  match cat with
  | Skater => skater_stats
  | Goalie => goalie_stats
  end.

(** The stats the code adds up for a [player_type] string. *)
Definition stats_of_tag (player_type : string) : list string :=
  if String.eqb player_type "skater" then skater_stats else goalie_stats.

(** Weight of a stat, zero when the mapping has no entry for it. *)
Definition weight (scoring : dict) (stat : string) : Q :=
  match lookup stat scoring with
  | Some w => w
  | None => 0
  end.

(** Value of a stat for the record at position [i], zero when the table has
    no such column. *)
Definition stat_value (df : DataFrame) (i : nat) (stat : string) : Q :=
  num_of (cell df stat i).

(** Sum over the given stats of stat value times weight. *)
Definition weighted_sum (stats : list string) (df : DataFrame) (scoring : dict)
    (i : nat) : Q :=
  fold_right (fun stat acc => stat_value df i stat * weight scoring stat + acc)
             0 stats.

(** Frames as [pd.read_csv] and the pipeline keep them: every column spans
    the index and no label occurs twice. *)
Fixpoint distinct (l : list string) : bool :=
  match l with
  | [] => true
  | c :: l' => negb (mem c l') && distinct l'
  end.

Definition well_formed (df : DataFrame) : bool :=
  forallb (fun cs => (length (snd cs) =? index_len df)%nat) (columns df)
  && distinct (names df).

(** The columns of [stats] present in the frame hold numbers only, as they
    do in a table [load_data] returned. *)
Definition numeric_column (df : DataFrame) (c : string) : bool :=
  match lookup c (columns df) with
  | Some s => forallb is_num s
  | None => true
  end.

Definition numeric_stats (stats : list string) (df : DataFrame) : bool :=
  forallb (numeric_column df) stats.

Definition has_columns (cols : list string) (df : DataFrame) : bool :=
  forallb (fun c => has_column c df) cols.

(** A scored table: the columns [create_combined_rankings] selects are there
    and the fantasy points are numbers. *)
Definition scored_table (cols : list string) (df : DataFrame) : bool :=
  well_formed df && has_columns cols df
  && has_column "Fantasy Points" df && numeric_column df "Fantasy Points".

(** The record at position [i], restricted to the given labels. *)
Definition row_at (labels : list string) (df : DataFrame) (i : nat) : Row :=
  map (fun c => (c, cell df c i)) labels.

Definition rows_of (labels : list string) (df : DataFrame) : list Row :=
  map (row_at labels df) (seq 0 (index_len df)).

Definition row_points (r : Row) : value :=
  match lookup "Fantasy Points" r with
  | Some v => v
  | None => VNaN
  end.

(** The labels of the merged frame, in its column order. *)
Definition combined_labels : list string :=
  ["Player"; "Team"; "Pos"; "Fantasy Points";
   "G"; "A"; "PTS"; "PIM"; "PPG"; "PPP"; "SOG"; "HIT"; "BLK";
   "Player Type"; "W"; "SV"; "SO"; "SV%"; "GAA"].

(** Rows in non-increasing order of fantasy points. *)
Definition descending (points : list Q) : Prop :=
  Sorted (fun a b => b <= a) points.

(** Stability: among the players with one and the same fantasy points value,
    the output has them in the order of the input. *)
Definition ties_keep_order (labels : list string) (before after : DataFrame)
  : Prop :=
  forall v : value,
    filter (fun r => value_eqb (row_points r) v) (rows_of labels after) =
    filter (fun r => value_eqb (row_points r) v) (rows_of labels before).

(** Total fantasy points of the players of team [t]. *)
Fixpoint total_where (t : value) (teams points : Series) : Q :=
  match teams, points with
  | k :: teams', v :: points' =>
      let rest := total_where t teams' points' in
      if value_eqb k t then num_of v + rest else rest
  | _, _ => 0
  end.



(** [t] has a group in the aggregate [stats]. *)
Definition team_listed (stats : DataFrame) (t : value) : bool :=
  existsb (fun k => value_eqb k t) (column_or_nan stats "Team").

(** ** The store-free reading of [calculate_fantasy_points]

    What the function computes from the contents of its argument; the
    refinement lemmas below relate the two. *)

Definition add_stat_frame (scoring : dict) (stat : string) (df : DataFrame)
  : result DataFrame :=
  if has_column stat df && dict_mem stat scoring then
    let* fp := getitem df "Fantasy Points" in
    let* s := getitem df stat in
    let* w := dict_getitem scoring stat in
    let* prod := series_mul s w in
    let* total := series_add fp prod in
    Ok (setitem df "Fantasy Points" total)
  else Ok df.

Fixpoint add_stats_frame (scoring : dict) (stats : list string)
    (df : DataFrame) : result DataFrame :=
  match stats with
  | [] => Ok df
  | stat :: rest =>
      let* df' := add_stat_frame scoring stat df in
      add_stats_frame scoring rest df'
  end.

Definition accumulated_frame (scoring : dict) (player_type : string)
    (df : DataFrame) : result DataFrame :=
  add_stats_frame scoring (stats_of_tag player_type)
                  (setitem_scalar df "Fantasy Points" (VNum 0)).

Definition scored_frame (scoring : dict) (player_type : string)
    (df : DataFrame) : result DataFrame :=
  let* d := accumulated_frame scoring player_type df in
  let* fp := getitem d "Fantasy Points" in
  let* rounded := series_round1 fp in
  Ok (setitem d "Fantasy Points" rounded).

(** The contents of the copy when the function stops, by returning or by an
    exception. *)
Fixpoint add_stats_state (scoring : dict) (stats : list string)
    (df : DataFrame) : DataFrame :=
  match stats with
  | [] => df
  | stat :: rest =>
      match add_stat_frame scoring stat df with
      | Ok df' => add_stats_state scoring rest df'
      | Raise _ => df
      end
  end.

Definition accumulated_state (scoring : dict) (player_type : string)
    (df : DataFrame) : DataFrame :=
  add_stats_state scoring (stats_of_tag player_type)
                  (setitem_scalar df "Fantasy Points" (VNum 0)).

Definition scored_state (scoring : dict) (player_type : string)
    (df : DataFrame) : DataFrame :=
  match scored_frame scoring player_type df with
  | Ok d => d
  | Raise _ => accumulated_state scoring player_type df
  end.

(** The result of a call that returns [b] when [r] succeeds. *)
Definition returned {A B} (r : result A) (b : B) : result B :=
  match r with
  | Ok _ => Ok b
  | Raise e => Raise e
  end.

(** Cell arithmetic where no string is involved. *)
Definition cell_mul (w : Q) (v : value) : value :=
  match v with VNum q => VNum (q * w) | _ => VNaN end.

Definition cell_add (ab : value * value) : value :=
  match ab with (VNum x, VNum y) => VNum (x + y) | _ => VNaN end.

Definition cell_round1 (v : value) : value :=
  match v with VNum q => VNum (round1 q) | _ => VNaN end.

(** [d] is [d0] with a points column of numbers whose entries are, up to
    equality of rationals, [f 0], [f 1], ... *)
Definition accumulates (d0 d : DataFrame) (f : nat -> Q) : Prop :=
  exists col : Series,
    d = setitem d0 "Fantasy Points" col /\
    length col = index_len d0 /\
    forallb is_num col = true /\
    forall i, (i < index_len d0)%nat -> num_of (nth i col VNaN) == f i.

(** What [load_data] does to the table [raw] it has after the labels are
    cleaned: same index and labels; every cell is the input cell, coerced to
    a number in the declared numeric columns, with 0 for a missing one. *)
Definition normalized (parse : string -> option Q) (declared : list string)
    (raw out : DataFrame) : Prop :=
  index_len out = index_len raw /\
  names out = names raw /\
  forall c i,
    has_column c raw = true -> (i < index_len raw)%nat ->
    cell out c i =
      fill_value (VNum 0)
        (if mem c declared then coerce parse (cell raw c i)
         else cell raw c i) /\
    isna (cell out c i) = false /\
    (mem c declared = true -> is_num (cell out c i) = true) /\
    (mem c declared = false -> isna (cell raw c i) = false ->
     cell out c i = cell raw c i).

(** A stable kind: the positions of equal entries come out in increasing
    order. *)
Definition kind_is_stable (kind : sort_kind) : Prop :=
  forall (a : list Q) (w : Q),
    filter (fun j => Qeq_bool (nth j a 0) w) (kind a) =
    filter (fun j => Qeq_bool (nth j a 0) w) (seq 0 (length a)).

(** Order of (position, entry) pairs by entry. *)
Definition entry_le (x y : nat * Q) : Prop := snd x <= snd y.

(** ** Example data *)

Definition num (z : Z) : value := VNum (inject_Z z).

(** One skater with G=2, A=1, SOG=3, HIT=1 and no other counted stat. *)
Definition example_skater : DataFrame :=
  mkDF 1
    [("Player", [VStr "Ann"]); ("Team", [VStr "TOR"]); ("Pos", [VStr "C"]);
     ("G", [num 2]); ("A", [num 1]); ("PTS", [num 3]); ("PIM", [num 0]);
     ("PPG", [num 0]); ("PPP", [num 0]); ("SOG", [num 3]); ("HIT", [num 1]);
     ("BLK", [num 0])].

Definition example_weights : dict :=
  [("G", 6); ("A", 4); ("SOG", 1 # 4); ("HIT", 2)].

(** The default weights of the input form. *)
Definition default_weights : dict :=
  [("G", 6); ("A", 4); ("PIM", 1); ("PPG", 1); ("PPP", 2); ("SOG", 1 # 4);
   ("HIT", 2); ("BLK", 2); ("W", 2); ("SV", 1 # 2); ("SO", 2)].

Definition example_goalies : DataFrame :=
  mkDF 2
    [("Player", [VStr "Gus"; VStr "Hal"]); ("Team", [VStr "TOR"; VStr "MTL"]);
     ("W", [num 30; num 20]); ("SV", [num 1500; num 1210]);
     ("SO", [num 4; num 1]); ("SV%", [VNum (92 # 100); VNum (91 # 100)]);
     ("GAA", [VNum (5 # 2); VNum (3 # 1)])].

(** A goalie table with its header and no row. *)
Definition no_goalies : DataFrame :=
  mkDF 0
    [("Player", []); ("Team", []); ("W", []); ("SV", []); ("SO", []);
     ("SV%", []); ("GAA", [])].

(** A skater export with a quoted label, an unreadable goal count, a missing
    assist count and a missing team. *)
Definition raw_skaters : DataFrame :=
  mkDF 2
    [("Player", [VStr "Ann"; VStr "Bob"]);
     ("Team", [VStr "TOR"; VNaN]);
     ("Pos", [VStr "C"; VStr "D"]);
     (String double_quote ("G" ++ String double_quote ""),
      [VStr "n/a"; VStr "12"]);
     ("A", [VNaN; num 7]);
     ("ATOI", [VStr "18.5"; VStr "-"])].

(** Scored tables: two skaters tied at 10.0 with one goalie, a third skater
    ahead and a second goalie behind. *)
Definition scored_skaters : DataFrame :=
  mkDF 3
    [("Player", [VStr "Ann"; VStr "Bob"; VStr "Cy"]);
     ("Team", [VStr "TOR"; VStr "MTL"; VStr "TOR"]);
     ("Pos", [VStr "C"; VStr "D"; VStr "LW"]);
     ("G", [num 1; num 0; num 1]); ("A", [num 1; num 1; num 1]);
     ("PTS", [num 2; num 1; num 2]); ("PIM", [num 0; num 2; num 0]);
     ("PPG", [num 0; num 0; num 0]); ("PPP", [num 0; num 0; num 0]);
     ("SOG", [num 0; num 0; num 2]); ("HIT", [num 0; num 2; num 1]);
     ("BLK", [num 0; num 0; num 0]);
     ("Fantasy Points", [VNum 10; VNum 10; VNum (25 # 2)])].

Definition scored_goalies : DataFrame :=
  mkDF 2
    [("Player", [VStr "Gus"; VStr "Hal"]); ("Team", [VStr "TOR"; VStr "MTL"]);
     ("W", [num 2; num 1]); ("SV", [num 10; num 2]); ("SO", [num 1; num 0]);
     ("SV%", [VNum (92 # 100); VNum (91 # 100)]);
     ("GAA", [VNum (5 # 2); VNum (3 # 1)]);
     ("Fantasy Points", [VNum 10; VNum 3])].

(** Eighteen skaters without a counted stat, all scored 0.0. *)
Definition tied_skaters : DataFrame :=
  mkDF 18
    [("Player", map VStr ["S01"; "S02"; "S03"; "S04"; "S05"; "S06";
                          "S07"; "S08"; "S09"; "S10"; "S11"; "S12";
                          "S13"; "S14"; "S15"; "S16"; "S17"; "S18"]);
     ("Team", repeat (VStr "TOR") 18); ("Pos", repeat (VStr "C") 18);
     ("G", repeat (num 0) 18); ("A", repeat (num 0) 18);
     ("PTS", repeat (num 0) 18); ("PIM", repeat (num 0) 18);
     ("PPG", repeat (num 0) 18); ("PPP", repeat (num 0) 18);
     ("SOG", repeat (num 0) 18); ("HIT", repeat (num 0) 18);
     ("BLK", repeat (num 0) 18);
     ("Fantasy Points", repeat (VNum 0) 18)].

(** Eleven skaters of eleven teams, the n-th with n goals, and the ranking
    [main] computes for them with the default weights. *)
Definition eleven_skaters : DataFrame :=
  mkDF 11
    [("Player", map VStr ["P01"; "P02"; "P03"; "P04"; "P05"; "P06";
                          "P07"; "P08"; "P09"; "P10"; "P11"]);
     ("Team", map VStr ["T01"; "T02"; "T03"; "T04"; "T05"; "T06";
                        "T07"; "T08"; "T09"; "T10"; "T11"]);
     ("Pos", repeat (VStr "C") 11);
     ("G", map num [1; 2; 3; 4; 5; 6; 7; 8; 9; 10; 11]%Z);
     ("A", repeat (num 0) 11); ("PTS", repeat (num 0) 11);
     ("PIM", repeat (num 0) 11); ("PPG", repeat (num 0) 11);
     ("PPP", repeat (num 0) 11); ("SOG", repeat (num 0) 11);
     ("HIT", repeat (num 0) 11); ("BLK", repeat (num 0) 11)].

Definition eleven_team_rankings : DataFrame :=
  match combined_rankings_of kind_stable 0%nat 1%nat default_weights
                             [eleven_skaters; no_goalies] with
  | (Ok combined_rankings, _) => combined_rankings
  | (Raise _, _) => mkDF 0 []
  end.
(** * Binary64 arithmetic

    pandas keeps the stat and the points columns as 64 bit floats, and a
    Python [float] has the same format.  A finite binary64 number is a
    rational, so its cells stay in [Q]; what the format adds is that every
    operation returns the representable number nearest to the exact result,
    a tie going to the even significand.  Overflow to infinity is not
    modelled: the statements bound the magnitude of what enters. *)

(** The representable numbers are the multiples [m * 2^j] of [2^-1074] with
    [|m| <= 2^53].  [x], counted in units of [2^-1074], is rounded at the
    step [2^j] that its magnitude asks for. *)
Definition b64 (x : Q) : Q :=
  let X := Qred x * inject_Z (2 ^ 1074) in
  let j := Z.max 0 (Z.log2 (Qfloor (Qabs X)) - 52) in
  Qred (inject_Z (rint (X / inject_Z (2 ^ j)) * 2 ^ j) / inject_Z (2 ^ 1074)).

Definition mul64 (x y : Q) : Q := b64 (x * y).
Definition add64 (x y : Q) : Q := b64 (x + y).
Definition sub64 (x y : Q) : Q := b64 (x - y).
Definition div64 (x y : Q) : Q := b64 (x / y).

(** [numpy.round(a, 1)] on binary64: the product with ten, [rint], the
    quotient by ten. *)
Definition round1_64 (x : Q) : Q := div64 (inject_Z (rint (mul64 x 10))) 10.

Arguments b64 : simpl never.
Arguments mul64 : simpl never.
Arguments add64 : simpl never.
Arguments sub64 : simpl never.
Arguments div64 : simpl never.
Arguments round1_64 : simpl never.

(** A binary64 number far from overflow. *)
Definition is_binary64 (x : Q) : bool :=
  Qeq_bool (b64 x) x && Qle_bool (Qabs x) (inject_Z (2 ^ 500)).

(** ** [calculate_fantasy_points] over an arithmetic

    The function once more, with the product, the sum and the rounding of
    the cells as parameters: with the exact operations it is the embedding
    above, with the binary64 operations it is what pandas computes. *)

Section Arithmetic.

Variables mul add : Q -> Q -> Q.
Variable rnd : Q -> Q.

Definition value_mul_with (v : value) (w : Q) : result value :=
  match v with
  | VNum q => Ok (VNum (mul q w))
  | VNaN => Ok VNaN
  | VStr _ => Raise TypeError
  end.

Definition series_mul_with (s : Series) (w : Q) : result Series :=
  mapM (fun v => value_mul_with v w) s.

Definition value_add_with (a b : value) : result value :=
  match a, b with
  | VNum x, VNum y => Ok (VNum (add x y))
  | VStr s, VStr t => Ok (VStr (s ++ t))
  | VStr _, _ | _, VStr _ => Raise TypeError
  | _, _ => Ok VNaN
  end.

Fixpoint series_add_with (a b : Series) : result Series :=
  match a, b with
  | x :: a', y :: b' =>
      let* z := value_add_with x y in
      let* zs := series_add_with a' b' in
      Ok (z :: zs)
  | _, _ => Ok []
  end.

Definition value_round_with (v : value) : result value :=
  match v with
  | VNum q => Ok (VNum (rnd q))
  | VNaN => Ok VNaN
  | VStr _ => Raise TypeError
  end.

Definition series_round_with (s : Series) : result Series :=
  mapM value_round_with s.

Definition add_stat_with (df : ref) (scoring : dict) (stat : string)
  : M unit :=
  cols <- df_columns df ;;
  if mem stat cols && dict_mem stat scoring then
    fp <- df_getitem df "Fantasy Points" ;;
    s <- df_getitem df stat ;;
    w <- lift (dict_getitem scoring stat) ;;
    prod <- lift (series_mul_with s w) ;;
    total <- lift (series_add_with fp prod) ;;
    df_setitem df "Fantasy Points" total
  else ret tt.

Definition accumulate_fantasy_points_with (df : ref) (scoring : dict)
    (player_type : string) : M ref :=
  df <- df_copy df ;;
  df_setitem_scalar df "Fantasy Points" (VNum 0) ;;
  (if String.eqb player_type "skater" then
     add_stat_with df scoring "G" ;;
     add_stat_with df scoring "A" ;;
     add_stat_with df scoring "PIM" ;;
     add_stat_with df scoring "PPG" ;;
     add_stat_with df scoring "PPP" ;;
     add_stat_with df scoring "SOG" ;;
     add_stat_with df scoring "HIT" ;;
     add_stat_with df scoring "BLK"
   else
     add_stat_with df scoring "W" ;;
     add_stat_with df scoring "SV" ;;
     add_stat_with df scoring "SO") ;;
  ret df.

Definition calculate_fantasy_points_with (df : ref) (scoring : dict)
    (player_type : string) : M ref :=
  df <- accumulate_fantasy_points_with df scoring player_type ;;
  fp <- df_getitem df "Fantasy Points" ;;
  rounded <- lift (series_round_with fp) ;;
  df_setitem df "Fantasy Points" rounded ;;
  ret df.

(** What one block does to the running total of the record at position
    [i]: the product of the stat and its weight is added when the table has
    the stat and the mapping its weight, and nothing happens otherwise. *)
Definition add_term (df : DataFrame) (scoring : dict) (i : nat) (acc : Q)
    (stat : string) : Q :=
  if has_column stat df && dict_mem stat scoring
  then add acc (mul (stat_value df i stat) (weight scoring stat))
  else acc.

(** The total of a record: the blocks of the stats, in their order, from
    0. *)
Definition sum_with (stats : list string) (df : DataFrame) (scoring : dict)
    (i : nat) : Q :=
  fold_left (add_term df scoring i) stats 0.

End Arithmetic.

(** The column that holds [f 0], [f 1], ... *)
Definition column_of (n : nat) (f : nat -> Q) : Series :=
  map (fun i => VNum (f i)) (seq 0 n).

(** ** The function in binary64 *)

Definition accumulate_fantasy_points64 : ref -> dict -> string -> M ref :=
  accumulate_fantasy_points_with mul64 add64.

Definition calculate_fantasy_points64 : ref -> dict -> string -> M ref :=
  calculate_fantasy_points_with mul64 add64 round1_64.

Definition sum64 : list string -> DataFrame -> dict -> nat -> Q :=
  sum_with mul64 add64.

(** The fantasy points of a record: its binary64 total, rounded by
    numpy. *)
Definition points64 (cat : category) (df : DataFrame) (scoring : dict)
    (i : nat) : Q :=
  round1_64 (sum64 (applicable_stats cat) df scoring i).

(** The counted columns and the weights hold binary64 numbers. *)
Definition binary64_column (df : DataFrame) (c : string) : bool :=
  match lookup c (columns df) with
  | Some s => forallb (fun v => is_binary64 (num_of v)) s
  | None => true
  end.

Definition binary64_inputs (stats : list string) (df : DataFrame)
    (scoring : dict) : bool :=
  forallb (binary64_column df) stats
  && forallb (fun stat => is_binary64 (weight scoring stat)) stats.

(** Every weight multiplied by [k], as Python multiplies two floats. *)
Definition scale_weights (k : Q) (scoring : dict) : dict :=
  map (fun sw => (fst sw, mul64 k (snd sw))) scoring.

(** No product and no sum of the total of record [i] is rounded: each one
    is the exact product or sum of its operands. *)
Fixpoint exact_from (stats : list string) (df : DataFrame) (scoring : dict)
    (i : nat) (acc : Q) : bool :=
  match stats with
  | [] => true
  | stat :: rest =>
      if has_column stat df && dict_mem stat scoring then
        let p := stat_value df i stat * weight scoring stat in
        Qeq_bool (mul64 (stat_value df i stat) (weight scoring stat)) p
        && Qeq_bool (add64 acc (mul64 (stat_value df i stat)
                                      (weight scoring stat)))
                    (acc + p)
        && exact_from rest df scoring i
             (add64 acc (mul64 (stat_value df i stat) (weight scoring stat)))
      else exact_from rest df scoring i acc
  end.

Definition exact_total (stats : list string) (df : DataFrame)
    (scoring : dict) (i : nat) : bool :=
  exact_from stats df scoring i 0.


(** One skater with a single shot on goal, and the weight 0.05 for it. *)
Definition one_shot : DataFrame :=
  mkDF 1
    [("Player", [VStr "Ann"]); ("Team", [VStr "TOR"]); ("Pos", [VStr "C"]);
     ("SOG", [num 1])].

Definition nickel_weights : dict := [("SOG", b64 (1 # 20))].

(** Two skaters, with one shot on goal and with twenty-nine. *)
Definition two_shooters : DataFrame :=
  mkDF 2
    [("Player", [VStr "Ann"; VStr "Bo"]); ("Team", [VStr "TOR"; VStr "MTL"]);
     ("Pos", [VStr "C"; VStr "D"]); ("SOG", [num 1; num 29])].

(** Weights as the form gives them, decimal fractions among them. *)
Definition decimal_weights : dict :=
  [("G", 6); ("A", 4); ("SOG", b64 (1 # 20)); ("HIT", b64 (3 # 10));
   ("W", 2); ("SV", b64 (1 # 5)); ("SO", 2)].

(** * The rest of [main.py] *)

(** ** [create_fantasy_scoring_inputs]

    The eleven numbers read from the form, and the dictionary the function
    stores them in (lines 79 to 85). *)

Record ScoringForm : Type := mkForm {
  g_pts : Q; a_pts : Q; pim_pts : Q;
  ppg_pts : Q; ppp_pts : Q;
  sog_pts : Q; hit_pts : Q; blk_pts : Q;
  w_pts : Q; sv_pts : Q; so_pts : Q
}.

Definition create_fantasy_scoring_inputs (form : ScoringForm) : dict :=
  [("G", g_pts form); ("A", a_pts form); ("PIM", pim_pts form);
   ("PPG", ppg_pts form); ("PPP", ppp_pts form);
   ("SOG", sog_pts form); ("HIT", hit_pts form); ("BLK", blk_pts form);
   ("W", w_pts form); ("SV", sv_pts form); ("SO", so_pts form)].

(** ** [main]: the tabs *)

(** The choice of the "Show top" box. *)
Inductive ShowTop : Type :=
| Top (n : nat)
| All.

(** Membership as [isin] tests it: as [==], except that a missing cell is
    found among values that hold a missing one. *)
Definition same_value (a b : value) : bool :=
  match a, b with
  | VNaN, VNaN => true
  | _, _ => value_eqb a b
  end.

(** [series.isin(values)] *)
Definition isin (s : Series) (values : list value) : list bool :=
  map (fun x => existsb (same_value x) values) s.

Definition all_players_cols : list string :=
  ["Rank"; "Fantasy Points"; "Player"; "Team"; "Pos";
   "G"; "A"; "PTS"; "PIM"; "PPG"; "PPP"; "SOG"; "HIT"; "BLK";
   "W"; "SV"; "SO"; "SV%"; "GAA"].

(** [sorted(series.unique())], the options of the position filter: Python
    sorts the distinct values by comparing them, and a string cannot be
    compared with a number. *)
Fixpoint distinct_values (l : list value) : list value :=
  match l with
  | [] => []
  | v :: l' =>
      v :: filter (fun x => negb (same_value x v)) (distinct_values l')
  end.

Definition mixed_types (l : list value) : bool :=
  existsb is_str l && existsb (fun v => negb (is_str v)) l.

Definition sorted_unique (s : Series) : result (list value) :=
  let values := distinct_values s in
  if mixed_types values then Raise TypeError else Ok (sort_keys values).

(** Tab 1: the options of the position filter are computed from the
    ranking; the ranking is filtered by the selected positions when there
    are any, cut to the selected length, and shown under the displayed
    labels. *)
Definition all_players_tab (combined_rankings : DataFrame) (show_top : ShowTop)
    (position_filter : list value) : result DataFrame :=
  let* positions := getitem combined_rankings "Pos" in
  let* options := sorted_unique positions in
  let display_data := combined_rankings in
  let* display_data :=
    match position_filter with
    | [] => Ok display_data
    | _ =>
        let* pos := getitem display_data "Pos" in
        Ok (boolean_index display_data (isin pos position_filter))
    end in
  let display_data :=
    match show_top with
    | All => display_data
    | Top n => head n display_data
    end in
  select display_data all_players_cols.

(** Tabs 2 and 6: the players of one type, ranked among themselves, and the
    data of the chart of the first fifteen. *)
Definition player_type_tab (combined_rankings : DataFrame)
    (player_type rank_label : string) (cols : list string)
  : result (DataFrame * DataFrame) :=
  let* t := getitem combined_rankings "Player Type" in
  let only :=
    reset_index
      (boolean_index combined_rankings (series_eq t (VStr player_type))) in
  let only := setitem only rank_label (range_series 1 (index_len only + 1)) in
  let* table := select only cols in
  Ok (table, head 15 only).

Definition forwards_tab (combined_rankings : DataFrame)
  : result (DataFrame * DataFrame) :=
  player_type_tab combined_rankings "Skater" "Skater Rank"
    ["Skater Rank"; "Fantasy Points"; "Player"; "Team"; "Pos";
     "G"; "A"; "PTS"; "PIM"; "PPG"; "PPP"; "SOG"; "HIT"; "BLK"].

Definition goalies_tab (combined_rankings : DataFrame)
  : result (DataFrame * DataFrame) :=
  player_type_tab combined_rankings "Goalie" "Goalie Rank"
    ["Goalie Rank"; "Fantasy Points"; "Player"; "Team";
     "W"; "SV"; "SO"; "SV%"; "GAA"].

(** The run of [main] after the button press as far as the Defense tab:
    the summary, the All Players tab with its widgets at their defaults and
    the Forwards tab come first. *)
Definition main_defense_tab (kind : sort_kind) (skaters goalies : DataFrame)
    (scoring : dict) : result TabView :=
  match combined_rankings_of kind 0%nat 1%nat scoring [skaters; goalies] with
  | (Ok combined_rankings, _) =>
      let* summary := summary_stats combined_rankings in
      let* all_players := all_players_tab combined_rankings (Top 100) [] in
      let* forwards := forwards_tab combined_rankings in
      defense_tab combined_rankings
  | (Raise e, _) => Raise e
  end.

(** ** [main]: the position breakdown *)

(** The cells of [vs] on the rows whose key is [g]. *)
Fixpoint group_cells (g : value) (ks vs : Series) : Series :=
  match ks, vs with
  | k :: ks', v :: vs' =>
      if value_eqb k g then v :: group_cells g ks' vs'
      else group_cells g ks' vs'
  | _, _ => []
  end.

Definition q_max (a b : Q) : Q := if Qle_bool a b then b else a.

(** The aggregations [count] and [max] of a group: each skips the missing
    cells, and the maximum is missing when no cell is left. *)
Definition present (cells : Series) : list Q :=
  map num_of (filter (fun v => negb (isna v)) cells).

Definition agg_count (cells : Series) : value :=
  VNum (inject_Z (Z.of_nat (length (present cells)))).

(** pandas takes the mean of the present cells in binary64; how it sums
    them is its own matter, so the mean is a parameter of the development.
    [kahan_mean] is the one of the current [group_mean]: a compensated sum,
    divided by the number of cells. *)
Definition mean_kind := list Q -> Q.

Fixpoint kahan_sum (l : list Q) (sumx compensation : Q) : Q :=
  match l with
  | [] => sumx
  | val :: l' =>
      let y := sub64 val compensation in
      let t := add64 sumx y in
      kahan_sum l' t (sub64 (sub64 t sumx) y)
  end.

Definition kahan_mean : mean_kind :=
  fun l => div64 (kahan_sum l 0 0) (inject_Z (Z.of_nat (length l))).

Definition agg_mean (mean : mean_kind) (cells : Series) : value :=
  match present cells with
  | [] => VNaN
  | l => VNum (mean l)
  end.

Definition agg_max (cells : Series) : value :=
  match present cells with
  | [] => VNaN
  | x :: l => VNum (fold_right q_max x l)
  end.

(** [df.groupby(key)[col].agg(['count', 'mean', 'max']).reset_index()]; a
    column of strings has no mean. *)
Definition groupby_agg (mean : mean_kind) (df : DataFrame)
    (key col : string) : result DataFrame :=
  let* ks := getitem df key in
  let* vs := getitem df col in
  if existsb is_str vs then Raise TypeError
  else
    let groups := group_keys ks in
    Ok (mkDF (length groups)
             [(key, groups);
              ("count", map (fun g => agg_count (group_cells g ks vs)) groups);
              ("mean",
               map (fun g => agg_mean mean (group_cells g ks vs)) groups);
              ("max", map (fun g => agg_max (group_cells g ks vs)) groups)]).

(** Lines 449 to 451. *)
Definition position_breakdown (kind : sort_kind) (mean : mean_kind)
    (combined_rankings : DataFrame) : result DataFrame :=
  let* pos_stats :=
    groupby_agg mean combined_rankings "Pos" "Fantasy Points" in
  let pos_stats :=
    set_columns pos_stats
      ["Position"; "Player Count"; "Average Points"; "Max Points"] in
  sort_values kind pos_stats "Average Points" false.

(** ** [main]: the preview

    Lines 484 to 499: the number of records of a loaded table and the first
    ten records under a few labels. *)
Definition preview (df : DataFrame) (cols : list string)
  : result (nat * DataFrame) :=
  let* shown := select df cols in
  Ok (index_len df, head 10 shown).

Definition skaters_preview (skaters : DataFrame) : result (nat * DataFrame) :=
  preview skaters ["Player"; "Team"; "Pos"; "G"; "A"; "PTS"].

Definition goalies_preview (goalies : DataFrame) : result (nat * DataFrame) :=
  preview goalies ["Player"; "Team"; "W"; "SV%"; "GAA"].

(** ** [main]: the session

    One run of the script.  The results are computed when the button was
    pressed in this run or the session remembers an earlier press. *)

Inductive Screen : Type :=
| LoadError
| ResultsScreen
| PreviewScreen.

Definition fantasy_calculated : string := "fantasy_calculated".

Definition main_run (loaded : bool) (run_calculation : bool)
    (session_state : list string) : list string * Screen :=
  if negb loaded then (session_state, LoadError)
  else if run_calculation || mem fantasy_calculated session_state then
    ((if mem fantasy_calculated session_state then session_state
      else (session_state ++ [fantasy_calculated])%list),
     ResultsScreen)
  else (session_state, PreviewScreen).

(** A session: the runs of the script one after the other, each with what
    the load gave and whether the button was pressed. *)
Fixpoint main_session (runs : list (bool * bool)) (session_state : list string)
  : list Screen :=
  match runs with
  | [] => []
  | (loaded, run_calculation) :: rest =>
      let (session_state', screen) :=
        main_run loaded run_calculation session_state in
      screen :: main_session rest session_state'
  end.

(** ** Vocabulary of the further statements *)

(** The screens of a sequence of runs that all show [screen] when the data
    loads. *)
Definition screens_with (screen : Screen) (runs : list (bool * bool))
  : list Screen :=
  map (fun r : bool * bool => if fst r then screen else LoadError) runs.

(** The label holds a double quote. *)
Fixpoint has_quote (s : string) : bool :=
  match s with
  | EmptyString => false
  | String c s' => Ascii.eqb c double_quote || has_quote s'
  end.

(** [t] is the position of some player of the collection. *)
Definition position_observed (combined : DataFrame) (t : value) : bool :=
  existsb (fun k => value_eqb k t) (column_or_nan combined "Pos").

(** The fantasy points of the players of position [t]. *)
Definition position_cells (combined : DataFrame) (t : value) : Series :=
  group_cells t (column_or_nan combined "Pos")
                (column_or_nan combined "Fantasy Points").

(** The number of rows of a position. *)
Definition players_at (combined : DataFrame) (pos : string) : nat :=
  length (filter (fun i => value_eqb (cell combined "Pos" i) (VStr pos))
                 (seq 0 (index_len combined))).

(** The stat columns a position tab displays. *)
Definition position_cols : list string :=
  ["Fantasy Points"; "Player"; "Team";
   "G"; "A"; "PTS"; "PIM"; "PPG"; "PPP"; "SOG"; "HIT"; "BLK"].

(** The fantasy points of the record at position [i]. *)
Definition points_at (df : DataFrame) (i : nat) : Q :=
  num_of (cell df "Fantasy Points" i).

(** No two entries are equal. *)
Fixpoint no_ties (l : list Q) : bool :=
  match l with
  | [] => true
  | x :: l' => forallb (fun y => negb (Qeq_bool x y)) l' && no_ties l'
  end.

(** The columns of the frame [create_combined_rankings] sorts: every skater
    record, then every goalie record, under the common labels. *)
Definition merged_columns (skaters goalies : DataFrame)
  : list (string * Series) :=
  let ns := index_len skaters in
  let ng := index_len goalies in
  let both c := (c, (column_or_nan skaters c ++ column_or_nan goalies c)%list) in
  let skater_only c :=
    (c, (column_or_nan skaters c ++ repeat (VNum 0) ng)%list) in
  let goalie_only c :=
    (c, (repeat (VNum 0) ns ++ column_or_nan goalies c)%list) in
  [both "Player"; both "Team";
   ("Pos", (column_or_nan skaters "Pos" ++ repeat (VStr "G") ng)%list);
   both "Fantasy Points";
   skater_only "G"; skater_only "A"; skater_only "PTS"; skater_only "PIM";
   skater_only "PPG"; skater_only "PPP"; skater_only "SOG";
   skater_only "HIT"; skater_only "BLK";
   ("Player Type",
    (repeat (VStr "Skater") ns ++ repeat (VStr "Goalie") ng)%list);
   goalie_only "W"; goalie_only "SV"; goalie_only "SO";
   goalie_only "SV%"; goalie_only "GAA"].

(** The fantasy points of that frame, skaters first. *)
Definition merged_points (skaters goalies : DataFrame) : list Q :=
  map num_of (column_or_nan skaters "Fantasy Points"
              ++ column_or_nan goalies "Fantasy Points")%list.

(** The ranking read off that frame along the indexer the sort computed. *)
Definition ranked_frame (skaters goalies : DataFrame) (indexer : list nat)
  : DataFrame :=
  setitem
    (take (mkDF (index_len skaters + index_len goalies)
                (merged_columns skaters goalies)) indexer)
    "Rank" (range_series 1 (length indexer + 1)).

(** The position of the first [true] of a mask. *)
Fixpoint first_true (mask : list bool) : option nat :=
  match mask with
  | [] => None
  | true :: _ => Some O
  | false :: mask' => option_map S (first_true mask')
  end.

(** A table without a points column, as [load_data] returns it. *)
Definition two_skaters : DataFrame :=
  mkDF 2
    [("Player", [VStr "Ann"; VStr "Bob"]); ("Team", [VStr "TOR"; VStr "MTL"]);
     ("Pos", [VStr "C"; VStr "D"]);
     ("G", [num 2; num 3]); ("A", [num 1; num 1]); ("PTS", [num 3; num 4]);
     ("PIM", [num 0; num 2]); ("PPG", [num 0; num 0]);
     ("PPP", [num 0; num 1]); ("SOG", [num 3; num 5]); ("HIT", [num 1; num 1]);
     ("BLK", [num 0; num 0])].

(** A table whose goal column was not converted. *)
Definition unconverted_skaters : DataFrame :=
  mkDF 1
    [("Player", [VStr "Ann"]); ("Team", [VStr "TOR"]); ("Pos", [VStr "C"]);
     ("G", [VStr "two"]); ("A", [num 1])].

(** Scored skaters none of whom has the points of another player. *)
Definition untied_skaters : DataFrame :=
  setitem scored_skaters "Fantasy Points"
    [VNum 9; VNum (23 # 2); VNum (25 # 2)].

(** What [load_data] returns on the raw example tables. *)
Definition example_loaded : DataFrame * DataFrame :=
  match load_data parse_decimal raw_skaters example_goalies with
  | Some p => p
  | None => (mkDF 0 [], mkDF 0 [])
  end.

(** The ranking of the scored example tables when the position of the
    second skater is the 0 that [load_data] puts for a missing cell. *)
Definition unplaced_rankings : DataFrame :=
  match create_combined_rankings kind_stable
          (setitem scored_skaters "Pos" [VStr "C"; num 0; VStr "LW"])
          scored_goalies with
  | Ok d => d
  | Raise _ => mkDF 0 []
  end.

(** The ranking computed from the scored example tables. *)
Definition example_rankings : DataFrame :=
  match create_combined_rankings kind_stable scored_skaters scored_goalies with
  | Ok d => d
  | Raise _ => mkDF 0 []
  end.

Definition example_form : ScoringForm :=
  mkForm 6 4 1 1 2 (1 # 4) 2 2 2 (1 # 2) 2.

(** * Properties *)

Open Scope list_scope.

(** ** Rounding *)

#[global] Instance rint_compat : Proper (Qeq ==> eq) rint.
Proof.
  intros x y Hxy. unfold rint.
  rewrite (Qfloor_comp x y Hxy).
  assert (H : x - inject_Z (Qfloor y) == y - inject_Z (Qfloor y))
    by (rewrite Hxy; reflexivity).
  rewrite (Qcompare_comp _ _ H (1 # 2) (1 # 2) (Qeq_refl _)).
  reflexivity.
Qed.

#[global] Instance round1_compat : Proper (Qeq ==> eq) round1.
Proof.
  intros x y Hxy. unfold round1.
  assert (H : x * 10 == y * 10) by (rewrite Hxy; reflexivity).
  rewrite (rint_compat _ _ H). reflexivity.
Qed.


Lemma round1_value (x : Q) : round1 x == inject_Z (rint (x * 10)) / 10.
Proof.
  unfold round1. rewrite Qred_correct.
  unfold Qeq, Qdiv, Qmult, Qinv, inject_Z; simpl. lia.
Qed.


(** ** Labels and columns *)

Lemma mem_In (c : string) (l : list string) : mem c l = true <-> In c l.
Proof.
  unfold mem. rewrite existsb_exists. split.
  - intros [x [Hin Heq]]. apply String.eqb_eq in Heq. now subst.
  - intros Hin. exists c. split; [assumption | apply String.eqb_refl].
Qed.

Lemma mem_cons (c c' : string) (l : list string) :
  mem c (c' :: l) = String.eqb c c' || mem c l.
Proof. reflexivity. Qed.

Lemma mem_app (c : string) (l1 l2 : list string) :
  mem c (l1 ++ l2) = mem c l1 || mem c l2.
Proof. unfold mem. apply existsb_app. Qed.

Lemma lookup_mem {A} (c : string) (l : list (string * A)) :
  mem c (map fst l) = match lookup c l with Some _ => true | None => false end.
Proof.
  unfold mem. induction l as [| [c' a] l IH]; simpl; [reflexivity |].
  destruct (String.eqb c c'); simpl; [reflexivity | exact IH].
Qed.

Lemma has_column_getitem (c : string) (df : DataFrame) :
  has_column c df = true -> exists s, lookup c (columns df) = Some s.
Proof.
  unfold has_column, names. rewrite lookup_mem.
  destruct (lookup c (columns df)) as [s |]; [eauto | discriminate].
Qed.

Lemma lookup_assign_same (c : string) (s : Series) cols :
  lookup c (assign c s cols) = Some s.
Proof.
  induction cols as [| [c' s'] cols IH]; simpl.
  - now rewrite String.eqb_refl.
  - destruct (String.eqb c c') eqn:E; simpl.
    + now rewrite String.eqb_refl.
    + now rewrite E.
Qed.

Lemma lookup_assign_other (c c' : string) (s : Series) cols :
  c' <> c -> lookup c' (assign c s cols) = lookup c' cols.
Proof.
  intros Hne. apply String.eqb_neq in Hne.
  induction cols as [| [c0 s0] cols IH]; simpl.
  - now rewrite Hne.
  - destruct (String.eqb c c0) eqn:E; simpl.
    + apply String.eqb_eq in E. subst c0. now rewrite Hne.
    + destruct (String.eqb c' c0); [reflexivity | exact IH].
Qed.

Lemma assign_assign (c : string) (s1 s2 : Series) cols :
  assign c s2 (assign c s1 cols) = assign c s2 cols.
Proof.
  induction cols as [| [c' s'] cols IH]; simpl.
  - now rewrite String.eqb_refl.
  - destruct (String.eqb c c') eqn:E; simpl.
    + now rewrite String.eqb_refl.
    + now rewrite E, IH.
Qed.

Lemma names_assign (c : string) (s : Series) cols :
  map fst (assign c s cols) =
  if mem c (map fst cols) then map fst cols else (map fst cols ++ [c])%list.
Proof.
  unfold mem. induction cols as [| [c' s'] cols IH]; simpl; [reflexivity |].
  destruct (String.eqb c c') eqn:E; simpl.
  - apply String.eqb_eq in E. now subst.
  - rewrite IH. now destruct (existsb (String.eqb c) (map fst cols)).
Qed.

Lemma lookup_setitem_other (df : DataFrame) (c c' : string) (s : Series) :
  c' <> c -> lookup c' (columns (setitem df c s)) = lookup c' (columns df).
Proof. apply lookup_assign_other. Qed.

Lemma cell_setitem_same (df : DataFrame) (c : string) (s : Series) (i : nat) :
  cell (setitem df c s) c i = nth i s VNaN.
Proof. unfold cell, setitem; simpl. now rewrite lookup_assign_same. Qed.

Lemma cell_setitem_other (df : DataFrame) (c c' : string) (s : Series) i :
  c' <> c -> cell (setitem df c s) c' i = cell df c' i.
Proof.
  intros Hne. unfold cell, setitem; simpl. now rewrite lookup_assign_other.
Qed.

(** ** Column arithmetic on numbers *)

Lemma series_mul_numeric (s : Series) (w : Q) :
  forallb is_num s = true -> series_mul s w = Ok (map (cell_mul w) s).
Proof.
  unfold series_mul. induction s as [| v s IH]; simpl; [reflexivity |].
  intros H. apply andb_prop in H as [Hv Hs].
  destruct v; try discriminate. simpl. now rewrite (IH Hs).
Qed.

Lemma series_add_numeric (a b : Series) :
  forallb is_num a = true -> forallb is_num b = true ->
  series_add a b = Ok (map cell_add (combine a b)).
Proof.
  revert b. induction a as [| x a IH]; intros [| y b]; simpl; try reflexivity.
  intros Ha Hb. apply andb_prop in Ha as [Hx Ha]. apply andb_prop in Hb as [Hy Hb].
  destruct x, y; try discriminate. simpl. now rewrite (IH b Ha Hb).
Qed.

Lemma series_round1_numeric (s : Series) :
  forallb is_num s = true -> series_round1 s = Ok (map cell_round1 s).
Proof.
  unfold series_round1. induction s as [| v s IH]; simpl; [reflexivity |].
  intros H. apply andb_prop in H as [Hv Hs].
  destruct v; try discriminate. simpl. now rewrite (IH Hs).
Qed.

Lemma is_num_nth (s : Series) (i : nat) :
  forallb is_num s = true -> (i < length s)%nat ->
  nth i s VNaN = VNum (num_of (nth i s VNaN)).
Proof.
  intros Hs Hi. rewrite forallb_forall in Hs.
  specialize (Hs (nth i s VNaN) (nth_In s VNaN Hi)).
  now destruct (nth i s VNaN).
Qed.

Lemma numeric_map_mul (s : Series) (w : Q) :
  forallb is_num s = true -> forallb is_num (map (cell_mul w) s) = true.
Proof.
  induction s as [| v s IH]; simpl; [reflexivity |].
  intros H. apply andb_prop in H as [Hv Hs].
  destruct v; try discriminate. simpl. now apply IH.
Qed.

Lemma numeric_map_add (a b : Series) :
  forallb is_num a = true -> forallb is_num b = true ->
  forallb is_num (map cell_add (combine a b)) = true.
Proof.
  revert b. induction a as [| x a IH]; intros [| y b]; simpl; try reflexivity.
  intros Ha Hb. apply andb_prop in Ha as [Hx Ha]. apply andb_prop in Hb as [Hy Hb].
  destruct x, y; try discriminate. simpl. now apply IH.
Qed.

Lemma numeric_map_round1 (s : Series) :
  forallb is_num s = true -> forallb is_num (map cell_round1 s) = true.
Proof.
  induction s as [| v s IH]; simpl; [reflexivity |].
  intros H. apply andb_prop in H as [Hv Hs].
  destruct v; try discriminate. simpl. now apply IH.
Qed.

Lemma nth_add_numeric (a b : Series) (i : nat) :
  forallb is_num a = true -> forallb is_num b = true ->
  length a = length b -> (i < length a)%nat ->
  num_of (nth i (map cell_add (combine a b)) VNaN) =
  num_of (nth i a VNaN) + num_of (nth i b VNaN).
Proof.
  revert b i. induction a as [| x a IH]; intros [| y b] i Ha Hb Hlen Hi;
    simpl in *; try lia.
  apply andb_prop in Ha as [Hx Ha]. apply andb_prop in Hb as [Hy Hb].
  destruct i as [| i].
  - destruct x, y; try discriminate. reflexivity.
  - apply IH; auto; lia.
Qed.

Lemma nth_mul_numeric (s : Series) (w : Q) (i : nat) :
  forallb is_num s = true -> (i < length s)%nat ->
  num_of (nth i (map (cell_mul w) s) VNaN) = num_of (nth i s VNaN) * w.
Proof.
  intros Hs Hi.
  change VNaN with (cell_mul w VNaN) at 1. rewrite map_nth.
  rewrite (is_num_nth s i Hs Hi). reflexivity.
Qed.

(** ** The store: [calculate_fantasy_points] against its store-free reading *)

Lemma nth_error_last {A} (h : list A) (d : A) :
  nth_error (h ++ [d]) (length h) = Some d.
Proof. rewrite nth_error_app2, Nat.sub_diag; [reflexivity | lia]. Qed.

Lemma update_last {A} (h : list A) (d d' : A) :
  update (length h) d' (h ++ [d]) = (h ++ [d'])%list.
Proof. induction h as [| x h IH]; simpl; [reflexivity | now rewrite IH]. Qed.

Lemma df_getitem_last (h : heap) (d : DataFrame) (c : string) :
  df_getitem (length h) c (h ++ [d]) = (getitem d c, h ++ [d]).
Proof.
  unfold df_getitem, bind, deref, lift. now rewrite nth_error_last.
Qed.

Lemma df_setitem_last (h : heap) (d : DataFrame) (c : string) (s : Series) :
  df_setitem (length h) c s (h ++ [d]) = (Ok tt, h ++ [setitem d c s]).
Proof.
  unfold df_setitem, bind, deref, store. rewrite nth_error_last.
  cbv beta iota. rewrite nth_error_last. now rewrite update_last.
Qed.

Lemma add_stat_last (h : heap) (d : DataFrame) (scoring : dict) (stat : string) :
  add_stat (length h) scoring stat (h ++ [d]) =
  match add_stat_frame scoring stat d with
  | Ok d' => (Ok tt, h ++ [d'])
  | Raise e => (Raise e, h ++ [d])
  end.
Proof.
  unfold add_stat, add_stat_frame, has_column.
  unfold bind at 1. unfold df_columns, bind, deref, ret.
  rewrite nth_error_last.
  cbv beta iota.
  destruct (mem stat (names d) && dict_mem stat scoring); [| reflexivity].
  rewrite df_getitem_last.
  destruct (getitem d "Fantasy Points") as [fp | e]; [| reflexivity].
  rewrite df_getitem_last. cbn [rbind].
  destruct (getitem d stat) as [s | e]; [| reflexivity].
  unfold lift. cbn [rbind].
  destruct (dict_getitem scoring stat) as [w | e]; [| reflexivity].
  cbn [rbind].
  destruct (series_mul s w) as [p | e]; [| reflexivity].
  cbn [rbind].
  destruct (series_add fp p) as [t | e]; [| reflexivity].
  cbn [rbind].
  apply df_setitem_last.
Qed.

Lemma bind_add_stat_last {A} (h : heap) (d : DataFrame) (scoring : dict)
    (stat : string) (k : unit -> M A) :
  bind (add_stat (length h) scoring stat) k (h ++ [d]) =
  match add_stat_frame scoring stat d with
  | Ok d' => k tt (h ++ [d'])
  | Raise e => (Raise e, h ++ [d])
  end.
Proof.
  unfold bind. rewrite add_stat_last.
  now destruct (add_stat_frame scoring stat d).
Qed.

Lemma df_setitem_scalar_last (h : heap) (d : DataFrame) (c : string) (v : value) :
  df_setitem_scalar (length h) c v (h ++ [d]) =
  (Ok tt, h ++ [setitem_scalar d c v]).
Proof.
  unfold df_setitem_scalar, bind, deref, store. rewrite nth_error_last.
  cbv beta iota. rewrite nth_error_last. now rewrite update_last.
Qed.

Ltac step_add_stat :=
  rewrite bind_add_stat_last; cbn [add_stats_frame add_stats_state rbind];
  match goal with
  | |- context [add_stat_frame ?sc ?st ?d] =>
      destruct (add_stat_frame sc st d);
      cbn [rbind returned]; [| reflexivity]
  end.

(** The blocks of the function, run on the copy, compute [accumulated_frame]
    of the argument's contents; the copy is a new object, and it holds
    [accumulated_state] when the blocks stop. *)
Lemma accumulate_fantasy_points_run (h : heap) (r : ref) (df : DataFrame)
    (scoring : dict) (player_type : string) :
  nth_error h r = Some df ->
  accumulate_fantasy_points r scoring player_type h =
  (returned (accumulated_frame scoring player_type df) (length h),
   h ++ [accumulated_state scoring player_type df]).
Proof.
  intros Hr.
  unfold accumulate_fantasy_points, accumulated_frame, accumulated_state,
    stats_of_tag.
  unfold bind at 1. unfold df_copy, bind at 1, deref, alloc. rewrite Hr.
  cbv beta iota.
  unfold bind at 1. rewrite df_setitem_scalar_last.
  unfold bind at 1.
  destruct (String.eqb player_type "skater");
    unfold skater_stats, goalie_stats;
    repeat step_add_stat;
    rewrite add_stat_last; cbn [add_stats_frame add_stats_state rbind];
    match goal with
    | |- context [add_stat_frame ?sc ?st ?d] =>
        destruct (add_stat_frame sc st d); reflexivity
    end.
Qed.

Lemma add_stats_state_returned (scoring : dict) (stats : list string) :
  forall d d',
    add_stats_frame scoring stats d = Ok d' ->
    add_stats_state scoring stats d = d'.
Proof.
  induction stats as [| stat stats IH]; intros d d' H; simpl in *.
  - now injection H.
  - destruct (add_stat_frame scoring stat d); [now apply IH | discriminate].
Qed.

Lemma calculate_fantasy_points_run (h : heap) (r : ref) (df : DataFrame)
    (scoring : dict) (player_type : string) :
  nth_error h r = Some df ->
  calculate_fantasy_points r scoring player_type h =
  (returned (scored_frame scoring player_type df) (length h),
   h ++ [scored_state scoring player_type df]).
Proof.
  intros Hr. unfold calculate_fantasy_points, scored_frame, scored_state,
    scored_frame.
  unfold bind at 1. rewrite (accumulate_fantasy_points_run h r df _ _ Hr).
  unfold accumulated_state.
  destruct (accumulated_frame scoring player_type df) as [d |] eqn:Hacc;
    [| reflexivity].
  rewrite (add_stats_state_returned _ _ _ _ Hacc).
  cbn [rbind returned]. unfold bind at 1. rewrite df_getitem_last.
  destruct (getitem d "Fantasy Points") as [fp |]; [| reflexivity].
  cbn [rbind]. unfold bind at 1, lift.
  destruct (series_round1 fp) as [rounded |]; [| reflexivity].
  cbn [rbind]. unfold bind, ret. now rewrite df_setitem_last.
Qed.

(** On a dangling reference the call raises at once. *)
Lemma calculate_fantasy_points_dangling (h : heap) (r : ref)
    (scoring : dict) (player_type : string) :
  nth_error h r = None ->
  calculate_fantasy_points r scoring player_type h = (Raise NameError, h).
Proof.
  intros Hr. unfold calculate_fantasy_points, accumulate_fantasy_points.
  unfold bind at 1. unfold bind at 1. unfold df_copy, bind at 1, deref.
  now rewrite Hr.
Qed.

Lemma calculate_fantasy_points_returns (h : heap) (r : ref) (df d' : DataFrame)
    (scoring : dict) (player_type : string) :
  nth_error h r = Some df ->
  scored_frame scoring player_type df = Ok d' ->
  calculate_fantasy_points r scoring player_type h =
  (Ok (length h), h ++ [d']).
Proof.
  intros Hr Hrun. rewrite (calculate_fantasy_points_run h r df _ _ Hr).
  unfold scored_state. now rewrite Hrun.
Qed.

(** ** The points column *)

Lemma well_formed_length (df : DataFrame) (c : string) (s : Series) :
  well_formed df = true -> lookup c (columns df) = Some s ->
  length s = index_len df.
Proof.
  unfold well_formed. intros Hwf Hc. apply andb_prop in Hwf as [Hlen _].
  rewrite forallb_forall in Hlen.
  assert (Hin : In (c, s) (columns df) \/ False).
  { left. induction (columns df) as [| [c' s'] l IH]; simpl in *; [discriminate |].
    destruct (String.eqb c c') eqn:E.
    - apply String.eqb_eq in E. inversion Hc. subst. now left.
    - right. apply IH; [| assumption]. intros x Hx. apply Hlen. now right. }
  destruct Hin as [Hin | []].
  specialize (Hlen _ Hin). simpl in Hlen. now apply Nat.eqb_eq in Hlen.
Qed.

Lemma weight_absent (scoring : dict) (stat : string) :
  dict_mem stat scoring = false -> weight scoring stat = 0.
Proof.
  unfold dict_mem, weight. rewrite lookup_mem.
  now destruct (lookup stat scoring).
Qed.

Lemma weight_present (scoring : dict) (stat : string) :
  dict_mem stat scoring = true ->
  dict_getitem scoring stat = Ok (weight scoring stat).
Proof.
  unfold dict_mem, weight, dict_getitem. rewrite lookup_mem.
  now destruct (lookup stat scoring).
Qed.

Lemma stat_value_absent (df : DataFrame) (stat : string) (i : nat) :
  has_column stat df = false -> stat_value df i stat = 0.
Proof.
  unfold has_column, names, stat_value, cell. rewrite lookup_mem.
  now destruct (lookup stat (columns df)).
Qed.

Lemma has_column_setitem_other (df : DataFrame) (c c' : string) (s : Series) :
  c' <> c -> has_column c' (setitem df c s) = has_column c' df.
Proof.
  intros Hne. unfold has_column, names, setitem; simpl.
  now rewrite !lookup_mem, lookup_assign_other.
Qed.

Lemma setitem_setitem (df : DataFrame) (c : string) (s1 s2 : Series) :
  setitem (setitem df c s1) c s2 = setitem df c s2.
Proof. unfold setitem; simpl. now rewrite assign_assign. Qed.

Lemma accumulates_ext (d0 d : DataFrame) (f g : nat -> Q) :
  (forall i, f i == g i) -> accumulates d0 d f -> accumulates d0 d g.
Proof.
  intros Hfg (col & Hd & Hlen & Hnum & Hf).
  exists col. repeat split; auto.
  intros i Hi. now rewrite (Hf i Hi).
Qed.

Section PointsColumn.

Variable scoring : dict.
Variable d0 : DataFrame.
Hypothesis d0_well_formed : well_formed d0 = true.

(** One block adds the stat's term to every entry of the points column. *)
Lemma add_stat_frame_accumulates (stat : string) (d : DataFrame)
    (f : nat -> Q) :
  stat <> "Fantasy Points" ->
  numeric_column d0 stat = true ->
  accumulates d0 d f ->
  exists d',
    add_stat_frame scoring stat d = Ok d' /\
    accumulates d0 d'
      (fun i => f i + stat_value d0 i stat * weight scoring stat).
Proof.
  intros Hne Hnum (col & -> & Hlen & Hcol & Hf).
  unfold add_stat_frame. rewrite (has_column_setitem_other _ _ _ _ Hne).
  destruct (has_column stat d0) eqn:Hhas; simpl.
  2:{ eexists; split; [reflexivity |]. exists col. repeat split; auto.
      intros i Hi. rewrite (Hf i Hi), (stat_value_absent _ _ _ Hhas). ring. }
  destruct (dict_mem stat scoring) eqn:Hmem.
  2:{ eexists; split; [reflexivity |]. exists col. repeat split; auto.
      intros i Hi. rewrite (Hf i Hi), (weight_absent _ _ Hmem). ring. }
  destruct (has_column_getitem _ _ Hhas) as [s Hs].
  unfold getitem at 1. simpl columns. rewrite lookup_assign_same.
  cbn [rbind].
  unfold getitem. simpl columns.
  rewrite (lookup_assign_other _ _ _ _ Hne), Hs.
  cbn [rbind]. rewrite (weight_present _ _ Hmem). cbn [rbind].
  assert (Hsnum : forallb is_num s = true).
  { unfold numeric_column in Hnum. now rewrite Hs in Hnum. }
  assert (Hslen : length s = index_len d0)
    by (eapply well_formed_length; eauto).
  rewrite (series_mul_numeric _ _ Hsnum). cbn [rbind].
  rewrite (series_add_numeric _ _ Hcol (numeric_map_mul _ _ Hsnum)).
  cbn [rbind]. rewrite setitem_setitem.
  eexists; split; [reflexivity |].
  eexists; split; [reflexivity |]. repeat split.
  - rewrite length_map, length_combine, length_map. lia.
  - apply numeric_map_add; [assumption | now apply numeric_map_mul].
  - intros i Hi.
    rewrite nth_add_numeric; auto using numeric_map_mul;
      [| rewrite length_map; lia | lia].
    rewrite nth_mul_numeric by (auto; lia).
    rewrite (Hf i Hi). unfold stat_value, cell. rewrite Hs. reflexivity.
Qed.

(** The blocks of a list of stats add the weighted sum over the list. *)
Lemma add_stats_frame_accumulates (stats : list string) :
  ~ In "Fantasy Points" stats ->
  numeric_stats stats d0 = true ->
  forall d f,
    accumulates d0 d f ->
    exists d',
      add_stats_frame scoring stats d = Ok d' /\
      accumulates d0 d' (fun i => f i + weighted_sum stats d0 scoring i).
Proof.
  induction stats as [| stat stats IH]; intros Hnotin Hnum d f Hacc.
  - exists d. split; [reflexivity |].
    eapply accumulates_ext; [| exact Hacc]. intros i; simpl. ring.
  - simpl in Hnum. apply andb_prop in Hnum as [Hstat Hrest].
    destruct (add_stat_frame_accumulates stat d f) as (d1 & Hd1 & Hacc1);
      auto.
    { intros ->. apply Hnotin. now left. }
    destruct (IH (fun Hin => Hnotin (or_intror Hin)) Hrest d1 _ Hacc1)
      as (d' & Hd' & Hacc').
    exists d'. split.
    + simpl. rewrite Hd1. exact Hd'.
    + eapply accumulates_ext; [| exact Hacc']. intros i; simpl. ring.
Qed.

End PointsColumn.

Lemma accumulates_zero (df : DataFrame) :
  accumulates df (setitem_scalar df "Fantasy Points" (VNum 0)) (fun _ => 0).
Proof.
  exists (repeat (VNum 0) (index_len df)). repeat split.
  - apply repeat_length.
  - induction (index_len df); simpl; auto.
  - intros i Hi. rewrite nth_repeat_lt by assumption. reflexivity.
Qed.

Lemma stats_of_tag_no_points (player_type : string) :
  ~ In "Fantasy Points" (stats_of_tag player_type).
Proof.
  unfold stats_of_tag, skater_stats, goalie_stats.
  destruct (String.eqb player_type "skater"); simpl; intuition discriminate.
Qed.

(** What [scored_frame] returns on a table with numeric stats: the argument
    with a points column whose entries are the rounded weighted sums. *)
Lemma scored_frame_spec (scoring : dict) (player_type : string) (df : DataFrame) :
  well_formed df = true ->
  numeric_stats (stats_of_tag player_type) df = true ->
  exists col : Series,
    scored_frame scoring player_type df =
      Ok (setitem df "Fantasy Points" col) /\
    length col = index_len df /\
    forallb is_num col = true /\
    forall i, (i < index_len df)%nat ->
      nth i col VNaN =
      VNum (round1 (weighted_sum (stats_of_tag player_type) df scoring i)).
Proof.
  intros Hwf Hnum. unfold scored_frame, accumulated_frame.
  destruct (add_stats_frame_accumulates scoring df Hwf
              (stats_of_tag player_type) (stats_of_tag_no_points _) Hnum
              _ _ (accumulates_zero df))
    as (d & -> & col & -> & Hlen & Hcol & Hf).
  cbn [rbind]. unfold getitem. simpl columns. rewrite lookup_assign_same.
  cbn [rbind]. rewrite (series_round1_numeric _ Hcol). cbn [rbind].
  rewrite setitem_setitem.
  exists (map cell_round1 col). repeat split.
  - now rewrite length_map.
  - now apply numeric_map_round1.
  - intros i Hi. change VNaN with (cell_round1 VNaN) at 1. rewrite map_nth.
    rewrite (is_num_nth col i Hcol) by lia. simpl. f_equal.
    apply round1_compat. rewrite (Hf i Hi). ring.
Qed.

(** ** [calculate_fantasy_points] *)

Lemma stats_of_category (cat : category) :
  stats_of_tag (category_tag cat) = applicable_stats cat.
Proof. now destruct cat. Qed.

(** The sum counts only the weights of the stats it ranges over. *)
Lemma weighted_sum_weights_agree (stats : list string) (df : DataFrame)
    (scoring scoring' : dict) (i : nat) :
  (forall stat, In stat stats -> lookup stat scoring' = lookup stat scoring) ->
  weighted_sum stats df scoring' i = weighted_sum stats df scoring i.
Proof.
  induction stats as [| stat stats IH]; intros H; simpl; [reflexivity |].
  rewrite IH by (intros; apply H; now right).
  unfold weight. now rewrite (H stat (or_introl eq_refl)).
Qed.

(** ** Frame of [calculate_fantasy_points] *)

Lemma nth_error_app_old {A} (h : list A) (d x : A) (r : nat) :
  nth_error h r = Some x -> nth_error (h ++ [d]) r = Some x.
Proof.
  intros H. rewrite nth_error_app1; [assumption |].
  apply nth_error_Some. congruence.
Qed.

Lemma rows_of_setitem_other (labels : list string) (df : DataFrame)
    (c : string) (s : Series) :
  ~ In c labels ->
  rows_of labels (setitem df c s) = rows_of labels df.
Proof.
  intros Hnotin. unfold rows_of. simpl index_len.
  apply map_ext. intros i. unfold row_at.
  apply map_ext_in. intros c' Hc'. f_equal.
  apply cell_setitem_other. intros ->. contradiction.
Qed.

Lemma add_stat_frame_shape (scoring : dict) (stat : string)
    (df : DataFrame) (col : Series) (d' : DataFrame) :
  add_stat_frame scoring stat (setitem df "Fantasy Points" col) = Ok d' ->
  exists col', d' = setitem df "Fantasy Points" col'.
Proof.
  unfold add_stat_frame.
  destruct (has_column stat _ && dict_mem stat scoring).
  - destruct (getitem _ "Fantasy Points") as [fp |]; [| discriminate].
    cbn [rbind]. destruct (getitem _ stat) as [s |]; [| discriminate].
    cbn [rbind]. destruct (dict_getitem scoring stat) as [w |];
      [| discriminate].
    cbn [rbind]. destruct (series_mul s w) as [p |]; [| discriminate].
    cbn [rbind]. destruct (series_add fp p) as [t |]; [| discriminate].
    cbn [rbind]. intros H. injection H as <-.
    exists t. apply setitem_setitem.
  - intros H. injection H as <-. now exists col.
Qed.

Lemma add_stats_frame_shape (scoring : dict) (stats : list string)
    (df : DataFrame) :
  forall col d',
    add_stats_frame scoring stats (setitem df "Fantasy Points" col) = Ok d' ->
    exists col', d' = setitem df "Fantasy Points" col'.
Proof.
  induction stats as [| stat stats IH]; intros col d' H; simpl in H.
  - injection H as <-. now exists col.
  - destruct (add_stat_frame scoring stat _) as [d1 |] eqn:E;
      [| discriminate].
    destruct (add_stat_frame_shape _ _ _ _ _ E) as [col1 ->].
    now apply (IH col1).
Qed.

(** Whenever the function returns, the table is the argument with a points
    column put in place. *)
Lemma scored_frame_shape (scoring : dict) (player_type : string)
    (df d' : DataFrame) :
  scored_frame scoring player_type df = Ok d' ->
  exists col, d' = setitem df "Fantasy Points" col.
Proof.
  unfold scored_frame, accumulated_frame, setitem_scalar.
  destruct (add_stats_frame _ _ _) as [d |] eqn:E; [| discriminate].
  destruct (add_stats_frame_shape _ _ _ _ _ E) as [col ->].
  cbn [rbind]. destruct (getitem _ _) as [fp |]; [| discriminate].
  cbn [rbind]. destruct (series_round1 fp) as [rounded |]; [| discriminate].
  cbn [rbind]. intros H. injection H as <-.
  exists rounded. apply setitem_setitem.
Qed.

(** C8. For every table and every weights mapping, a call of
    [calculate_fantasy_points] only adds an object to the store: every
    object that existed before, the argument included, has the contents it
    had, whether the call returns or raises.  What it returns is a new
    table with the records of the argument in the same order, every column
    other than the fantasy points being the argument's column; and it does
    return on a well-formed table with numeric stats. *)
Theorem calculate_fantasy_points_leaves_input (h : heap) (r : ref)
    (scoring : dict) (player_type : string) :
  let run := calculate_fantasy_points r scoring player_type h in
  (exists created, snd run = h ++ created) /\
  (forall r0 d, nth_error h r0 = Some d -> nth_error (snd run) r0 = Some d) /\
  (forall r', fst run = Ok r' ->
     nth_error h r' = None /\
     exists df df',
       nth_error h r = Some df /\
       nth_error (snd run) r' = Some df' /\
       index_len df' = index_len df /\
       (forall c, c <> "Fantasy Points" ->
                  lookup c (columns df') = lookup c (columns df)) /\
       (forall labels, ~ In "Fantasy Points" labels ->
                       rows_of labels df' = rows_of labels df)) /\
  (forall df, nth_error h r = Some df ->
              well_formed df = true ->
              numeric_stats (stats_of_tag player_type) df = true ->
              exists r', fst run = Ok r').
Proof.
  cbv zeta.
  destruct (nth_error h r) as [df |] eqn:Hr.
  - rewrite (calculate_fantasy_points_run h r df _ _ Hr). cbn [fst snd].
    split; [now eexists |].
    split; [intros r0 d; apply nth_error_app_old |].
    split.
    + intros r' Hret.
      destruct (scored_frame scoring player_type df) as [d' |] eqn:Hrun;
        [| discriminate].
      injection Hret as <-.
      destruct (scored_frame_shape _ _ _ _ Hrun) as [col ->].
      split; [apply nth_error_None; lia |].
      exists df, (setitem df "Fantasy Points" col).
      unfold scored_state. rewrite Hrun.
      split; [reflexivity |]. split; [apply nth_error_last |].
      split; [reflexivity |]. split.
      * intros c Hc. now apply lookup_setitem_other.
      * intros labels Hl. now apply rows_of_setitem_other.
    + intros df0 Hdf0 Hwf Hnum. injection Hdf0 as <-.
      destruct (scored_frame_spec scoring _ df Hwf Hnum) as (col & -> & _).
      now eexists.
  - rewrite (calculate_fantasy_points_dangling h r _ _ Hr). cbn [fst snd].
    split; [exists []; now rewrite app_nil_r |].
    split; [auto |]. split; [discriminate | discriminate].
Qed.

(** The frame property at the worked example: the call returns reference 1
    and the store holds the input, unchanged, at reference 0. *)
Lemma calculate_fantasy_points_leaves_input_witness :
  let run :=
    calculate_fantasy_points 0%nat example_weights "skater" [example_skater] in
  fst run = Ok 1%nat /\
  nth_error (snd run) 0 = Some example_skater /\
  (forall r0 d, nth_error [example_skater] r0 = Some d ->
                nth_error (snd run) r0 = Some d).
Proof.
  split; [reflexivity |]. split; [reflexivity |].
  apply (calculate_fantasy_points_leaves_input [example_skater] 0%nat
           example_weights "skater").
Defined.

(** ** The worked example *)




(** ** The category switch *)



(** ** The unguarded summary metric *)

Lemma lookup_map_snd {A B} (f : string * A -> B) (c : string)
    (l : list (string * A)) :
  lookup c (map (fun cs => (fst cs, f cs)) l) =
  match lookup c l with
  | Some a => Some (f (c, a))
  | None => None
  end.
Proof.
  induction l as [| [c' a] l IH]; simpl; [reflexivity |].
  destruct (String.eqb c c') eqn:E; [| exact IH].
  apply String.eqb_eq in E. now subst.
Qed.


(** Without a row whose position is G, the summary raises [IndexError]:
    either the table is empty and the first [iloc[0]] fails, or the goalie
    filter is empty and the second one does. *)
Lemma summary_stats_without_goalie (combined : DataFrame) (pos : Series) :
  has_column "Player" combined = true ->
  has_column "Fantasy Points" combined = true ->
  getitem combined "Pos" = Ok pos ->
  count_true (firstn (index_len combined) (series_eq pos (VStr "G"))) = 0%nat ->
  summary_stats combined = Raise IndexError.
Proof.
  intros HP HF Hpos Hnone. unfold summary_stats, iloc0.
  destruct (index_len combined) as [| n] eqn:Hn; [reflexivity |].
  cbn [rbind]. unfold row_get.
  rewrite !lookup_map_snd.
  destruct (has_column_getitem _ _ HP) as [sp Hsp].
  destruct (has_column_getitem _ _ HF) as [sf Hsf].
  unfold Series in Hsp, Hsf. rewrite Hsp, Hsf.
  cbn [rbind]. rewrite Hpos. cbn [rbind].
  unfold boolean_index at 1. cbn [index_len]. rewrite Hn, Hnone.
  reflexivity.
Qed.

(** C3. On a snapshot with a skater and a goalie table that has no row,
    the run of [main] stops in the summary with [IndexError], raised by the
    unguarded [iloc[0]] of the Top Goalie metric, and no tab is shown.  The
    Defense tab has the guard the metric lacks: on a snapshot with goalies
    and no defenseman the summary is shown and the Defense tab, which tests
    [empty] first, reports that no player was found. *)
Theorem top_goalie_metric_unguarded :
  main_summary kind_stable example_skater no_goalies default_weights =
    Raise IndexError /\
  main_defense_tab kind_stable example_skater no_goalies default_weights =
    Raise IndexError /\
  (exists summary,
     main_summary kind_stable example_skater example_goalies default_weights =
       Ok summary /\
     top_goalie summary = VStr "Gus") /\
  main_defense_tab kind_stable example_skater example_goalies default_weights =
    Ok (TabWarning "No Defensemen found in the data.").
Proof.
  split; [vm_compute; reflexivity |].
  split; [vm_compute; reflexivity |].
  split; [| vm_compute; reflexivity].
  eexists. split; [vm_compute; reflexivity | reflexivity].
Qed.

(** ** [load_data] *)

Lemma coerce_idempotent (parse : string -> option Q) (v : value) :
  coerce parse (coerce parse v) = coerce parse v.
Proof.
  destruct v as [q | s |]; simpl; try reflexivity.
  now destruct (parse s).
Qed.

Lemma to_numeric_idempotent (parse : string -> option Q) (s : Series) :
  to_numeric parse (to_numeric parse s) = to_numeric parse s.
Proof.
  unfold to_numeric. rewrite map_map. apply map_ext.
  apply coerce_idempotent.
Qed.

Lemma lookup_assign (c c' : string) (s : Series) cols :
  lookup c' (assign c s cols) =
  if String.eqb c' c then Some s else lookup c' cols.
Proof.
  destruct (String.eqb c' c) eqn:E.
  - apply String.eqb_eq in E. subst. apply lookup_assign_same.
  - apply String.eqb_neq in E. now apply lookup_assign_other.
Qed.

(** The conversion loop: labels and index stay, and each column named in
    [cols] is replaced by its numeric reading. *)
Lemma convert_numeric_spec (parse : string -> option Q) (cols : list string) :
  forall df : DataFrame,
  exists df',
    convert_numeric parse cols df = Ok df' /\
    index_len df' = index_len df /\
    names df' = names df /\
    forall c,
      lookup c (columns df') =
      match lookup c (columns df) with
      | Some s => Some (if mem c cols then to_numeric parse s else s)
      | None => None
      end.
Proof.
  induction cols as [| col cols IH]; intros df.
  - exists df. repeat split. intros c. now destruct (lookup c (columns df)).
  - cbn [convert_numeric].
    destruct (has_column col df) eqn:Hhas.
    + destruct (has_column_getitem _ _ Hhas) as [s Hs].
      unfold getitem. rewrite Hs. cbn [rbind].
      destruct (IH (setitem df col (to_numeric parse s)))
        as (df' & Hrun & Hlen & Hnames & Hcols).
      exists df'. split; [exact Hrun |]. split; [exact Hlen |]. split.
      * rewrite Hnames. unfold names, setitem; simpl.
        rewrite names_assign.
        unfold has_column, names in Hhas. now rewrite Hhas.
      * intros c. rewrite Hcols. simpl columns. rewrite lookup_assign.
        unfold mem; simpl. fold (mem c cols).
        destruct (String.eqb c col) eqn:E.
        -- apply String.eqb_eq in E. subst c. rewrite Hs. simpl.
           f_equal. destruct (mem col cols); [| reflexivity].
           apply to_numeric_idempotent.
        -- reflexivity.
    + destruct (IH df) as (df' & Hrun & Hlen & Hnames & Hcols).
      exists df'. repeat split; auto.
      intros c. rewrite Hcols. unfold mem; simpl. fold (mem c cols).
      destruct (String.eqb c col) eqn:E; [| reflexivity].
      apply String.eqb_eq in E. subst c.
      unfold has_column, names in Hhas. rewrite lookup_mem in Hhas.
      now destruct (lookup col (columns df)).
Qed.

Lemma lookup_fillna (v0 : value) (df : DataFrame) (c : string) :
  lookup c (columns (fillna v0 df)) =
  match lookup c (columns df) with
  | Some s => Some (map (fill_value v0) s)
  | None => None
  end.
Proof.
  unfold fillna; simpl.
  induction (columns df) as [| [c' s'] l IH]; simpl; [reflexivity |].
  destruct (String.eqb c c'); [reflexivity | exact IH].
Qed.

Lemma names_fillna (v0 : value) (df : DataFrame) :
  names (fillna v0 df) = names df.
Proof. unfold names, fillna; simpl. rewrite map_map. reflexivity. Qed.

Lemma nth_map_in_range {A B} (f : A -> B) (l : list A) (i : nat) (a : A) (b : B) :
  (i < length l)%nat -> nth i (map f l) b = f (nth i l a).
Proof.
  revert i. induction l as [| x l IH]; intros [| i] Hi; simpl in *;
    try lia; auto. apply IH. lia.
Qed.

Lemma normalize_spec (parse : string -> option Q) (declared : list string)
    (raw : DataFrame) :
  well_formed raw = true ->
  exists converted,
    convert_numeric parse declared raw = Ok converted /\
    normalized parse declared raw (fillna (VNum 0) converted).
Proof.
  intros Hwf.
  destruct (convert_numeric_spec parse declared raw)
    as (df' & Hrun & Hlen & Hnames & Hcols).
  exists df'. split; [exact Hrun |].
  split; [exact Hlen |]. split; [now rewrite names_fillna |].
  intros c i Hhas Hi.
  destruct (has_column_getitem _ _ Hhas) as [s Hs].
  pose proof (well_formed_length raw c s Hwf Hs) as Hslen.
  assert (Hcell :
    cell (fillna (VNum 0) df') c i =
    fill_value (VNum 0)
      (if mem c declared then coerce parse (cell raw c i) else cell raw c i)).
  { unfold cell. rewrite lookup_fillna, Hcols, Hs.
    destruct (mem c declared).
    - unfold to_numeric. rewrite map_map.
      apply (nth_map_in_range
               (fun x => fill_value (VNum 0) (coerce parse x)) s i VNaN VNaN).
      lia.
    - apply (nth_map_in_range (fill_value (VNum 0)) s i VNaN VNaN). lia. }
  rewrite Hcell. repeat split.
  - destruct (mem c declared); [destruct (coerce parse (cell raw c i)) |
                                 destruct (cell raw c i)]; reflexivity.
  - intros ->. destruct (cell raw c i) as [q | t |]; simpl; try reflexivity.
    now destruct (parse t).
  - intros -> Hpresent. now destruct (cell raw c i).
Qed.

(** C6. On the two tables read from the files, labels cleaned, [load_data]
    does not raise and returns two tables with the index and the labels of
    the inputs in which the declared numeric columns hold numbers (what a
    cell spells, or 0 when it is missing or spells no number), no cell of any
    column is missing, and the cells of the other columns are the input
    cells, 0 standing in for a missing one. *)
Theorem load_data_normalizes (parse : string -> option Q)
    (skaters goalies : DataFrame) :
  well_formed (clean_column_names skaters) = true ->
  well_formed (clean_column_names goalies) = true ->
  exists s g,
    load_data parse skaters goalies = Some (s, g) /\
    normalized parse numeric_cols_skaters (clean_column_names skaters) s /\
    normalized parse numeric_cols_goalies (clean_column_names goalies) g.
Proof.
  intros Hs Hg. unfold load_data.
  destruct (normalize_spec parse numeric_cols_skaters _ Hs) as (s & -> & Hns).
  destruct (normalize_spec parse numeric_cols_goalies _ Hg) as (g & -> & Hng).
  cbn [rbind]. eauto.
Qed.

Lemma load_data_normalizes_witness :
  well_formed (clean_column_names raw_skaters) = true /\
  well_formed (clean_column_names example_goalies) = true /\
  exists s g,
    load_data parse_decimal raw_skaters example_goalies = Some (s, g) /\
    normalized parse_decimal numeric_cols_skaters
               (clean_column_names raw_skaters) s /\
    normalized parse_decimal numeric_cols_goalies
               (clean_column_names example_goalies) g.
Proof.
  repeat (split; [reflexivity |]).
  apply (load_data_normalizes parse_decimal raw_skaters example_goalies);
    reflexivity.
Defined.

(** ** Sorting kinds *)

Lemma map_nth_seq {A} (l : list A) (d : A) :
  map (fun i => nth i l d) (seq 0 (length l)) = l.
Proof.
  induction l as [| x l IH]; simpl; [reflexivity |].
  f_equal. rewrite <- seq_shift, map_map. exact IH.
Qed.

Lemma filter_map_comm {A B} (f : A -> B) (p : B -> bool) (l : list A) :
  filter p (map f l) = map f (filter (fun x => p (f x)) l).
Proof.
  induction l as [| x l IH]; simpl; [reflexivity |].
  destruct (p (f x)); simpl; now rewrite IH.
Qed.

Lemma map_fst_combine {A B} (l : list A) (l' : list B) :
  length l = length l' -> map fst (combine l l') = l.
Proof.
  revert l'. induction l as [| x l IH]; intros [| y l'] H; simpl in *;
    try reflexivity; try discriminate.
  f_equal. apply IH. lia.
Qed.

Lemma In_combine_seq (a : list Q) (s i : nat) (q : Q) :
  In (i, q) (combine (seq s (length a)) a) ->
  (s <= i)%nat /\ nth (i - s) a 0 = q.
Proof.
  revert s. induction a as [| x a IH]; intros s; simpl; [tauto |].
  intros [H | H].
  - inversion H; subst. rewrite Nat.sub_diag. split; [lia | reflexivity].
  - destruct (IH _ H) as [Hle Hnth]. split; [lia |].
    replace (i - s)%nat with (S (i - S s)) by lia. exact Hnth.
Qed.

Lemma insert_entry_perm (b : bool) (x : nat * Q) (l : list (nat * Q)) :
  Permutation (insert_entry b x l) (x :: l).
Proof.
  induction l as [| y l IH]; simpl; [reflexivity |].
  destruct (if b then Qle_bool (snd x) (snd y)
            else negb (Qle_bool (snd y) (snd x))); [reflexivity |].
  rewrite IH. apply perm_swap.
Qed.

Lemma insertion_perm (b : bool) (l : list (nat * Q)) :
  Permutation (fold_right (insert_entry b) [] l) l.
Proof.
  induction l as [| x l IH]; simpl; [reflexivity |].
  rewrite insert_entry_perm. now constructor.
Qed.

Lemma insert_entry_cases (b : bool) (x y : nat * Q) :
  (if b then Qle_bool (snd x) (snd y) else negb (Qle_bool (snd y) (snd x)))
  = true -> entry_le x y.
Proof.
  unfold entry_le. destruct b; intros H.
  - now apply Qle_bool_iff.
  - apply negb_true_iff in H.
    destruct (Qlt_le_dec (snd x) (snd y)) as [Hlt | Hle].
    + now apply Qlt_le_weak.
    + apply Qle_bool_iff in Hle. congruence.
Qed.

Lemma insert_entry_cases_false (b : bool) (x y : nat * Q) :
  (if b then Qle_bool (snd x) (snd y) else negb (Qle_bool (snd y) (snd x)))
  = false -> entry_le y x.
Proof.
  unfold entry_le. destruct b; intros H.
  - destruct (Qlt_le_dec (snd y) (snd x)) as [Hlt | Hle].
    + now apply Qlt_le_weak.
    + apply Qle_bool_iff in Hle. congruence.
  - apply negb_false_iff in H. now apply Qle_bool_iff.
Qed.

Lemma insert_entry_hdrel (b : bool) (x y : nat * Q) (l : list (nat * Q)) :
  HdRel entry_le y l -> entry_le y x ->
  HdRel entry_le y (insert_entry b x l).
Proof.
  intros Hl Hyx. destruct l as [| z l]; simpl; [now constructor |].
  destruct (if b then Qle_bool (snd x) (snd z)
            else negb (Qle_bool (snd z) (snd x))).
  - now constructor.
  - constructor. now inversion Hl.
Qed.

Lemma insert_entry_sorted (b : bool) (x : nat * Q) (l : list (nat * Q)) :
  Sorted entry_le l -> Sorted entry_le (insert_entry b x l).
Proof.
  induction l as [| y l IH]; intros Hs; simpl.
  - repeat constructor.
  - inversion Hs as [| ? ? Hl Hhd]; subst.
    destruct (if b then Qle_bool (snd x) (snd y)
              else negb (Qle_bool (snd y) (snd x))) eqn:E.
    + constructor; [assumption |]. constructor.
      now apply (insert_entry_cases b).
    + constructor; [now apply IH |].
      apply insert_entry_hdrel; [assumption |].
      now apply (insert_entry_cases_false b).
Qed.

Lemma insertion_sorted (b : bool) (l : list (nat * Q)) :
  Sorted entry_le (fold_right (insert_entry b) [] l).
Proof.
  induction l as [| x l IH]; simpl; [constructor |].
  now apply insert_entry_sorted.
Qed.

Lemma Sorted_map {A B} (R : B -> B -> Prop) (f : A -> B) (l : list A) :
  Sorted (fun x y => R (f x) (f y)) l -> Sorted R (map f l).
Proof.
  induction 1 as [| x l Hs IH Hhd]; simpl; constructor; auto.
  destruct Hhd; simpl; constructor; assumption.
Qed.

Lemma insertion_entries (b : bool) (a : list Q) (e : nat * Q) :
  In e (fold_right (insert_entry b) [] (combine (seq 0 (length a)) a)) ->
  snd e = nth (fst e) a 0.
Proof.
  intros Hin.
  apply (Permutation_in _ (insertion_perm b _)) in Hin.
  destruct e as [i q]. apply In_combine_seq in Hin as [_ H].
  simpl. now rewrite Nat.sub_0_r in H.
Qed.

(** Both insertion sorts are sorting kinds. *)
Lemma insertion_argsort_ok (b : bool) : sort_kind_ok (insertion_argsort b).
Proof.
  intros a. unfold insertion_argsort. split.
  - rewrite (Permutation_map fst (insertion_perm b _)).
    rewrite map_fst_combine; [reflexivity | apply length_seq].
  - rewrite map_map.
    rewrite (map_ext_in _ snd).
    + apply Sorted_map. apply insertion_sorted.
    + intros e He. symmetry. now apply (insertion_entries b).
Qed.

Lemma kind_stable_ok : sort_kind_ok kind_stable.
Proof. apply insertion_argsort_ok. Qed.

Lemma kind_reversing_ok : sort_kind_ok kind_reversing.
Proof. apply insertion_argsort_ok. Qed.

Lemma insert_entry_filter (w : Q) (x : nat * Q) (l : list (nat * Q)) :
  filter (fun e => Qeq_bool (snd e) w) (insert_entry true x l) =
  filter (fun e => Qeq_bool (snd e) w) (x :: l).
Proof.
  induction l as [| y l IH]; [reflexivity |].
  cbn [insert_entry].
  destruct (Qle_bool (snd x) (snd y)) eqn:E; [reflexivity |].
  cbn [filter] in *. rewrite IH.
  destruct (Qeq_bool (snd x) w) eqn:Ex; [| reflexivity].
  destruct (Qeq_bool (snd y) w) eqn:Ey; [| reflexivity].
  apply Qeq_bool_iff in Ex, Ey.
  assert (Hle : snd x <= snd y) by (rewrite Ex, Ey; apply Qle_refl).
  apply Qle_bool_iff in Hle. congruence.
Qed.

Lemma insertion_filter (w : Q) (l : list (nat * Q)) :
  filter (fun e => Qeq_bool (snd e) w) (fold_right (insert_entry true) [] l) =
  filter (fun e => Qeq_bool (snd e) w) l.
Proof.
  induction l as [| x l IH]; [reflexivity |].
  cbn [fold_right]. rewrite insert_entry_filter. cbn [filter].
  now rewrite IH.
Qed.

Lemma kind_stable_is_stable : kind_is_stable kind_stable.
Proof.
  intros a w. unfold kind_stable, insertion_argsort.
  rewrite filter_map_comm.
  rewrite (filter_ext_in _ (fun e => Qeq_bool (snd e) w)).
  2:{ intros e He. now rewrite (insertion_entries true a e He). }
  rewrite insertion_filter.
  rewrite <- (map_fst_combine (seq 0 (length a)) a) at 2
    by apply length_seq.
  rewrite filter_map_comm. f_equal.
  apply filter_ext_in. intros [i q] He.
  apply In_combine_seq in He as [_ H]. simpl.
  now rewrite Nat.sub_0_r in H; subst.
Qed.

(** ** Descending sorts of a numeric column *)

Lemma filter_all {A} (p : A -> bool) (l : list A) :
  (forall x, In x l -> p x = true) -> filter p l = l.
Proof.
  induction l as [| x l IH]; intros H; simpl; [reflexivity |].
  rewrite (H x (or_introl eq_refl)). f_equal. apply IH.
  intros y Hy. apply H. now right.
Qed.

Lemma filter_none {A} (p : A -> bool) (l : list A) :
  (forall x, In x l -> p x = false) -> filter p l = [].
Proof.
  induction l as [| x l IH]; intros H; simpl; [reflexivity |].
  rewrite (H x (or_introl eq_refl)). apply IH.
  intros y Hy. apply H. now right.
Qed.

Lemma numeric_no_str (s : Series) :
  forallb is_num s = true -> existsb is_str s = false.
Proof.
  induction s as [| v s IH]; simpl; [reflexivity |].
  intros H. apply andb_prop in H as [Hv Hs].
  destruct v; try discriminate. simpl. now apply IH.
Qed.

Lemma numeric_nth_present (s : Series) (i : nat) :
  forallb is_num s = true -> In i (seq 0 (length s)) ->
  isna (nth i s VNaN) = false.
Proof.
  intros Hs Hi. apply in_seq in Hi.
  rewrite (is_num_nth s i Hs) by lia. reflexivity.
Qed.

Lemma StronglySorted_snoc {A} (R : A -> A -> Prop) (l : list A) (x : A) :
  StronglySorted R l -> Forall (fun y => R y x) l ->
  StronglySorted R (l ++ [x]).
Proof.
  induction 1 as [| y l Hs IH Hall]; intros Hx; simpl.
  - repeat constructor.
  - inversion Hx; subst. constructor; [now apply IH |].
    apply Forall_app. split; [assumption | now repeat constructor].
Qed.

Lemma StronglySorted_rev {A} (R : A -> A -> Prop) (l : list A) :
  StronglySorted R l -> StronglySorted (fun a b => R b a) (rev l).
Proof.
  induction 1 as [| x l Hs IH Hall]; simpl; [constructor |].
  apply StronglySorted_snoc; [assumption |].
  apply Forall_rev. exact Hall.
Qed.

Lemma ascending_rev (l : list Q) : Sorted Qle l -> descending (rev l).
Proof.
  intros H. apply StronglySorted_Sorted.
  apply (StronglySorted_rev Qle).
  apply Sorted_StronglySorted; [| assumption].
  intros x y z. apply Qle_trans.
Qed.

Section Ranking.

Variable kind : sort_kind.
Hypothesis kind_ok : sort_kind_ok kind.

(** A descending sort of a column of numbers: the indexer lists every
    position once, the entries along it do not increase, and a stable kind
    leaves the positions of equal entries in increasing order. *)
Lemma nargsort_descending (items : Series) :
  forallb is_num items = true ->
  exists indexer,
    nargsort kind items false = Ok indexer /\
    Permutation indexer (seq 0 (length items)) /\
    descending (map (fun i => num_of (nth i items VNaN)) indexer) /\
    (kind_is_stable kind ->
     forall w,
       filter (fun i => Qeq_bool (num_of (nth i items VNaN)) w) indexer =
       filter (fun i => Qeq_bool (num_of (nth i items VNaN)) w)
              (seq 0 (length items))).
Proof.
  intros Hnum. unfold nargsort.
  rewrite (numeric_no_str _ Hnum).
  rewrite (filter_all (fun i => negb (isna (nth i items VNaN)))) by
    (intros i Hi; now rewrite (numeric_nth_present _ _ Hnum Hi)).
  rewrite (filter_none (fun i => isna (nth i items VNaN))) by
    (intros i Hi; now apply numeric_nth_present).
  rewrite app_nil_r.
  set (n := length items).
  set (key := fun i => num_of (nth i items VNaN)).
  set (R := rev (seq 0 n)).
  set (a := map key R).
  set (g := fun j => nth j R 0%nat).
  assert (HlenR : length R = n) by (unfold R; now rewrite length_rev, length_seq).
  assert (Hlena : length a = n) by (unfold a; now rewrite length_map).
  destruct (kind_ok a) as [Hperm Hsorted]. rewrite Hlena in Hperm.
  assert (HgR : map g (seq 0 n) = R)
    by (unfold g; rewrite <- HlenR; apply map_nth_seq).
  assert (Hkey : forall j, (j < n)%nat -> key (g j) = nth j a 0).
  { intros j Hj. unfold a, g. symmetry.
    apply (nth_map_in_range key R j 0%nat 0). lia. }
  assert (HinK : forall j, In j (kind a) -> (j < n)%nat).
  { intros j Hj. apply (Permutation_in _ Hperm) in Hj.
    apply in_seq in Hj. lia. }
  eexists. split; [reflexivity |]. split; [| split].
  - rewrite <- Permutation_rev.
    rewrite (Permutation_map g Hperm), HgR. unfold R.
    symmetry. apply Permutation_rev.
  - rewrite map_rev, map_map.
    rewrite (map_ext_in _ (fun j => nth j a 0)) by
      (intros j Hj; apply Hkey; now apply HinK).
    now apply ascending_rev.
  - intros Hstable w.
    rewrite filter_rev, filter_map_comm.
    rewrite (filter_ext_in _ (fun j => Qeq_bool (nth j a 0) w)) by
      (intros j Hj; fold (key (g j)); rewrite Hkey; auto).
    rewrite (Hstable a w), Hlena.
    rewrite (filter_ext_in _ (fun j => Qeq_bool (key (g j)) w)) by
      (intros j Hj; apply in_seq in Hj; rewrite Hkey; [reflexivity | lia]).
    rewrite <- (filter_map_comm g (fun i => Qeq_bool (key i) w)), HgR.
    unfold R. now rewrite filter_rev, rev_involutive.
Qed.

(** ** Rows of a reordered frame *)

Lemma lookup_take (df : DataFrame) (indexer : list nat) (c : string) :
  lookup c (columns (take df indexer)) =
  match lookup c (columns df) with
  | Some s => Some (map (fun i => nth i s VNaN) indexer)
  | None => None
  end.
Proof.
  unfold take; simpl.
  induction (columns df) as [| [c' s'] l IH]; simpl; [reflexivity |].
  destruct (String.eqb c c'); [reflexivity | exact IH].
Qed.

Lemma cell_take (df : DataFrame) (indexer : list nat) (c : string) (i : nat) :
  (i < length indexer)%nat ->
  cell (take df indexer) c i = cell df c (nth i indexer 0%nat).
Proof.
  intros Hi. unfold cell. rewrite lookup_take.
  destruct (lookup c (columns df)) as [s |]; [| reflexivity].
  apply (nth_map_in_range (fun j => nth j s VNaN) indexer i 0%nat VNaN Hi).
Qed.

Lemma rows_of_take (labels : list string) (df : DataFrame)
    (indexer : list nat) :
  rows_of labels (take df indexer) = map (row_at labels df) indexer.
Proof.
  unfold rows_of. simpl index_len.
  transitivity (map (row_at labels df)
                    (map (fun i => nth i indexer 0%nat)
                         (seq 0 (length indexer))));
    [| now rewrite map_nth_seq].
  rewrite map_map. apply map_ext_in. intros i Hi. apply in_seq in Hi.
  unfold row_at. apply map_ext. intros c. f_equal.
  apply cell_take. lia.
Qed.

(** ** [create_combined_rankings] *)

Ltac use_column H :=
  let s := fresh "s" in
  let Hs := fresh "Hs" in
  destruct (has_column_getitem _ _ H) as [s Hs];
  try rewrite Hs.

(** The frame before the sort: skater rows, then goalie rows, under the
    common labels. *)
Lemma display_concat_spec (skaters goalies : DataFrame) :
  scored_table skater_cols skaters = true ->
  scored_table goalie_cols goalies = true ->
  exists before fs fg,
    display_concat skaters goalies = Ok before /\
    lookup "Fantasy Points" (columns skaters) = Some fs /\
    lookup "Fantasy Points" (columns goalies) = Some fg /\
    forallb is_num (fs ++ fg) = true /\
    length (fs ++ fg) = (index_len skaters + index_len goalies)%nat /\
    index_len before = (index_len skaters + index_len goalies)%nat /\
    names before = combined_labels /\
    lookup "Fantasy Points" (columns before) = Some (fs ++ fg) /\
    lookup "Player" (columns before) =
      Some (column_or_nan skaters "Player" ++ column_or_nan goalies "Player") /\
    lookup "Team" (columns before) =
      Some (column_or_nan skaters "Team" ++ column_or_nan goalies "Team").
Proof.
  unfold scored_table, has_columns, numeric_column.
  intros Hs Hg.
  apply andb_prop in Hs as [Hs Hsnum]. apply andb_prop in Hs as [Hs _].
  apply andb_prop in Hs as [Hswf Hs].
  apply andb_prop in Hg as [Hg Hgnum]. apply andb_prop in Hg as [Hg _].
  apply andb_prop in Hg as [Hgwf Hg].
  cbn [forallb skater_cols goalie_cols] in Hs, Hg.
  repeat match goal with
         | H : _ && _ = true |- _ => apply andb_prop in H as [? H]
         end.
  unfold display_concat, select, getitem, column_or_nan.
  cbn [mapM skater_cols goalie_cols].
  repeat match goal with
         | H : has_column _ _ = true |- _ => use_column H; clear H
         end.
  cbn [rbind].
  match goal with
  | Hfs : lookup "Fantasy Points" (columns skaters) = Some ?fs,
    Hfg : lookup "Fantasy Points" (columns goalies) = Some ?fg |- _ =>
      rewrite Hfs in Hsnum; rewrite Hfg in Hgnum;
      pose proof (well_formed_length _ _ _ Hswf Hfs) as Hlens;
      pose proof (well_formed_length _ _ _ Hgwf Hfg) as Hleng;
      eexists; exists fs, fg
  end.
  split; [reflexivity |].
  split; [reflexivity |]. split; [reflexivity |].
  split; [rewrite forallb_app, Hsnum, Hgnum; reflexivity |].
  split; [rewrite length_app; congruence |].
  repeat split.
Qed.

(** The result is the frame before the sort, reordered by an indexer that
    lists every position once and makes the points non-increasing, with the
    rank column appended. *)
Lemma create_combined_rankings_spec (skaters goalies : DataFrame) :
  scored_table skater_cols skaters = true ->
  scored_table goalie_cols goalies = true ->
  exists before points indexer,
    display_concat skaters goalies = Ok before /\
    create_combined_rankings kind skaters goalies =
      Ok (setitem (take before indexer) "Rank"
                  (range_series 1 (length indexer + 1))) /\
    lookup "Fantasy Points" (columns before) = Some points /\
    forallb is_num points = true /\
    length points = (index_len skaters + index_len goalies)%nat /\
    index_len before = (index_len skaters + index_len goalies)%nat /\
    lookup "Player" (columns before) =
      Some (column_or_nan skaters "Player" ++ column_or_nan goalies "Player") /\
    Permutation indexer (seq 0 (index_len skaters + index_len goalies)) /\
    descending (map (fun i => num_of (nth i points VNaN)) indexer) /\
    (kind_is_stable kind ->
     forall w,
       filter (fun i => Qeq_bool (num_of (nth i points VNaN)) w) indexer =
       filter (fun i => Qeq_bool (num_of (nth i points VNaN)) w)
              (seq 0 (index_len skaters + index_len goalies))).
Proof.
  intros Hs Hg.
  destruct (display_concat_spec skaters goalies Hs Hg)
    as (before & fs & fg & Hrun & _ & _ & Hnum & Hlen & Hidx & _ & Hfp & Hpl & _).
  destruct (nargsort_descending (fs ++ fg) Hnum)
    as (indexer & Hsort & Hperm & Hdesc & Hstable).
  rewrite Hlen in Hperm, Hstable.
  exists before, (fs ++ fg), indexer.
  unfold create_combined_rankings, sort_values, getitem, reset_index.
  rewrite Hrun. cbn [rbind]. rewrite Hfp. cbn [rbind]. rewrite Hsort.
  cbn [rbind]. repeat split; auto.
Qed.

Lemma rank_column (n : nat) :
  range_series 1 (n + 1) =
  map (fun i => VNum (inject_Z (Z.of_nat i))) (seq 1 n).
Proof. unfold range_series. now rewrite Nat.add_sub. Qed.

(** The ranking has one row per player. *)
Lemma combined_rankings_length (skaters goalies : DataFrame) :
  scored_table skater_cols skaters = true ->
  scored_table goalie_cols goalies = true ->
  exists ranked,
    create_combined_rankings kind skaters goalies = Ok ranked /\
    index_len ranked = (index_len skaters + index_len goalies)%nat.
Proof.
  intros Hs Hg.
  destruct (create_combined_rankings_spec skaters goalies Hs Hg)
    as (before & points & indexer & _ & Hrun & _ & _ & _ & _ & _ & Hperm & _).
  pose proof (Permutation_length Hperm) as Hlen. rewrite length_seq in Hlen.
  eexists. split; [exact Hrun | exact Hlen].
Qed.

End Ranking.



Lemma row_points_combined (df : DataFrame) (i : nat) :
  row_points (row_at combined_labels df i) = cell df "Fantasy Points" i.
Proof. reflexivity. Qed.

(** As stated, with a stable sort whatever the kind, the claim fails: under
    [kind_reversing] the eighteen skaters tied at 0.0 come out in the reverse
    of their order in the concatenation. *)
Lemma tied_players_reordered :
  ~ (forall (kind : sort_kind) (skaters goalies : DataFrame),
        sort_kind_ok kind ->
        scored_table skater_cols skaters = true ->
        scored_table goalie_cols goalies = true ->
        exists before after,
          display_concat skaters goalies = Ok before /\
          create_combined_rankings kind skaters goalies = Ok after /\
          ties_keep_order combined_labels before after).
Proof.
  intros H.
  destruct (H kind_reversing tied_skaters scored_goalies kind_reversing_ok
              eq_refl eq_refl) as (before & after & Hb & Ha & Hties).
  vm_compute in Hb. vm_compute in Ha.
  injection Hb as <-. injection Ha as <-.
  specialize (Hties (VNum 0)). vm_compute in Hties. discriminate.
Qed.

(** C2, amended. [create_combined_rankings] sorts the concatenation (skaters
    then goalies) descending by fantasy points: the output has the rows of
    the concatenation, each once, in non-increasing order of fantasy points.
    The order among tied players is the one the sort kind leaves; it is the
    order of the concatenation when the kind is stable. *)
Theorem combined_rankings_sorted_descending (kind : sort_kind)
    (skaters goalies : DataFrame) :
  sort_kind_ok kind ->
  scored_table skater_cols skaters = true ->
  scored_table goalie_cols goalies = true ->
  exists before after,
    display_concat skaters goalies = Ok before /\
    create_combined_rankings kind skaters goalies = Ok after /\
    getitem before "Player" =
      Ok (column_or_nan skaters "Player" ++ column_or_nan goalies "Player") /\
    Permutation (rows_of combined_labels after)
                (rows_of combined_labels before) /\
    descending (map num_of (column_or_nan after "Fantasy Points")) /\
    (kind_is_stable kind -> ties_keep_order combined_labels before after).
Proof.
  intros Hkind Hs Hg.
  destruct (create_combined_rankings_spec kind Hkind skaters goalies Hs Hg)
    as (before & points & indexer & Hb & Hrun & Hfp & Hnum & Hlen & Hidx
        & Hpl & Hperm & Hdesc & Hstable).
  assert (Hrank : ~ In "Rank" combined_labels)
    by (unfold combined_labels; simpl; intuition discriminate).
  assert (Hrows : rows_of combined_labels
                    (setitem (take before indexer) "Rank"
                             (range_series 1 (length indexer + 1))) =
                  map (row_at combined_labels before) indexer)
    by (rewrite rows_of_setitem_other by exact Hrank; apply rows_of_take).
  exists before. eexists. split; [exact Hb |]. split; [exact Hrun |].
  split; [unfold getitem; now rewrite Hpl |].
  split; [rewrite Hrows; unfold rows_of; rewrite Hidx;
          now apply Permutation_map |].
  split.
  - unfold column_or_nan.
    rewrite lookup_setitem_other by discriminate.
    rewrite lookup_take, Hfp, map_map. exact Hdesc.
  - intros Hst v. rewrite Hrows. unfold rows_of.
    rewrite Hidx, !filter_map_comm. f_equal.
    assert (Hcell : forall i,
               (i < index_len skaters + index_len goalies)%nat ->
               value_eqb (row_points (row_at combined_labels before i)) v =
               match v with
               | VNum w => Qeq_bool (num_of (nth i points VNaN)) w
               | _ => false
               end).
    { intros i Hi. rewrite row_points_combined. unfold cell. rewrite Hfp.
      rewrite (is_num_nth points i Hnum) by lia. now destruct v. }
    rewrite (filter_ext_in _ _ indexer
               (fun i Hi => Hcell i (proj2 (proj1 (in_seq _ _ _)
                                      (Permutation_in _ Hperm Hi))))).
    rewrite (filter_ext_in _ _ (seq 0 _)
               (fun i Hi => Hcell i (proj2 (proj1 (in_seq _ _ _) Hi)))).
    destruct v as [w | |]; [now apply Hstable | |];
      now rewrite !filter_false.
Qed.

Lemma combined_rankings_sorted_descending_witness :
  sort_kind_ok kind_stable /\
  scored_table skater_cols scored_skaters = true /\
  scored_table goalie_cols scored_goalies = true /\
  exists before after,
    display_concat scored_skaters scored_goalies = Ok before /\
    create_combined_rankings kind_stable scored_skaters scored_goalies =
      Ok after /\
    getitem before "Player" =
      Ok (column_or_nan scored_skaters "Player"
          ++ column_or_nan scored_goalies "Player") /\
    Permutation (rows_of combined_labels after)
                (rows_of combined_labels before) /\
    descending (map num_of (column_or_nan after "Fantasy Points")) /\
    (kind_is_stable kind_stable ->
     ties_keep_order combined_labels before after).
Proof.
  split; [apply kind_stable_ok |].
  repeat (split; [reflexivity |]).
  apply (combined_rankings_sorted_descending kind_stable scored_skaters
           scored_goalies);
    [apply kind_stable_ok | reflexivity | reflexivity].
Defined.

(** ** Grouping by team *)

Lemma value_eqb_sym (a b : value) : value_eqb a b = value_eqb b a.
Proof.
  destruct a as [x | s |], b as [y | t |]; simpl; try reflexivity.
  - apply eq_true_iff_eq. rewrite !Qeq_bool_iff. split; intros H; now symmetry.
  - apply String.eqb_sym.
Qed.

Lemma value_eqb_trans (a b c : value) :
  value_eqb a b = true -> value_eqb b c = true -> value_eqb a c = true.
Proof.
  destruct a as [x | s |], b as [y | t |], c as [z | u |]; simpl;
    try discriminate.
  - rewrite !Qeq_bool_iff. intros H1 H2. now rewrite H1.
  - rewrite !String.eqb_eq. congruence.
Qed.

Lemma value_eqb_refl (a : value) : isna a = false -> value_eqb a a = true.
Proof.
  destruct a as [x | s |]; simpl; try discriminate; intros _.
  - now apply Qeq_bool_iff.
  - apply String.eqb_refl.
Qed.

Lemma value_eqb_present (a b : value) : value_eqb a b = true -> isna a = false.
Proof. destruct a, b; simpl; try discriminate; reflexivity. Qed.

Lemma filter_filter_keep {A} (p q : A -> bool) (l : list A) :
  (forall x, p x = true -> q x = true) ->
  filter p (filter q l) = filter p l.
Proof.
  intros H. induction l as [| x l IH]; simpl; [reflexivity |].
  destruct (q x) eqn:Eq; simpl.
  - now rewrite IH.
  - destruct (p x) eqn:Ep; [| exact IH].
    rewrite (H x Ep) in Eq. discriminate.
Qed.

Lemma filter_filter_drop {A} (p q : A -> bool) (l : list A) :
  (forall x, p x = true -> q x = false) ->
  filter p (filter q l) = [].
Proof.
  intros H. induction l as [| x l IH]; simpl; [reflexivity |].
  destruct (q x) eqn:Eq; simpl; [| exact IH].
  destruct (p x) eqn:Ep; [| exact IH].
  rewrite (H x Ep) in Eq. discriminate.
Qed.

(** Every value seen has exactly one representative among the distinct
    ones. *)
Lemma unique_count (t : value) (l : list value) :
  existsb (fun k => value_eqb k t) l = true ->
  length (filter (fun k => value_eqb k t) (unique l)) = 1%nat.
Proof.
  induction l as [| v l IH]; simpl; [discriminate |].
  destruct (value_eqb v t) eqn:E; simpl.
  - intros _. rewrite filter_filter_drop; [reflexivity |].
    intros x Hx. apply negb_false_iff.
    apply (value_eqb_trans x t v Hx). now rewrite value_eqb_sym.
  - intros H. rewrite filter_filter_keep; [now apply IH |].
    intros x Hx. apply negb_true_iff.
    destruct (value_eqb x v) eqn:Exv; [| reflexivity].
    rewrite value_eqb_sym in Exv.
    now rewrite (value_eqb_trans v x t Exv Hx) in E.
Qed.

Lemma unique_incl (x : value) (l : list value) : In x (unique l) -> In x l.
Proof.
  induction l as [| v l IH]; simpl; [tauto |].
  intros [H | H]; [now left |].
  apply filter_In in H as [H _]. right. now apply IH.
Qed.

Lemma insert_key_perm (k : value) (l : list value) :
  Permutation (insert_key k l) (k :: l).
Proof.
  induction l as [| k' l IH]; simpl; [reflexivity |].
  destruct (value_leb k k'); [reflexivity |].
  rewrite IH. apply perm_swap.
Qed.

Lemma sort_keys_perm (l : list value) : Permutation (sort_keys l) l.
Proof.
  induction l as [| k l IH]; simpl; [reflexivity |].
  rewrite insert_key_perm. now constructor.
Qed.

Lemma filter_perm {A} (p : A -> bool) (l l' : list A) :
  Permutation l l' -> Permutation (filter p l) (filter p l').
Proof.
  induction 1 as [| x l l' H IH | x y l | l l' l'' H1 IH1 H2 IH2]; simpl.
  - constructor.
  - destruct (p x); [now constructor | assumption].
  - destruct (p x), (p y); try reflexivity. apply perm_swap.
  - now transitivity (filter p l').
Qed.

Lemma existsb_present (t : value) (ks : Series) :
  existsb (fun k => value_eqb k t) (filter (fun k => negb (isna k)) ks) =
  existsb (fun k => value_eqb k t) ks.
Proof.
  induction ks as [| k ks IH]; simpl; [reflexivity |].
  destruct k as [q | s |]; simpl; now rewrite IH.
Qed.

(** One group per team observed. *)
Lemma group_keys_count (t : value) (ks : Series) :
  existsb (fun k => value_eqb k t) ks = true ->
  length (filter (fun k => value_eqb k t) (group_keys ks)) = 1%nat.
Proof.
  intros H. unfold group_keys.
  rewrite (Permutation_length (filter_perm _ _ _ (sort_keys_perm _))).
  apply unique_count. now rewrite existsb_present.
Qed.

(** Every group is the team of some player. *)
Lemma group_keys_observed (g : value) (ks : Series) :
  In g (group_keys ks) -> existsb (fun k => value_eqb k g) ks = true.
Proof.
  unfold group_keys. intros H.
  apply (Permutation_in _ (sort_keys_perm _)) in H.
  apply unique_incl in H. apply filter_In in H as [Hin Hpresent].
  apply existsb_exists. exists g. split; [assumption |].
  apply value_eqb_refl. now apply negb_true_iff.
Qed.

Lemma group_sum_numeric (g : value) (ks vs : Series) :
  forallb is_num vs = true -> group_sum g ks vs = Ok (total_where g ks vs).
Proof.
  revert vs. induction ks as [| k ks IH]; intros [| v vs] H; try reflexivity.
  simpl in H. apply andb_prop in H as [Hv Hvs].
  cbn [group_sum total_where]. rewrite (IH vs Hvs). cbn [rbind].
  destruct v; try discriminate. now destruct (value_eqb k g).
Qed.

Lemma mapM_total {A B} (f : A -> result B) (g : A -> B) (l : list A) :
  (forall x, f x = Ok (g x)) -> mapM f l = Ok (map g l).
Proof.
  intros H. induction l as [| x l IH]; simpl; [reflexivity |].
  now rewrite H, IH.
Qed.



(** The totals frame: the group keys and, for each, the sum of the fantasy
    points of its players. *)
Lemma team_totals_spec (combined : DataFrame) :
  scored_table ["Team"] combined = true ->
  exists ks vs,
    lookup "Team" (columns combined) = Some ks /\
    lookup "Fantasy Points" (columns combined) = Some vs /\
    team_totals combined =
      Ok (mkDF (length (group_keys ks))
               [("Team", group_keys ks);
                ("Total Fantasy Points",
                 map (fun g => VNum (total_where g ks vs)) (group_keys ks))]).
Proof.
  unfold scored_table, has_columns, numeric_column. intros H.
  apply andb_prop in H as [H Hnum]. apply andb_prop in H as [H Hfp].
  apply andb_prop in H as [_ Hteam]. cbn [forallb] in Hteam.
  apply andb_prop in Hteam as [Hteam _].
  destruct (has_column_getitem _ _ Hteam) as [ks Hks].
  destruct (has_column_getitem _ _ Hfp) as [vs Hvs].
  rewrite Hvs in Hnum.
  exists ks, vs. split; [assumption |]. split; [assumption |].
  unfold team_totals, groupby_sum, getitem. rewrite Hks, Hvs. cbn [rbind].
  rewrite (mapM_total _ (fun g => total_where g ks vs))
    by (intros g; now apply group_sum_numeric).
  cbn [rbind]. unfold set_columns. cbn. now rewrite map_map.
Qed.

Lemma numeric_map_VNum {A} (f : A -> Q) (l : list A) :
  forallb is_num (map (fun x => VNum (f x)) l) = true.
Proof. induction l; simpl; auto. Qed.




(** ** The pipeline of [main]

    The tables [load_data] returns meet what the scoring needs, and the
    scored tables meet what the merge needs. *)

Lemma distinct_snoc (c : string) (l : list string) :
  distinct l = true -> mem c l = false -> distinct (l ++ [c]) = true.
Proof.
  induction l as [| x l IH]; simpl; [reflexivity |].
  intros Hd Hc. apply andb_prop in Hd as [Hx Hl].
  unfold mem in Hc; simpl in Hc. apply orb_false_elim in Hc as [Hcx Hcl].
  rewrite mem_app, (IH Hl Hcl). unfold mem at 2; simpl.
  rewrite String.eqb_sym, Hcx. apply negb_true_iff in Hx. now rewrite Hx.
Qed.

Lemma lengths_assign (n : nat) (c : string) (s : Series) cols :
  forallb (fun cs : string * Series => (length (snd cs) =? n)%nat) cols = true ->
  length s = n ->
  forallb (fun cs : string * Series => (length (snd cs) =? n)%nat)
          (assign c s cols) = true.
Proof.
  intros Hcols Hs. apply Nat.eqb_eq in Hs.
  induction cols as [| [c' s'] cols IH]; simpl in *.
  - now rewrite Hs.
  - apply andb_prop in Hcols as [H1 H2].
    destruct (String.eqb c c'); simpl.
    + now rewrite Hs, H2.
    + now rewrite H1, IH.
Qed.

Lemma well_formed_setitem (df : DataFrame) (c : string) (s : Series) :
  well_formed df = true -> length s = index_len df ->
  well_formed (setitem df c s) = true.
Proof.
  unfold well_formed, names, setitem; simpl. intros H Hs.
  apply andb_prop in H as [Hlen Hd].
  rewrite (lengths_assign _ _ _ _ Hlen Hs), names_assign. simpl.
  destruct (mem c (map fst (columns df))) eqn:E; [assumption |].
  now apply distinct_snoc.
Qed.

Lemma has_column_setitem (df : DataFrame) (c c' : string) (s : Series) :
  has_column c' (setitem df c s) = String.eqb c' c || has_column c' df.
Proof.
  unfold has_column, names, setitem; simpl.
  rewrite !lookup_mem, lookup_assign.
  now destruct (String.eqb c' c).
Qed.

Lemma convert_numeric_well_formed (parse : string -> option Q)
    (cols : list string) :
  forall df df',
    well_formed df = true ->
    convert_numeric parse cols df = Ok df' ->
    well_formed df' = true.
Proof.
  induction cols as [| col cols IH]; intros df df' Hwf Hrun.
  - simpl in Hrun. injection Hrun as <-. exact Hwf.
  - cbn [convert_numeric] in Hrun.
    destruct (has_column col df) eqn:Hhas; [| now apply (IH df)].
    destruct (has_column_getitem _ _ Hhas) as [s Hs].
    unfold getitem in Hrun. rewrite Hs in Hrun. cbn [rbind] in Hrun.
    apply (IH _ _ (well_formed_setitem df col (to_numeric parse s) Hwf
                     (eq_trans (length_map _ _)
                               (well_formed_length df col s Hwf Hs)))).
    exact Hrun.
Qed.

Lemma well_formed_fillna (v0 : value) (df : DataFrame) :
  well_formed df = true -> well_formed (fillna v0 df) = true.
Proof.
  unfold well_formed. rewrite names_fillna. intros H.
  apply andb_prop in H as [Hlen Hd]. rewrite Hd, andb_true_r.
  unfold fillna; simpl. rewrite forallb_forall in *.
  intros cs Hin. apply in_map_iff in Hin as [cs0 [<- Hin0]]. simpl.
  rewrite length_map. now apply Hlen.
Qed.

Lemma numeric_after_coercion (parse : string -> option Q) (s : Series) :
  forallb is_num (map (fill_value (VNum 0)) (to_numeric parse s)) = true.
Proof.
  induction s as [| v s IH]; simpl; [reflexivity |].
  rewrite IH, andb_true_r.
  destruct v as [q | t |]; simpl; try reflexivity.
  now destruct (parse t).
Qed.

Lemma normalized_numeric (parse : string -> option Q)
    (declared stats : list string) (raw converted : DataFrame) :
  convert_numeric parse declared raw = Ok converted ->
  forallb (fun c => mem c declared) stats = true ->
  numeric_stats stats (fillna (VNum 0) converted) = true.
Proof.
  intros Hrun Hdecl.
  destruct (convert_numeric_spec parse declared raw)
    as (df' & Hrun' & _ & _ & Hcols).
  rewrite Hrun in Hrun'. injection Hrun' as <-.
  unfold numeric_stats. rewrite forallb_forall in *.
  intros c Hc. unfold numeric_column.
  rewrite lookup_fillna, Hcols, (Hdecl c Hc).
  destruct (lookup c (columns raw)); [| reflexivity].
  apply numeric_after_coercion.
Qed.

(** The tables [load_data] returns are well formed and numeric in every stat
    either category counts. *)
Lemma load_data_scorable (parse : string -> option Q)
    (skaters goalies s g : DataFrame) :
  well_formed (clean_column_names skaters) = true ->
  well_formed (clean_column_names goalies) = true ->
  load_data parse skaters goalies = Some (s, g) ->
  well_formed s = true /\ numeric_stats skater_stats s = true /\
  well_formed g = true /\ numeric_stats goalie_stats g = true.
Proof.
  intros Hs Hg. unfold load_data.
  destruct (convert_numeric parse numeric_cols_skaters
              (clean_column_names skaters)) as [s' |] eqn:Es;
    [| discriminate].
  destruct (convert_numeric parse numeric_cols_goalies
              (clean_column_names goalies)) as [g' |] eqn:Eg;
    [| discriminate].
  cbn [rbind]. intros H. injection H as <- <-.
  repeat split.
  - apply well_formed_fillna.
    exact (convert_numeric_well_formed parse _ _ _ Hs Es).
  - now apply (normalized_numeric parse numeric_cols_skaters _ _ _ Es).
  - apply well_formed_fillna.
    exact (convert_numeric_well_formed parse _ _ _ Hg Eg).
  - now apply (normalized_numeric parse numeric_cols_goalies _ _ _ Eg).
Qed.

(** A scored table has what [create_combined_rankings] selects, given the
    other columns were in the input. *)
Lemma scored_frame_scored_table (scoring : dict) (player_type : string)
    (cols : list string) (df : DataFrame) :
  well_formed df = true ->
  numeric_stats (stats_of_tag player_type) df = true ->
  forallb (fun c => String.eqb c "Fantasy Points" || has_column c df) cols
    = true ->
  exists scored,
    scored_frame scoring player_type df = Ok scored /\
    index_len scored = index_len df /\
    scored_table cols scored = true.
Proof.
  intros Hwf Hnum Hcols.
  destruct (scored_frame_spec scoring player_type df Hwf Hnum)
    as (col & Hrun & Hlen & Hcol & _).
  exists (setitem df "Fantasy Points" col).
  split; [exact Hrun |]. split; [reflexivity |].
  unfold scored_table, has_columns, numeric_column.
  rewrite (well_formed_setitem _ _ _ Hwf Hlen).
  rewrite has_column_setitem, String.eqb_refl.
  simpl columns. rewrite lookup_assign_same, Hcol.
  rewrite !andb_true_r. simpl.
  rewrite forallb_forall in *. intros c Hc.
  rewrite has_column_setitem. now apply Hcols.
Qed.

(** X23. From the files to the ranking: on well-formed inputs that have the
    columns the merge displays, [load_data] returns two tables, the scoring
    and the merge succeed on them, and the ranking has one row per player. *)
Theorem main_pipeline_runs (kind : sort_kind) (parse : string -> option Q)
    (skaters goalies : DataFrame) (scoring : dict) :
  sort_kind_ok kind ->
  well_formed (clean_column_names skaters) = true ->
  well_formed (clean_column_names goalies) = true ->
  forallb (fun c => String.eqb c "Fantasy Points"
                    || has_column c (clean_column_names skaters))
          skater_cols = true ->
  forallb (fun c => String.eqb c "Fantasy Points"
                    || has_column c (clean_column_names goalies))
          goalie_cols = true ->
  exists s g combined_rankings h,
    load_data parse skaters goalies = Some (s, g) /\
    combined_rankings_of kind 0%nat 1%nat scoring [s; g] =
      (Ok combined_rankings, h) /\
    nth_error h 0 = Some s /\ nth_error h 1 = Some g /\
    index_len combined_rankings = (index_len skaters + index_len goalies)%nat.
Proof.
  intros Hkind Hs Hg Hscols Hgcols.
  destruct (normalize_spec parse numeric_cols_skaters _ Hs)
    as (s0 & Hs0 & (Hsn & Hsnames & _)).
  destruct (normalize_spec parse numeric_cols_goalies _ Hg)
    as (g0 & Hg0 & (Hgn & Hgnames & _)).
  set (s := fillna (VNum 0) s0) in *. set (g := fillna (VNum 0) g0) in *.
  assert (Hload : load_data parse skaters goalies = Some (s, g))
    by (unfold load_data; now rewrite Hs0, Hg0).
  destruct (load_data_scorable parse skaters goalies s g Hs Hg Hload)
    as (Hswf & Hsnum & Hgwf & Hgnum).
  assert (Hscols' : forallb (fun c => String.eqb c "Fantasy Points"
                                      || has_column c s) skater_cols = true)
    by (unfold has_column in *; now rewrite Hsnames).
  assert (Hgcols' : forallb (fun c => String.eqb c "Fantasy Points"
                                      || has_column c g) goalie_cols = true)
    by (unfold has_column in *; now rewrite Hgnames).
  destruct (scored_frame_scored_table scoring "skater" skater_cols s
              Hswf Hsnum Hscols') as (s' & Hrs & Hsi & Hst).
  destruct (scored_frame_scored_table scoring "goalie" goalie_cols g
              Hgwf Hgnum Hgcols') as (g' & Hrg & Hgi & Hgt).
  destruct (combined_rankings_length kind Hkind s' g' Hst Hgt)
    as (ranked & Hrun & Hlen).
  exists s, g, ranked, [s; g; s'; g'].
  split; [exact Hload |]. split.
  - unfold combined_rankings_of. unfold bind at 1.
    rewrite (calculate_fantasy_points_returns [s; g] 0%nat s s' scoring
               "skater" eq_refl Hrs).
    unfold bind at 1.
    rewrite (calculate_fantasy_points_returns ([s; g] ++ [s']) 1%nat g g'
               scoring "goalie" eq_refl Hrg).
    cbn [length app]. unfold bind, deref, lift. cbn [nth_error].
    now rewrite Hrun.
  - repeat split. rewrite Hlen, Hsi, Hgi, Hsn, Hgn. reflexivity.
Qed.

Lemma main_pipeline_runs_witness :
  sort_kind_ok kind_stable /\
  well_formed (clean_column_names two_skaters) = true /\
  well_formed (clean_column_names example_goalies) = true /\
  forallb (fun c => String.eqb c "Fantasy Points"
                    || has_column c (clean_column_names two_skaters))
          skater_cols = true /\
  forallb (fun c => String.eqb c "Fantasy Points"
                    || has_column c (clean_column_names example_goalies))
          goalie_cols = true /\
  exists s g combined_rankings h,
    load_data parse_decimal two_skaters example_goalies = Some (s, g) /\
    combined_rankings_of kind_stable 0%nat 1%nat default_weights [s; g] =
      (Ok combined_rankings, h) /\
    nth_error h 0 = Some s /\ nth_error h 1 = Some g /\
    index_len combined_rankings =
      (index_len two_skaters + index_len example_goalies)%nat.
Proof.
  split; [apply kind_stable_ok |].
  repeat (split; [reflexivity |]).
  apply (main_pipeline_runs kind_stable parse_decimal two_skaters
           example_goalies default_weights);
    [apply kind_stable_ok | reflexivity | reflexivity | reflexivity
     | reflexivity].
Defined.

(** * Further properties *)

(** ** Scoring *)

Lemma round1_zero : round1 0 = 0.
Proof. reflexivity. Qed.

Lemma weighted_sum_zero (stats : list string) (df : DataFrame)
    (scoring : dict) (i : nat) :
  (forall stat, In stat stats -> stat_value df i stat == 0) ->
  weighted_sum stats df scoring i == 0.
Proof.
  induction stats as [| stat stats IH]; intros H; simpl; [reflexivity |].
  rewrite (H stat (or_introl eq_refl)), IH by (intros; apply H; now right).
  ring.
Qed.

(** X1. A record whose counted stats are all 0 gets 0 fantasy points,
    whatever the weights are. *)
Theorem zero_stats_score_zero (h : heap) (r : ref) (df : DataFrame)
    (scoring : dict) (player_type : string) (i : nat) :
  nth_error h r = Some df ->
  well_formed df = true ->
  numeric_stats (stats_of_tag player_type) df = true ->
  (i < index_len df)%nat ->
  (forall stat, In stat (stats_of_tag player_type) ->
                stat_value df i stat == 0) ->
  exists df',
    calculate_fantasy_points r scoring player_type h =
      (Ok (length h), h ++ [df']) /\
    cell df' "Fantasy Points" i = VNum 0.
Proof.
  intros Hr Hwf Hnum Hi Hzero.
  destruct (scored_frame_spec scoring _ df Hwf Hnum)
    as (col & Hrun & _ & _ & Hval).
  exists (setitem df "Fantasy Points" col).
  split; [now apply (calculate_fantasy_points_returns h r df) |].
  rewrite cell_setitem_same, (Hval i Hi), <- round1_zero. f_equal.
  apply round1_compat. now apply weighted_sum_zero.
Qed.

Lemma zero_stats_score_zero_witness :
  nth_error [example_goalies; tied_skaters] 1 = Some tied_skaters /\
  well_formed tied_skaters = true /\
  numeric_stats (stats_of_tag "skater") tied_skaters = true /\
  (4 < index_len tied_skaters)%nat /\
  (forall stat, In stat (stats_of_tag "skater") ->
                stat_value tied_skaters 4 stat == 0) /\
  exists df',
    calculate_fantasy_points 1%nat default_weights "skater"
                             [example_goalies; tied_skaters] =
      (Ok (length [example_goalies; tied_skaters]),
       [example_goalies; tied_skaters] ++ [df']) /\
    cell df' "Fantasy Points" 4 = VNum 0.
Proof.
  assert (Hzero : forall stat, In stat (stats_of_tag "skater") ->
                               stat_value tied_skaters 4 stat == 0).
  { intros stat Hin. simpl in Hin.
    repeat (destruct Hin as [<- | Hin]; [reflexivity |]). contradiction. }
  split; [reflexivity |]. split; [reflexivity |]. split; [reflexivity |].
  split; [simpl; lia |]. split; [exact Hzero |].
  apply (zero_stats_score_zero [example_goalies; tied_skaters] 1%nat
           tied_skaters default_weights "skater" 4);
    try reflexivity; [simpl; lia | exact Hzero].
Defined.

(** *** Scoring again *)

Lemma numeric_column_setitem_other (df : DataFrame) (c c' : string)
    (s : Series) :
  c' <> c -> numeric_column (setitem df c s) c' = numeric_column df c'.
Proof.
  intros Hne. unfold numeric_column. now rewrite lookup_setitem_other.
Qed.

Lemma numeric_stats_setitem_points (stats : list string) (df : DataFrame)
    (s : Series) :
  ~ In "Fantasy Points" stats ->
  numeric_stats stats (setitem df "Fantasy Points" s) = numeric_stats stats df.
Proof.
  unfold numeric_stats.
  induction stats as [| c stats IH]; intros Hnotin; simpl; [reflexivity |].
  rewrite IH by (intros H; apply Hnotin; now right).
  rewrite numeric_column_setitem_other; [reflexivity |].
  intros ->. apply Hnotin. now left.
Qed.

Lemma weighted_sum_setitem_points (stats : list string) (df : DataFrame)
    (s : Series) (scoring : dict) (i : nat) :
  ~ In "Fantasy Points" stats ->
  weighted_sum stats (setitem df "Fantasy Points" s) scoring i =
  weighted_sum stats df scoring i.
Proof.
  induction stats as [| stat stats IH]; intros Hnotin; simpl; [reflexivity |].
  rewrite IH by (intros H; apply Hnotin; now right).
  unfold stat_value. rewrite cell_setitem_other; [reflexivity |].
  intros ->. apply Hnotin. now left.
Qed.

Lemma nth_ext_eq {A} (l l' : list A) (d : A) :
  length l = length l' ->
  (forall i, (i < length l)%nat -> nth i l d = nth i l' d) ->
  l = l'.
Proof.
  revert l'. induction l as [| x l IH]; intros [| y l'] Hlen H;
    simpl in *; try discriminate; [reflexivity |].
  f_equal.
  - apply (H 0%nat). lia.
  - apply IH; [lia |]. intros i Hi. apply (H (S i)). lia.
Qed.

(** Scoring a scored table is scoring the table it came from. *)
Lemma scored_frame_again (scoring scoring' : dict) (player_type : string)
    (df scored : DataFrame) :
  well_formed df = true ->
  numeric_stats (stats_of_tag player_type) df = true ->
  scored_frame scoring player_type df = Ok scored ->
  scored_frame scoring' player_type scored =
  scored_frame scoring' player_type df.
Proof.
  intros Hwf Hnum Hrun.
  destruct (scored_frame_spec scoring _ df Hwf Hnum)
    as (col & Hrun0 & Hlen & Hcol & _).
  rewrite Hrun in Hrun0. injection Hrun0 as ->.
  destruct (scored_frame_spec scoring' _ df Hwf Hnum)
    as (col1 & -> & Hlen1 & _ & Hval1).
  assert (Hwf' : well_formed (setitem df "Fantasy Points" col) = true)
    by now apply well_formed_setitem.
  assert (Hnum' : numeric_stats (stats_of_tag player_type)
                    (setitem df "Fantasy Points" col) = true)
    by (rewrite numeric_stats_setitem_points;
        [assumption | apply stats_of_tag_no_points]).
  destruct (scored_frame_spec scoring' _ _ Hwf' Hnum')
    as (col2 & -> & Hlen2 & _ & Hval2).
  rewrite setitem_setitem. f_equal. f_equal. simpl in Hlen2.
  apply (nth_ext_eq col2 col1 VNaN); [congruence |].
  intros i Hi. rewrite Hlen2 in Hi.
  rewrite (Hval1 i Hi), (Hval2 i Hi).
  now rewrite weighted_sum_setitem_points by apply stats_of_tag_no_points.
Qed.

(** X2. Fantasy points do not accumulate over calls: calling the function on
    the table an earlier call returned, with any weights, returns the table
    a call on the original table with these weights returns. *)
Theorem scoring_again_starts_afresh (h : heap) (r : ref) (df : DataFrame)
    (scoring scoring' : dict) (player_type : string) :
  nth_error h r = Some df ->
  well_formed df = true ->
  numeric_stats (stats_of_tag player_type) df = true ->
  exists first second,
    calculate_fantasy_points r scoring player_type h =
      (Ok (length h), h ++ [first]) /\
    calculate_fantasy_points (length h) scoring' player_type (h ++ [first]) =
      (Ok (S (length h)), h ++ [first] ++ [second]) /\
    calculate_fantasy_points r scoring' player_type h =
      (Ok (length h), h ++ [second]).
Proof.
  intros Hr Hwf Hnum.
  destruct (scored_frame_spec scoring _ df Hwf Hnum) as (col & Hrun & _).
  destruct (scored_frame_spec scoring' _ df Hwf Hnum) as (col' & Hrun' & _).
  exists (setitem df "Fantasy Points" col), (setitem df "Fantasy Points" col').
  split; [now apply (calculate_fantasy_points_returns h r df) |].
  split; [| now apply (calculate_fantasy_points_returns h r df)].
  rewrite (calculate_fantasy_points_returns (h ++ [setitem df "Fantasy Points" col])
             (length h) (setitem df "Fantasy Points" col)
             (setitem df "Fantasy Points" col') scoring' player_type).
  - rewrite length_app, <- app_assoc. simpl. now rewrite Nat.add_1_r.
  - apply nth_error_last.
  - now rewrite (scored_frame_again scoring scoring' player_type df _ Hwf Hnum Hrun).
Qed.

Lemma scoring_again_starts_afresh_witness :
  nth_error [two_skaters] 0 = Some two_skaters /\
  well_formed two_skaters = true /\
  numeric_stats (stats_of_tag "skater") two_skaters = true /\
  exists first second,
    calculate_fantasy_points 0%nat default_weights "skater" [two_skaters] =
      (Ok (length [two_skaters]), [two_skaters] ++ [first]) /\
    calculate_fantasy_points (length [two_skaters]) example_weights "skater"
                             ([two_skaters] ++ [first]) =
      (Ok (S (length [two_skaters])), [two_skaters] ++ [first] ++ [second]) /\
    calculate_fantasy_points 0%nat example_weights "skater" [two_skaters] =
      (Ok (length [two_skaters]), [two_skaters] ++ [second]).
Proof.
  repeat (split; [reflexivity |]).
  apply (scoring_again_starts_afresh [two_skaters] 0%nat two_skaters
           default_weights example_weights "skater"); reflexivity.
Defined.

(** *** Exceptions of the scoring *)

Lemma series_mul_error (s : Series) (w : Q) (e : exn) :
  series_mul s w = Raise e -> e = TypeError.
Proof.
  unfold series_mul. induction s as [| v s IH]; simpl; [discriminate |].
  destruct v; simpl; try (intros H; injection H; congruence);
    destruct (mapM _ s); simpl; try discriminate;
    intros H; apply IH; assumption.
Qed.

Lemma series_add_error (a b : Series) (e : exn) :
  series_add a b = Raise e -> e = TypeError.
Proof.
  revert b. induction a as [| x a IH]; intros [| y b]; simpl;
    try discriminate.
  destruct x, y; simpl; try (intros H; injection H; congruence);
    destruct (series_add a b) eqn:E; simpl; try discriminate;
    intros H; injection H as <-; now apply (IH b).
Qed.

Lemma series_round1_error (s : Series) (e : exn) :
  series_round1 s = Raise e -> e = TypeError.
Proof.
  unfold series_round1. induction s as [| v s IH]; simpl; [discriminate |].
  destruct v; simpl; try (intros H; injection H; congruence);
    destruct (mapM _ s); simpl; try discriminate;
    intros H; apply IH; assumption.
Qed.

Lemma series_mul_string (s : Series) (w : Q) :
  existsb is_str s = true -> series_mul s w = Raise TypeError.
Proof.
  unfold series_mul. induction s as [| v s IH]; simpl; [discriminate |].
  destruct v; simpl; try reflexivity; intros H; now rewrite (IH H).
Qed.

Lemma has_column_lookup (df : DataFrame) (c : string) (s : Series) :
  lookup c (columns df) = Some s -> has_column c df = true.
Proof.
  intros H. unfold has_column, names. now rewrite lookup_mem, H.
Qed.

(** A block run on a frame that has its points column raises nothing but
    [TypeError]. *)
Lemma add_stat_frame_error (scoring : dict) (stat : string) (df : DataFrame)
    (col : Series) (e : exn) :
  add_stat_frame scoring stat (setitem df "Fantasy Points" col) = Raise e ->
  e = TypeError.
Proof.
  unfold add_stat_frame.
  destruct (has_column stat _) eqn:Hhas; [| discriminate].
  destruct (dict_mem stat scoring) eqn:Hmem; [| discriminate].
  cbn [andb]. unfold getitem at 1. simpl columns.
  rewrite lookup_assign_same. cbn [rbind].
  destruct (has_column_getitem _ _ Hhas) as [s Hs].
  unfold getitem. rewrite Hs. cbn [rbind].
  rewrite (weight_present _ _ Hmem). cbn [rbind].
  destruct (series_mul s _) as [p |] eqn:Emul; cbn [rbind].
  - destruct (series_add col p) eqn:Eadd; cbn [rbind]; [discriminate |].
    intros H. injection H as <-. now apply (series_add_error col p).
  - intros H. injection H as <-. now apply (series_mul_error s _ _ Emul).
Qed.

Lemma add_stats_frame_error (scoring : dict) (stats : list string)
    (df : DataFrame) :
  forall col e,
    add_stats_frame scoring stats (setitem df "Fantasy Points" col) = Raise e ->
    e = TypeError.
Proof.
  induction stats as [| stat stats IH]; intros col e H; simpl in H;
    [discriminate |].
  destruct (add_stat_frame scoring stat _) as [d1 | e1] eqn:E.
  - destruct (add_stat_frame_shape _ _ _ _ _ E) as [col1 ->].
    now apply (IH col1).
  - cbn [rbind] in H. injection H as <-.
    now apply (add_stat_frame_error _ _ _ _ _ E).
Qed.

Lemma scored_frame_error (scoring : dict) (player_type : string)
    (df : DataFrame) (e : exn) :
  scored_frame scoring player_type df = Raise e -> e = TypeError.
Proof.
  unfold scored_frame, accumulated_frame, setitem_scalar.
  destruct (add_stats_frame _ _ _) as [d | e1] eqn:E.
  - destruct (add_stats_frame_shape _ _ _ _ _ E) as [col ->].
    cbn [rbind]. unfold getitem. simpl columns. rewrite lookup_assign_same.
    cbn [rbind]. destruct (series_round1 col) eqn:Er; cbn [rbind];
      [discriminate |].
    intros H. injection H as <-. now apply (series_round1_error col).
  - cbn [rbind]. intros H. injection H as <-.
    now apply (add_stats_frame_error _ _ _ _ _ E).
Qed.

(** X3. A stat column that is absent from the table, or a stat that has no
    weight, never makes the function raise: on a table as [read_csv] and
    [load_data] leave it the only exception the function can raise is
    [TypeError], never [KeyError]. *)
Theorem scoring_raises_only_type_error (h : heap) (r : ref) (df : DataFrame)
    (scoring : dict) (player_type : string) (e : exn) :
  nth_error h r = Some df ->
  well_formed df = true ->
  fst (calculate_fantasy_points r scoring player_type h) = Raise e ->
  e = TypeError.
Proof.
  intros Hr _. rewrite (calculate_fantasy_points_run h r df _ _ Hr).
  cbn [fst]. unfold returned.
  destruct (scored_frame scoring player_type df) eqn:E; [discriminate |].
  intros H. injection H as <-. now apply (scored_frame_error _ _ _ _ E).
Qed.

Lemma scoring_raises_only_type_error_witness :
  nth_error [unconverted_skaters] 0 = Some unconverted_skaters /\
  well_formed unconverted_skaters = true /\
  fst (calculate_fantasy_points 0%nat default_weights "skater"
                                [unconverted_skaters]) = Raise TypeError /\
  TypeError = TypeError.
Proof.
  repeat (split; [reflexivity |]).
  apply (scoring_raises_only_type_error [unconverted_skaters] 0%nat
           unconverted_skaters default_weights "skater" TypeError);
    reflexivity.
Defined.

Lemma add_stats_frame_string (scoring : dict) (stat : string) (s : Series)
    (df : DataFrame) (stats : list string) :
  In stat stats ->
  stat <> "Fantasy Points" ->
  lookup stat (columns df) = Some s ->
  existsb is_str s = true ->
  dict_mem stat scoring = true ->
  forall col,
    add_stats_frame scoring stats (setitem df "Fantasy Points" col) =
    Raise TypeError.
Proof.
  intros Hin Hne Hs Hstr Hmem.
  induction stats as [| st stats IH]; intros col; [contradiction |].
  simpl.
  destruct (add_stat_frame scoring st _) as [d1 | e1] eqn:E.
  - destruct (add_stat_frame_shape _ _ _ _ _ E) as [col1 ->]. cbn [rbind].
    destruct Hin as [-> | Hin]; [| now apply IH].
    exfalso. revert E. unfold add_stat_frame.
    rewrite (has_column_setitem_other _ _ _ _ Hne),
      (has_column_lookup _ _ _ Hs), Hmem.
    cbn [andb]. unfold getitem at 1. simpl columns.
    rewrite lookup_assign_same. cbn [rbind].
    unfold getitem. simpl columns. rewrite (lookup_assign_other _ _ _ _ Hne), Hs.
    cbn [rbind]. rewrite (weight_present _ _ Hmem). cbn [rbind].
    now rewrite (series_mul_string _ _ Hstr).
  - cbn [rbind]. f_equal. now apply (add_stat_frame_error _ _ _ _ _ E).
Qed.

(** X4. When a counted stat column that has a weight holds a string, as a
    column [load_data] did not convert would, the function raises
    [TypeError]; the table it was given is as it was. *)
Theorem string_stat_raises_type_error (h : heap) (r : ref) (df : DataFrame)
    (scoring : dict) (player_type stat : string) (s : Series) :
  nth_error h r = Some df ->
  well_formed df = true ->
  In stat (stats_of_tag player_type) ->
  lookup stat (columns df) = Some s ->
  existsb is_str s = true ->
  dict_mem stat scoring = true ->
  fst (calculate_fantasy_points r scoring player_type h) = Raise TypeError /\
  nth_error (snd (calculate_fantasy_points r scoring player_type h)) r =
    Some df.
Proof.
  intros Hr _ Hin Hs Hstr Hmem.
  rewrite (calculate_fantasy_points_run h r df _ _ Hr). cbn [fst snd].
  split; [| now apply nth_error_app_old].
  unfold scored_frame, accumulated_frame, setitem_scalar.
  rewrite (add_stats_frame_string scoring stat s df _ Hin); auto.
  intros ->. exact (stats_of_tag_no_points _ Hin).
Qed.

Lemma string_stat_raises_type_error_witness :
  nth_error [unconverted_skaters] 0 = Some unconverted_skaters /\
  well_formed unconverted_skaters = true /\
  In "G" (stats_of_tag "skater") /\
  lookup "G" (columns unconverted_skaters) = Some [VStr "two"] /\
  existsb is_str [VStr "two"] = true /\
  dict_mem "G" default_weights = true /\
  fst (calculate_fantasy_points 0%nat default_weights "skater"
                                [unconverted_skaters]) = Raise TypeError /\
  nth_error (snd (calculate_fantasy_points 0%nat default_weights "skater"
                                           [unconverted_skaters])) 0 =
    Some unconverted_skaters.
Proof.
  split; [reflexivity |]. split; [reflexivity |]. split; [now left |].
  repeat (split; [reflexivity |]).
  apply (string_stat_raises_type_error [unconverted_skaters] 0%nat
           unconverted_skaters default_weights "skater" "G" [VStr "two"]);
    try reflexivity.
  now left.
Defined.

(** *** Order *)

Lemma rint_bounds (x : Q) :
  (Qfloor x <= rint x <= Qfloor x + 1)%Z.
Proof.
  unfold rint.
  destruct (Qcompare (x - inject_Z (Qfloor x)) (1 # 2));
    try destruct (Z.even (Qfloor x)); lia.
Qed.

(** Rounding to the nearest integer keeps the order. *)
Lemma rint_monotone (x y : Q) : x <= y -> (rint x <= rint y)%Z.
Proof.
  intros Hxy.
  pose proof (Qfloor_resp_le _ _ Hxy) as Hf.
  destruct (Z.eq_dec (Qfloor x) (Qfloor y)) as [Heq | Hne].
  - unfold rint. rewrite Heq.
    destruct (Qcompare (x - inject_Z (Qfloor y)) (1 # 2)) eqn:Cx;
      destruct (Qcompare (y - inject_Z (Qfloor y)) (1 # 2)) eqn:Cy;
      try (destruct (Z.even (Qfloor y))); try lia;
      repeat match goal with
             | H : Qcompare _ _ = Eq |- _ => apply Qeq_alt in H
             | H : Qcompare _ _ = Lt |- _ => apply Qlt_alt in H
             | H : Qcompare _ _ = Gt |- _ => apply Qgt_alt in H
             end;
      exfalso; lra.
  - pose proof (rint_bounds x). pose proof (rint_bounds y). lia.
Qed.

Lemma round1_monotone (x y : Q) : x <= y -> round1 x <= round1 y.
Proof.
  intros Hxy. rewrite !round1_value.
  assert (H10 : x * 10 <= y * 10) by lra.
  pose proof (rint_monotone _ _ H10) as Hz.
  rewrite Zle_Qle in Hz.
  unfold Qdiv. change (/ 10) with (1 # 10). lra.
Qed.

Lemma weighted_sum_monotone (stats : list string) (df : DataFrame)
    (scoring : dict) (i j : nat) :
  (forall stat, In stat stats ->
     0 <= weight scoring stat /\ stat_value df i stat <= stat_value df j stat) ->
  weighted_sum stats df scoring i <= weighted_sum stats df scoring j.
Proof.
  induction stats as [| stat stats IH]; intros H; simpl; [apply Qle_refl |].
  destruct (H stat (or_introl eq_refl)) as [Hw Hv].
  assert (IH' := IH (fun st Hst => H st (or_intror Hst))).
  assert (Hm : stat_value df i stat * weight scoring stat <=
               stat_value df j stat * weight scoring stat)
    by (apply Qmult_le_compat_r; assumption).
  lra.
Qed.

(** X5. With no negative weight among the counted stats, a record that has
    at least as much of every counted stat as another record of the table
    gets at least as many fantasy points. *)
Theorem more_stats_no_fewer_points (h : heap) (r : ref) (df : DataFrame)
    (scoring : dict) (player_type : string) (i j : nat) :
  nth_error h r = Some df ->
  well_formed df = true ->
  numeric_stats (stats_of_tag player_type) df = true ->
  (i < index_len df)%nat -> (j < index_len df)%nat ->
  (forall stat, In stat (stats_of_tag player_type) ->
     0 <= weight scoring stat /\ stat_value df i stat <= stat_value df j stat) ->
  exists df',
    calculate_fantasy_points r scoring player_type h =
      (Ok (length h), h ++ [df']) /\
    points_at df' i <= points_at df' j.
Proof.
  intros Hr Hwf Hnum Hi Hj Hle.
  destruct (scored_frame_spec scoring _ df Hwf Hnum)
    as (col & Hrun & _ & _ & Hval).
  exists (setitem df "Fantasy Points" col).
  split; [now apply (calculate_fantasy_points_returns h r df) |].
  unfold points_at. rewrite !cell_setitem_same, (Hval i Hi), (Hval j Hj).
  simpl. apply round1_monotone. now apply weighted_sum_monotone.
Qed.

Lemma more_stats_no_fewer_points_witness :
  nth_error [two_skaters] 0 = Some two_skaters /\
  well_formed two_skaters = true /\
  numeric_stats (stats_of_tag "skater") two_skaters = true /\
  (0 < index_len two_skaters)%nat /\ (1 < index_len two_skaters)%nat /\
  (forall stat, In stat (stats_of_tag "skater") ->
     0 <= weight default_weights stat /\
     stat_value two_skaters 0 stat <= stat_value two_skaters 1 stat) /\
  exists df',
    calculate_fantasy_points 0%nat default_weights "skater" [two_skaters] =
      (Ok (length [two_skaters]), [two_skaters] ++ [df']) /\
    points_at df' 0 <= points_at df' 1.
Proof.
  assert (Hle : forall stat, In stat (stats_of_tag "skater") ->
     0 <= weight default_weights stat /\
     stat_value two_skaters 0 stat <= stat_value two_skaters 1 stat).
  { intros stat Hin. simpl in Hin.
    repeat (destruct Hin as [<- | Hin];
            [split; vm_compute; discriminate |]).
    contradiction. }
  split; [reflexivity |]. split; [reflexivity |]. split; [reflexivity |].
  split; [simpl; lia |]. split; [simpl; lia |]. split; [exact Hle |].
  apply (more_stats_no_fewer_points [two_skaters] 0%nat two_skaters
           default_weights "skater" 0 1);
    try reflexivity; [simpl; lia | simpl; lia | exact Hle].
Defined.

(** *** The weights of the form *)

(** * The scoring in binary64 *)

(** The embedding above is the function at the exact operations. *)
Lemma calculate_fantasy_points_exact :
  calculate_fantasy_points = calculate_fantasy_points_with Qmult Qplus round1.
Proof. reflexivity. Qed.

Lemma numeric_column_of (s : Series) :
  forallb is_num s = true ->
  s = column_of (length s) (fun i => num_of (nth i s VNaN)).
Proof.
  intros Hnum. unfold column_of.
  rewrite <- (map_nth_seq s VNaN) at 1.
  apply map_ext_in. intros i Hi. apply in_seq in Hi.
  apply is_num_nth; [assumption | lia].
Qed.

Lemma repeat_column_of (n : nat) (q : Q) :
  repeat (VNum q) n = column_of n (fun _ => q).
Proof.
  unfold column_of. generalize 0%nat.
  induction n as [| n IH]; intros k; simpl; [reflexivity |].
  f_equal. apply IH.
Qed.

Lemma nth_column_of (n : nat) (f : nat -> Q) (i : nat) :
  (i < n)%nat -> nth i (column_of n f) VNaN = VNum (f i).
Proof.
  intros Hi. unfold column_of.
  rewrite (nth_map_in_range (fun i => VNum (f i)) (seq 0 n) i 0%nat VNaN)
    by (rewrite length_seq; lia).
  now rewrite seq_nth.
Qed.

Section ArithmeticRun.

Variables mul add : Q -> Q -> Q.
Variable rnd : Q -> Q.

Lemma series_mul_with_column (f : nat -> Q) (w : Q) (l : list nat) :
  series_mul_with mul (map (fun i => VNum (f i)) l) w =
  Ok (map (fun i => VNum (mul (f i) w)) l).
Proof.
  unfold series_mul_with.
  induction l as [| i l IH]; simpl; [reflexivity |]. now rewrite IH.
Qed.

Lemma series_add_with_column (f g : nat -> Q) (l : list nat) :
  series_add_with add (map (fun i => VNum (f i)) l)
                  (map (fun i => VNum (g i)) l) =
  Ok (map (fun i => VNum (add (f i) (g i))) l).
Proof. induction l as [| i l IH]; simpl; [reflexivity |]. now rewrite IH. Qed.

Lemma series_round_with_column (f : nat -> Q) (l : list nat) :
  series_round_with rnd (map (fun i => VNum (f i)) l) =
  Ok (map (fun i => VNum (rnd (f i))) l).
Proof.
  unfold series_round_with.
  induction l as [| i l IH]; simpl; [reflexivity |]. now rewrite IH.
Qed.

(** One block, run on the copy at the end of the store, takes the points
    column from the totals so far to the totals with the stat's term. *)
Lemma add_stat_with_last (h : heap) (d0 : DataFrame) (scoring : dict)
    (stat : string) (f : nat -> Q) :
  well_formed d0 = true ->
  stat <> "Fantasy Points" ->
  numeric_column d0 stat = true ->
  add_stat_with mul add (length h) scoring stat
    (h ++ [setitem d0 "Fantasy Points" (column_of (index_len d0) f)]) =
  (Ok tt,
   h ++ [setitem d0 "Fantasy Points"
           (column_of (index_len d0)
              (fun i => add_term mul add d0 scoring i (f i) stat))]).
Proof.
  intros Hwf Hne Hnum.
  unfold add_stat_with.
  unfold bind at 1. unfold df_columns, bind, deref, ret.
  rewrite nth_error_last. cbv beta iota.
  change (mem stat (names (setitem d0 "Fantasy Points"
                             (column_of (index_len d0) f))))
    with (has_column stat (setitem d0 "Fantasy Points"
                             (column_of (index_len d0) f))).
  rewrite (has_column_setitem_other _ _ _ _ Hne).
  unfold add_term.
  destruct (has_column stat d0 && dict_mem stat scoring) eqn:Hguard;
    [| reflexivity].
  apply andb_prop in Hguard as [Hhas Hmem].
  destruct (has_column_getitem _ _ Hhas) as [s Hs].
  assert (Hsnum : forallb is_num s = true).
  { unfold numeric_column in Hnum. now rewrite Hs in Hnum. }
  pose proof (well_formed_length d0 stat s Hwf Hs) as Hlen.
  rewrite df_getitem_last.
  unfold getitem at 1. cbn [columns setitem]. rewrite lookup_assign_same.
  cbv beta iota. rewrite df_getitem_last.
  unfold getitem at 1. cbn [columns setitem].
  rewrite (lookup_assign_other _ _ _ _ Hne), Hs. cbv beta iota.
  unfold lift. rewrite (weight_present _ _ Hmem). cbv beta iota.
  rewrite (numeric_column_of s Hsnum), Hlen.
  unfold column_of.
  rewrite series_mul_with_column. cbv beta iota.
  rewrite series_add_with_column. cbv beta iota.
  rewrite df_setitem_last, setitem_setitem.
  unfold stat_value, cell. now rewrite Hs.
Qed.

Lemma bind_add_stat_with_last {A} (h : heap) (d0 : DataFrame)
    (scoring : dict) (stat : string) (f : nat -> Q) (k : unit -> M A) :
  well_formed d0 = true ->
  stat <> "Fantasy Points" ->
  numeric_column d0 stat = true ->
  bind (add_stat_with mul add (length h) scoring stat) k
    (h ++ [setitem d0 "Fantasy Points" (column_of (index_len d0) f)]) =
  k tt
    (h ++ [setitem d0 "Fantasy Points"
             (column_of (index_len d0)
                (fun i => add_term mul add d0 scoring i (f i) stat))]).
Proof.
  intros Hwf Hne Hnum. unfold bind.
  now rewrite (add_stat_with_last h d0 scoring stat f Hwf Hne Hnum).
Qed.

(** The blocks leave on the copy the totals of the records. *)
Lemma accumulate_fantasy_points_with_run (h : heap) (r : ref)
    (df : DataFrame) (scoring : dict) (player_type : string) :
  nth_error h r = Some df ->
  well_formed df = true ->
  numeric_stats (stats_of_tag player_type) df = true ->
  accumulate_fantasy_points_with mul add r scoring player_type h =
  (Ok (length h),
   h ++ [setitem df "Fantasy Points"
           (column_of (index_len df)
              (fun i => sum_with mul add (stats_of_tag player_type)
                                 df scoring i))]).
Proof.
  intros Hr Hwf Hnum.
  unfold accumulate_fantasy_points_with, stats_of_tag in *.
  unfold bind at 1. unfold df_copy, bind at 1, deref, alloc. rewrite Hr.
  cbv beta iota.
  unfold bind at 1. rewrite df_setitem_scalar_last.
  unfold setitem_scalar. rewrite repeat_column_of.
  unfold bind at 1.
  destruct (String.eqb player_type "skater");
    unfold skater_stats, goalie_stats, numeric_stats in *;
    cbn [forallb] in Hnum;
    repeat match goal with
           | H : _ && _ = true |- _ => apply andb_prop in H as [? H]
           end;
    repeat (rewrite bind_add_stat_with_last
              by (assumption || discriminate));
    rewrite add_stat_with_last by (assumption || discriminate);
    reflexivity.
Qed.

(** The call returns a new table: the argument with the rounded totals in
    the points column. *)
Lemma calculate_fantasy_points_with_run (h : heap) (r : ref)
    (df : DataFrame) (scoring : dict) (player_type : string) :
  nth_error h r = Some df ->
  well_formed df = true ->
  numeric_stats (stats_of_tag player_type) df = true ->
  calculate_fantasy_points_with mul add rnd r scoring player_type h =
  (Ok (length h),
   h ++ [setitem df "Fantasy Points"
           (column_of (index_len df)
              (fun i => rnd (sum_with mul add (stats_of_tag player_type)
                                      df scoring i)))]).
Proof.
  intros Hr Hwf Hnum. unfold calculate_fantasy_points_with.
  unfold bind at 1.
  rewrite (accumulate_fantasy_points_with_run h r df _ _ Hr Hwf Hnum).
  unfold bind at 1. rewrite df_getitem_last.
  unfold getitem. cbn [columns setitem]. rewrite lookup_assign_same.
  unfold bind at 1, lift. unfold column_of.
  rewrite series_round_with_column.
  unfold bind, ret. rewrite df_setitem_last.
  unfold setitem. cbn [index_len columns]. now rewrite assign_assign.
Qed.

End ArithmeticRun.

Lemma cell_points_column (df : DataFrame) (f : nat -> Q) (i : nat) :
  (i < index_len df)%nat ->
  cell (setitem df "Fantasy Points" (column_of (index_len df) f))
       "Fantasy Points" i = VNum (f i).
Proof. intros Hi. rewrite cell_setitem_same. now apply nth_column_of. Qed.

Lemma b64_compat (x y : Q) : x == y -> b64 x = b64 y.
Proof. intros H. unfold b64. now rewrite (Qred_complete x y H). Qed.

Lemma round1_64_compat (x y : Q) : x == y -> round1_64 x = round1_64 y.
Proof.
  intros H. unfold round1_64, mul64.
  now rewrite (b64_compat (x * 10) (y * 10)) by now rewrite H.
Qed.

(** Where no operation is rounded, the binary64 total is the exact sum. *)
Lemma sum64_exact (stats : list string) (df : DataFrame) (scoring : dict)
    (i : nat) :
  forall acc,
    exact_from stats df scoring i acc = true ->
    fold_left (add_term mul64 add64 df scoring i) stats acc ==
    acc + weighted_sum stats df scoring i.
Proof.
  unfold weighted_sum.
  induction stats as [| stat stats IH]; intros acc H;
    cbn [fold_left fold_right exact_from] in *; [ring |].
  unfold add_term at 2.
  destruct (has_column stat df && dict_mem stat scoring) eqn:Hguard.
  - apply andb_prop in H as [H Hrest]. apply andb_prop in H as [_ Hsum].
    apply Qeq_bool_iff in Hsum.
    rewrite (IH _ Hrest), Hsum. ring.
  - rewrite (IH _ H).
    apply andb_false_iff in Hguard as [Hc | Hw].
    + rewrite (stat_value_absent _ _ _ Hc). ring.
    + rewrite (weight_absent _ _ Hw). ring.
Qed.

Lemma lookup_scale_weights (k : Q) (scoring : dict) (stat : string) :
  lookup stat (scale_weights k scoring) =
  option_map (mul64 k) (lookup stat scoring).
Proof.
  unfold scale_weights.
  induction scoring as [| [c w] scoring IH]; simpl; [reflexivity |].
  destruct (String.eqb stat c); [reflexivity | exact IH].
Qed.


(** C1, amended. For a table of one category whose applicable stat columns
    hold binary64 numbers, [calculate_fantasy_points] returns a table whose
    fantasy points are computed, record by record, in binary64: from 0.0,
    for each applicable stat of the category in the order of the code
    (skaters: G, A, PIM, PPG, PPP, SOG, HIT, BLK; goalies: W, SV, SO) that
    is a column of the table and has a weight, the product of stat value
    and weight is added, each product and each sum rounded to the nearest
    binary64 number; a stat missing from the table or from the weights adds
    nothing and no other weight enters; the total is rounded to one decimal
    as numpy does, by [rint] of its tenfold.  Where no product and no sum of
    a record is rounded, the total is the exact weighted sum. *)
Theorem fantasy_points_weighted_sum (h : heap) (r : ref) (df : DataFrame)
    (scoring : dict) (cat : category) :
  nth_error h r = Some df ->
  well_formed df = true ->
  numeric_stats (applicable_stats cat) df = true ->
  binary64_inputs (applicable_stats cat) df scoring = true ->
  exists df',
    calculate_fantasy_points64 r scoring (category_tag cat) h =
      (Ok (length h), h ++ [df']) /\
    index_len df' = index_len df /\
    forall i, (i < index_len df)%nat ->
      cell df' "Fantasy Points" i = VNum (points64 cat df scoring i) /\
      (exact_total (applicable_stats cat) df scoring i = true ->
       cell df' "Fantasy Points" i =
       VNum (round1_64 (weighted_sum (applicable_stats cat) df scoring i))).
Proof.
  intros Hr Hwf Hnum _. rewrite <- stats_of_category in Hnum.
  eexists. split.
  { apply (calculate_fantasy_points_with_run mul64 add64 round1_64
             h r df scoring _ Hr Hwf Hnum). }
  split; [reflexivity |].
  intros i Hi. rewrite (cell_points_column df _ i Hi).
  rewrite stats_of_category. unfold points64, sum64.
  split; [reflexivity |].
  intros Hexact. f_equal. apply round1_64_compat.
  unfold sum_with. rewrite (sum64_exact _ _ _ _ 0 Hexact). ring.
Qed.

Lemma fantasy_points_weighted_sum_witness :
  nth_error [example_goalies] 0 = Some example_goalies /\
  well_formed example_goalies = true /\
  numeric_stats (applicable_stats Goalie) example_goalies = true /\
  binary64_inputs (applicable_stats Goalie) example_goalies decimal_weights
    = true /\
  exists df',
    calculate_fantasy_points64 0%nat decimal_weights (category_tag Goalie)
                               [example_goalies] =
      (Ok (length [example_goalies]), [example_goalies] ++ [df']) /\
    index_len df' = index_len example_goalies /\
    forall i, (i < index_len example_goalies)%nat ->
      cell df' "Fantasy Points" i =
        VNum (points64 Goalie example_goalies decimal_weights i) /\
      (exact_total (applicable_stats Goalie) example_goalies decimal_weights i
         = true ->
       cell df' "Fantasy Points" i =
       VNum (round1_64 (weighted_sum (applicable_stats Goalie)
                                     example_goalies decimal_weights i))).
Proof.
  do 3 (split; [reflexivity |]).
  split; [vm_compute; reflexivity |].
  apply (fantasy_points_weighted_sum [example_goalies] 0%nat example_goalies
           decimal_weights Goalie);
    [reflexivity | reflexivity | reflexivity | vm_compute; reflexivity].
Defined.

Lemma tenth_near_zero (m : Z) :
  Qabs (0 - inject_Z m / 10) <= 1 # 1000 -> m = 0%Z.
Proof.
  intros H. apply Qabs_Qle_condition in H as [Hlo Hhi].
  unfold Qle, Qminus, Qplus, Qopp, Qdiv, Qmult, Qinv, inject_Z in Hlo, Hhi.
  cbn in Hlo, Hhi. lia.
Qed.

(** As stated over the exact sum, the claim fails whatever the rule for
    ties: a skater with one shot on goal and the weight 0.05, the binary64
    number just above one twentieth, has a weighted sum above 0.05, whose
    nearest tenth is 0.1, and gets 0.0 fantasy points, because the tenfold
    of the sum is rounded to 0.5 before [rint]. *)
Lemma exact_sum_rounds_elsewhere :
  ~ (forall (h : heap) (r : ref) (df : DataFrame) (scoring : dict)
            (cat : category),
        nth_error h r = Some df ->
        well_formed df = true ->
        numeric_stats (applicable_stats cat) df = true ->
        binary64_inputs (applicable_stats cat) df scoring = true ->
        exists df',
          calculate_fantasy_points64 r scoring (category_tag cat) h =
            (Ok (length h), h ++ [df']) /\
          forall i, (i < index_len df)%nat ->
            exists m : Z,
              Qabs (inject_Z m / 10
                    - weighted_sum (applicable_stats cat) df scoring i)
                <= 1 # 20 /\
              Qabs (num_of (cell df' "Fantasy Points" i) - inject_Z m / 10)
                <= 1 # 1000).
Proof.
  intros H.
  assert (Hb : binary64_inputs (applicable_stats Skater) one_shot
                               nickel_weights = true)
    by (vm_compute; reflexivity).
  destruct (H [one_shot] 0%nat one_shot nickel_weights Skater
              eq_refl eq_refl eq_refl Hb) as (df' & Hrun & Hcells).
  assert (E : calculate_fantasy_points64 0%nat nickel_weights
                (category_tag Skater) [one_shot] =
              (Ok 1%nat, [one_shot; setitem one_shot "Fantasy Points"
                                      [VNum 0]]))
    by (vm_compute; reflexivity).
  rewrite E in Hrun. injection Hrun as <-.
  destruct (Hcells 0%nat (Nat.lt_0_1)) as (m & Hnear & Hcell).
  change (num_of (cell _ "Fantasy Points" 0)) with 0 in Hcell.
  apply tenth_near_zero in Hcell. subst m.
  assert (Hw : weighted_sum (applicable_stats Skater) one_shot
                            nickel_weights 0 ==
               3602879701896397 # 72057594037927936)
    by (vm_compute; reflexivity).
  rewrite Hw in Hnear. vm_compute in Hnear. now apply Hnear.
Qed.

(** Nor do the decimal figures settle a rule for ties: under the weight 0.05
    one shot on goal, 0.05 on paper, gets 0.0 and twenty-nine shots, 1.45 on
    paper, get 1.5. *)
Remark half_tenths_both_ways :
  calculate_fantasy_points64 0%nat nickel_weights "skater" [two_shooters] =
    (Ok 1%nat,
     [two_shooters;
      setitem two_shooters "Fantasy Points" [VNum 0; VNum (3 # 2)]]).
Proof. vm_compute. reflexivity. Qed.

(** The example skater of the quarter weights gets the binary64 number
    nearest to 18.8: its total 18.75 is exact in binary64. *)
Remark skater_example_in_binary64 :
  exists df',
    calculate_fantasy_points64 0%nat example_weights "skater"
                               [example_skater] =
      (Ok 1%nat, [example_skater; df']) /\
    exact_total (stats_of_tag "skater") example_skater example_weights 0
      = true /\
    cell df' "Fantasy Points" 0 = VNum (b64 (188 # 10)).
Proof.
  eexists. split; [vm_compute; reflexivity |].
  split; vm_compute; reflexivity.
Qed.

(** ** Scaling the weights *)

Lemma dict_mem_scale_weights (k : Q) (scoring : dict) (stat : string) :
  dict_mem stat (scale_weights k scoring) = dict_mem stat scoring.
Proof.
  unfold dict_mem. rewrite !lookup_mem, lookup_scale_weights.
  now destruct (lookup stat scoring).
Qed.





(** ** The weights of the form *)

(** X6. With the dictionary built from the form, no counted stat lacks its
    weight: on a table that has the counted columns, the fantasy points of
    a skater are the binary64 total of G, A, PIM, PPG, PPP, SOG, HIT and
    BLK, each times the number entered for it, added in this order and
    rounded to one decimal by numpy, and those of a goalie the same for W,
    SV and SO. *)
Theorem form_weights_score (h : heap) (r : ref) (df : DataFrame)
    (form : ScoringForm) (cat : category) :
  nth_error h r = Some df ->
  well_formed df = true ->
  numeric_stats (applicable_stats cat) df = true ->
  has_columns (applicable_stats cat) df = true ->
  binary64_inputs (applicable_stats cat) df
                  (create_fantasy_scoring_inputs form) = true ->
  exists df',
    calculate_fantasy_points64 r (create_fantasy_scoring_inputs form)
                               (category_tag cat) h =
      (Ok (length h), h ++ [df']) /\
    forall i, (i < index_len df)%nat ->
      cell df' "Fantasy Points" i =
      VNum (round1_64
        match cat with
        | Skater =>
            add64 (add64 (add64 (add64 (add64 (add64 (add64 (add64 0
              (mul64 (stat_value df i "G") (g_pts form)))
              (mul64 (stat_value df i "A") (a_pts form)))
              (mul64 (stat_value df i "PIM") (pim_pts form)))
              (mul64 (stat_value df i "PPG") (ppg_pts form)))
              (mul64 (stat_value df i "PPP") (ppp_pts form)))
              (mul64 (stat_value df i "SOG") (sog_pts form)))
              (mul64 (stat_value df i "HIT") (hit_pts form)))
              (mul64 (stat_value df i "BLK") (blk_pts form))
        | Goalie =>
            add64 (add64 (add64 0
              (mul64 (stat_value df i "W") (w_pts form)))
              (mul64 (stat_value df i "SV") (sv_pts form)))
              (mul64 (stat_value df i "SO") (so_pts form))
        end).
Proof.
  intros Hr Hwf Hnum Hcols _. rewrite <- stats_of_category in Hnum.
  eexists. split.
  { apply (calculate_fantasy_points_with_run mul64 add64 round1_64
             h r df _ _ Hr Hwf Hnum). }
  intros i Hi. rewrite (cell_points_column df _ i Hi).
  rewrite stats_of_category. do 2 f_equal.
  unfold has_columns in Hcols.
  destruct cat; unfold applicable_stats, skater_stats, goalie_stats in *;
    cbn [forallb] in Hcols;
    repeat match goal with
           | H : _ && _ = true |- _ => apply andb_prop in H as [? H]
           end;
    unfold sum_with; cbn [fold_left]; unfold add_term;
    repeat match goal with
           | H : has_column _ df = true |- _ => rewrite H; clear H
           end;
    reflexivity.
Qed.

Lemma form_weights_score_witness :
  nth_error [two_skaters] 0 = Some two_skaters /\
  well_formed two_skaters = true /\
  numeric_stats (applicable_stats Skater) two_skaters = true /\
  has_columns (applicable_stats Skater) two_skaters = true /\
  binary64_inputs (applicable_stats Skater) two_skaters
                  (create_fantasy_scoring_inputs example_form) = true /\
  exists df',
    calculate_fantasy_points64 0%nat
        (create_fantasy_scoring_inputs example_form)
        (category_tag Skater) [two_skaters] =
      (Ok (length [two_skaters]), [two_skaters] ++ [df']) /\
    forall i, (i < index_len two_skaters)%nat ->
      cell df' "Fantasy Points" i =
      VNum (round1_64
        match Skater with
        | Skater =>
            add64 (add64 (add64 (add64 (add64 (add64 (add64 (add64 0
              (mul64 (stat_value two_skaters i "G") (g_pts example_form)))
              (mul64 (stat_value two_skaters i "A") (a_pts example_form)))
              (mul64 (stat_value two_skaters i "PIM") (pim_pts example_form)))
              (mul64 (stat_value two_skaters i "PPG") (ppg_pts example_form)))
              (mul64 (stat_value two_skaters i "PPP") (ppp_pts example_form)))
              (mul64 (stat_value two_skaters i "SOG") (sog_pts example_form)))
              (mul64 (stat_value two_skaters i "HIT") (hit_pts example_form)))
              (mul64 (stat_value two_skaters i "BLK") (blk_pts example_form))
        | Goalie =>
            add64 (add64 (add64 0
              (mul64 (stat_value two_skaters i "W") (w_pts example_form)))
              (mul64 (stat_value two_skaters i "SV") (sv_pts example_form)))
              (mul64 (stat_value two_skaters i "SO") (so_pts example_form))
        end).
Proof.
  do 4 (split; [reflexivity |]).
  split; [vm_compute; reflexivity |].
  apply (form_weights_score [two_skaters] 0%nat two_skaters example_form
           Skater);
    [reflexivity | reflexivity | reflexivity | reflexivity
     | vm_compute; reflexivity].
Defined.

(** ** Merging *)

Lemma getitem_missing (df : DataFrame) (c : string) :
  has_column c df = false -> getitem df c = Raise (KeyError c).
Proof.
  unfold has_column, names, getitem. rewrite lookup_mem.
  now destruct (lookup c (columns df)).
Qed.

(** Selecting a list of labels raises [KeyError] for the first one the frame
    does not have. *)
Lemma select_missing (df : DataFrame) (cols : list string) :
  has_columns cols df = false ->
  exists c, In c cols /\ has_column c df = false /\
            select df cols = Raise (KeyError c).
Proof.
  unfold select, has_columns.
  induction cols as [| c cols IH]; simpl; [discriminate |].
  destruct (has_column c df) eqn:Hc; simpl.
  - intros H. destruct (IH H) as (c' & Hin & Hc' & Hrun).
    exists c'. split; [now right |]. split; [assumption |].
    destruct (has_column_getitem _ _ Hc) as [s Hs].
    unfold getitem at 1. rewrite Hs. cbn [rbind].
    destruct (mapM (getitem df) cols); [discriminate | exact Hrun].
  - intros _. exists c. split; [now left |]. split; [assumption |].
    now rewrite (getitem_missing _ _ Hc).
Qed.

Lemma mapM_getitem_present (df : DataFrame) (cols : list string) :
  has_columns cols df = true ->
  mapM (getitem df) cols = Ok (map (column_or_nan df) cols).
Proof.
  unfold has_columns. induction cols as [| c cols IH]; simpl;
    [reflexivity |].
  intros H. apply andb_prop in H as [Hc Hcols].
  destruct (has_column_getitem _ _ Hc) as [s Hs].
  unfold getitem at 1, column_or_nan at 1. rewrite Hs. cbn [rbind].
  now rewrite (IH Hcols).
Qed.

Lemma select_present (df : DataFrame) (cols : list string) :
  has_columns cols df = true ->
  select df cols =
  Ok (mkDF (index_len df) (combine cols (map (column_or_nan df) cols))).
Proof.
  intros H. unfold select. now rewrite (mapM_getitem_present _ _ H).
Qed.

(** X7. When one of the two tables lacks a column the function selects, a
    table without fantasy points for one, the function raises [KeyError]
    for a column that is not there. *)
Theorem merge_missing_column_raises (kind : sort_kind)
    (skaters goalies : DataFrame) :
  has_columns skater_cols skaters && has_columns goalie_cols goalies = false ->
  exists c,
    create_combined_rankings kind skaters goalies = Raise (KeyError c) /\
    ((In c skater_cols /\ has_column c skaters = false) \/
     (In c goalie_cols /\ has_column c goalies = false)).
Proof.
  intros H. unfold create_combined_rankings, display_concat.
  destruct (has_columns skater_cols skaters) eqn:Hs.
  - rewrite andb_true_l in H.
    destruct (select_missing _ _ H) as (c & Hin & Hc & Hrun).
    exists c. rewrite (select_present _ _ Hs), Hrun. cbn [rbind].
    split; [reflexivity | now right].
  - destruct (select_missing _ _ Hs) as (c & Hin & Hc & Hrun).
    exists c. rewrite Hrun. cbn [rbind]. split; [reflexivity | now left].
Qed.

Lemma merge_missing_column_raises_witness :
  has_columns skater_cols two_skaters
  && has_columns goalie_cols scored_goalies = false /\
  exists c,
    create_combined_rankings kind_stable two_skaters scored_goalies =
      Raise (KeyError c) /\
    ((In c skater_cols /\ has_column c two_skaters = false) \/
     (In c goalie_cols /\ has_column c scored_goalies = false)).
Proof.
  split; [reflexivity |].
  apply (merge_missing_column_raises kind_stable two_skaters scored_goalies).
  reflexivity.
Defined.

(** *** The rows of the ranking *)

Lemma column_or_nan_length (df : DataFrame) (c : string) :
  well_formed df = true -> length (column_or_nan df c) = index_len df.
Proof.
  intros Hwf. unfold column_or_nan.
  destruct (lookup c (columns df)) as [s |] eqn:Hs.
  - now apply (well_formed_length df c).
  - apply repeat_length.
Qed.

Lemma cell_column_or_nan (df : DataFrame) (c : string) (i : nat) :
  nth i (column_or_nan df c) VNaN = cell df c i.
Proof.
  unfold column_or_nan, cell.
  destruct (lookup c (columns df)); [reflexivity |].
  apply nth_repeat.
Qed.

(** The frame the function sorts, in closed form. *)
Lemma display_concat_columns (skaters goalies : DataFrame) :
  scored_table skater_cols skaters = true ->
  scored_table goalie_cols goalies = true ->
  display_concat skaters goalies =
  Ok (mkDF (index_len skaters + index_len goalies)
           (merged_columns skaters goalies)).
Proof.
  unfold scored_table, has_columns.
  intros Hs Hg.
  apply andb_prop in Hs as [Hs _]. apply andb_prop in Hs as [Hs _].
  apply andb_prop in Hs as [_ Hs].
  apply andb_prop in Hg as [Hg _]. apply andb_prop in Hg as [Hg _].
  apply andb_prop in Hg as [_ Hg].
  cbn [forallb skater_cols goalie_cols] in Hs, Hg.
  repeat match goal with
         | H : _ && _ = true |- _ => apply andb_prop in H as [? H]
         end.
  unfold display_concat, select, getitem, merged_columns, column_or_nan.
  cbn [mapM skater_cols goalie_cols].
  repeat match goal with
         | H : has_column _ _ = true |- _ =>
             let s := fresh "s" in
             let Hs := fresh "Hs" in
             destruct (has_column_getitem _ _ H) as [s Hs];
             rewrite Hs; clear H
         end.
  reflexivity.
Qed.

Lemma merged_lookup_both (skaters goalies : DataFrame) (c : string) :
  In c ["Player"; "Team"; "Fantasy Points"] ->
  lookup c (merged_columns skaters goalies) =
  Some (column_or_nan skaters c ++ column_or_nan goalies c).
Proof.
  intros Hin. simpl in Hin.
  repeat destruct Hin as [<- | Hin]; try contradiction; reflexivity.
Qed.

Lemma merged_lookup_skater_only (skaters goalies : DataFrame) (c : string) :
  In c ["G"; "A"; "PTS"; "PIM"; "PPG"; "PPP"; "SOG"; "HIT"; "BLK"] ->
  lookup c (merged_columns skaters goalies) =
  Some (column_or_nan skaters c ++ repeat (VNum 0) (index_len goalies)).
Proof.
  intros Hin. simpl in Hin.
  repeat destruct Hin as [<- | Hin]; try contradiction; reflexivity.
Qed.

Lemma merged_lookup_goalie_only (skaters goalies : DataFrame) (c : string) :
  In c ["W"; "SV"; "SO"; "SV%"; "GAA"] ->
  lookup c (merged_columns skaters goalies) =
  Some (repeat (VNum 0) (index_len skaters) ++ column_or_nan goalies c).
Proof.
  intros Hin. simpl in Hin.
  repeat destruct Hin as [<- | Hin]; try contradiction; reflexivity.
Qed.

(** The cells of the concatenation: above the seam the first part, below it
    the second. *)
Lemma nth_seam (a b : Series) (n k : nat) :
  length a = n ->
  nth k (a ++ b) VNaN = if (k <? n)%nat then nth k a VNaN else nth (k - n) b VNaN.
Proof.
  intros <-. destruct (Nat.ltb_spec k (length a)).
  - now apply app_nth1.
  - now apply app_nth2.
Qed.

(** The ranking is the concatenation read along the indexer of the sort. *)
Lemma combined_rankings_indexer (kind : sort_kind)
    (skaters goalies : DataFrame) :
  sort_kind_ok kind ->
  scored_table skater_cols skaters = true ->
  scored_table goalie_cols goalies = true ->
  exists indexer,
    create_combined_rankings kind skaters goalies =
      Ok (ranked_frame skaters goalies indexer) /\
    Permutation indexer (seq 0 (index_len skaters + index_len goalies)) /\
    descending (map (fun i => nth i (merged_points skaters goalies) 0) indexer).
Proof.
  intros Hkind Hs Hg.
  destruct (create_combined_rankings_spec kind Hkind skaters goalies Hs Hg)
    as (before & points & indexer & Hcat & Hrun & Hfp & Hnum & Hlen & _ & _
        & Hperm & Hdesc & _).
  rewrite (display_concat_columns skaters goalies Hs Hg) in Hcat.
  injection Hcat as <-.
  cbn [columns] in Hfp.
  rewrite (merged_lookup_both skaters goalies "Fantasy Points") in Hfp
    by (simpl; auto).
  injection Hfp as <-.
  exists indexer. split; [exact Hrun |]. split; [exact Hperm |].
  erewrite map_ext_in; [exact Hdesc |].
  intros i Hi. cbv beta. unfold merged_points.
  apply (Permutation_in _ Hperm), in_seq in Hi.
  apply (nth_map_in_range num_of). lia.
Qed.

Lemma indexer_in_range (indexer : list nat) (n j : nat) :
  Permutation indexer (seq 0 n) -> (j < length indexer)%nat ->
  (nth j indexer 0 < n)%nat.
Proof.
  intros Hperm Hj.
  pose proof (Permutation_in _ Hperm (nth_In indexer 0%nat Hj)) as Hin.
  apply in_seq in Hin. lia.
Qed.

(** X8. Every row of the ranking is one record of an input under the common
    labels: a skater's record with the type "Skater" and 0 in the goalie
    columns, or a goalie's record with the type "Goalie", the position "G"
    and 0 in the skater columns. *)
Theorem ranking_rows_are_input_records (kind : sort_kind)
    (skaters goalies : DataFrame) :
  sort_kind_ok kind ->
  scored_table skater_cols skaters = true ->
  scored_table goalie_cols goalies = true ->
  exists ranked,
    create_combined_rankings kind skaters goalies = Ok ranked /\
    forall j, (j < index_len ranked)%nat ->
      (exists i, (i < index_len skaters)%nat /\
         cell ranked "Player Type" j = VStr "Skater" /\
         (forall c, In c skater_cols -> cell ranked c j = cell skaters c i) /\
         (forall c, In c ["W"; "SV"; "SO"; "SV%"; "GAA"] ->
                    cell ranked c j = VNum 0))
      \/
      (exists i, (i < index_len goalies)%nat /\
         cell ranked "Player Type" j = VStr "Goalie" /\
         cell ranked "Pos" j = VStr "G" /\
         (forall c, In c goalie_cols -> cell ranked c j = cell goalies c i) /\
         (forall c, In c ["G"; "A"; "PTS"; "PIM"; "PPG"; "PPP";
                          "SOG"; "HIT"; "BLK"] ->
                    cell ranked c j = VNum 0)).
Proof.
  intros Hkind Hs Hg.
  destruct (combined_rankings_indexer kind skaters goalies Hkind Hs Hg)
    as (indexer & Hrun & Hperm & _).
  eexists. split; [exact Hrun |].
  unfold ranked_frame. cbn [index_len setitem take]. intros j Hj.
  pose proof (indexer_in_range _ _ _ Hperm Hj) as Hk.
  assert (Hwfs : well_formed skaters = true).
  { unfold scored_table in Hs. now do 3 (apply andb_prop in Hs as [Hs _]). }
  assert (Hwfg : well_formed goalies = true).
  { unfold scored_table in Hg. now do 3 (apply andb_prop in Hg as [Hg _]). }
  pose proof (column_or_nan_length skaters) as Hls.
  pose proof (column_or_nan_length goalies) as Hlg.
  set (before := mkDF _ _) in *.
  set (k := nth j indexer 0%nat) in *.
  assert (Hcell : forall c, c <> "Rank" ->
            cell (setitem (take before indexer) "Rank"
                          (range_series 1 (length indexer + 1))) c j =
            cell before c k).
  { intros c Hc. rewrite cell_setitem_other by exact Hc.
    now rewrite cell_take by exact Hj. }
  assert (Hboth : forall c, In c ["Player"; "Team"; "Fantasy Points"] ->
            cell before c k =
            if (k <? index_len skaters)%nat then cell skaters c k
            else cell goalies c (k - index_len skaters)).
  { intros c Hc. unfold cell at 1. subst before. cbn [columns].
    rewrite (merged_lookup_both _ _ c Hc).
    rewrite (nth_seam _ _ (index_len skaters)) by now apply Hls.
    now rewrite !cell_column_or_nan. }
  assert (Hsk : forall c,
            In c ["G"; "A"; "PTS"; "PIM"; "PPG"; "PPP"; "SOG"; "HIT"; "BLK"] ->
            cell before c k =
            if (k <? index_len skaters)%nat then cell skaters c k
            else VNum 0).
  { intros c Hc. unfold cell at 1. subst before. cbn [columns].
    rewrite (merged_lookup_skater_only _ _ c Hc).
    rewrite (nth_seam _ _ (index_len skaters)) by now apply Hls.
    rewrite cell_column_or_nan.
    destruct (k <? index_len skaters)%nat eqn:E; [reflexivity |].
    apply Nat.ltb_ge in E. apply nth_repeat_lt. lia. }
  assert (Hgl : forall c, In c ["W"; "SV"; "SO"; "SV%"; "GAA"] ->
            cell before c k =
            if (k <? index_len skaters)%nat then VNum 0
            else cell goalies c (k - index_len skaters)).
  { intros c Hc. unfold cell at 1. subst before. cbn [columns].
    rewrite (merged_lookup_goalie_only _ _ c Hc).
    rewrite (nth_seam _ _ (index_len skaters)) by apply repeat_length.
    rewrite cell_column_or_nan.
    destruct (Nat.ltb_spec k (index_len skaters)); [| reflexivity].
    now apply nth_repeat_lt. }
  assert (Hpos : cell before "Pos" k =
            if (k <? index_len skaters)%nat then cell skaters "Pos" k
            else VStr "G").
  { unfold cell at 1. subst before. cbn [columns].
    change (lookup "Pos" (merged_columns skaters goalies))
      with (Some (column_or_nan skaters "Pos"
                  ++ repeat (VStr "G") (index_len goalies))).
    cbv iota.
    rewrite (nth_seam _ _ (index_len skaters)) by now apply Hls.
    rewrite cell_column_or_nan.
    destruct (k <? index_len skaters)%nat eqn:E; [reflexivity |].
    apply Nat.ltb_ge in E. apply nth_repeat_lt. lia. }
  assert (Htype : cell before "Player Type" k =
            if (k <? index_len skaters)%nat then VStr "Skater"
            else VStr "Goalie").
  { unfold cell at 1. subst before. cbn [columns].
    change (lookup "Player Type" (merged_columns skaters goalies))
      with (Some (repeat (VStr "Skater") (index_len skaters)
                  ++ repeat (VStr "Goalie") (index_len goalies))).
    cbv iota.
    rewrite (nth_seam _ _ (index_len skaters)) by apply repeat_length.
    destruct (Nat.ltb_spec k (index_len skaters)).
    - now apply nth_repeat_lt.
    - apply nth_repeat_lt. lia. }
  destruct (k <? index_len skaters)%nat eqn:E.
  - left. exists k. apply Nat.ltb_lt in E.
    split; [exact E |].
    split; [rewrite Hcell by discriminate; exact Htype |].
    split.
    + intros c Hc. simpl in Hc.
      destruct Hc as [<- | [<- | [<- | [<- | Hc]]]];
        try (rewrite Hcell by discriminate).
      * apply Hboth; simpl; auto.
      * apply Hboth; simpl; auto.
      * exact Hpos.
      * apply Hboth; simpl; auto.
      * assert (c <> "Rank")
          by (repeat destruct Hc as [<- | Hc]; try contradiction; discriminate).
        rewrite Hcell by assumption. now apply Hsk.
    + intros c Hc.
      assert (c <> "Rank")
        by (simpl in Hc; repeat destruct Hc as [<- | Hc];
            try contradiction; discriminate).
      rewrite Hcell by assumption. now apply Hgl.
  - right. exists (k - index_len skaters)%nat. apply Nat.ltb_ge in E.
    split; [lia |].
    split; [rewrite Hcell by discriminate; exact Htype |].
    split; [rewrite Hcell by discriminate; exact Hpos |].
    split.
    + intros c Hc. simpl in Hc.
      destruct Hc as [<- | [<- | [<- | Hc]]];
        try (rewrite Hcell by discriminate).
      * apply Hboth; simpl; auto.
      * apply Hboth; simpl; auto.
      * apply Hboth; simpl; auto.
      * assert (c <> "Rank")
          by (repeat destruct Hc as [<- | Hc]; try contradiction; discriminate).
        rewrite Hcell by assumption. now apply Hgl.
    + intros c Hc.
      assert (c <> "Rank")
        by (simpl in Hc; repeat destruct Hc as [<- | Hc];
            try contradiction; discriminate).
      rewrite Hcell by assumption. now apply Hsk.
Qed.

Lemma ranking_rows_are_input_records_witness :
  sort_kind_ok kind_stable /\
  scored_table skater_cols scored_skaters = true /\
  scored_table goalie_cols scored_goalies = true /\
  exists ranked,
    create_combined_rankings kind_stable scored_skaters scored_goalies =
      Ok ranked /\
    forall j, (j < index_len ranked)%nat ->
      (exists i, (i < index_len scored_skaters)%nat /\
         cell ranked "Player Type" j = VStr "Skater" /\
         (forall c, In c skater_cols ->
                    cell ranked c j = cell scored_skaters c i) /\
         (forall c, In c ["W"; "SV"; "SO"; "SV%"; "GAA"] ->
                    cell ranked c j = VNum 0))
      \/
      (exists i, (i < index_len scored_goalies)%nat /\
         cell ranked "Player Type" j = VStr "Goalie" /\
         cell ranked "Pos" j = VStr "G" /\
         (forall c, In c goalie_cols ->
                    cell ranked c j = cell scored_goalies c i) /\
         (forall c, In c ["G"; "A"; "PTS"; "PIM"; "PPG"; "PPP";
                          "SOG"; "HIT"; "BLK"] ->
                    cell ranked c j = VNum 0)).
Proof.
  split; [apply kind_stable_ok |].
  repeat (split; [reflexivity |]).
  apply (ranking_rows_are_input_records kind_stable
           scored_skaters scored_goalies);
    [apply kind_stable_ok | reflexivity | reflexivity].
Defined.

(** *** The order of the ranking *)

Lemma Sorted_map_inv {A B} (R : B -> B -> Prop) (f : A -> B) (l : list A) :
  Sorted R (map f l) -> Sorted (fun a b => R (f a) (f b)) l.
Proof.
  induction l as [| a l IH]; simpl; intros H; [constructor |].
  inversion H as [| ? ? Hs Hhd]; subst.
  constructor; [now apply IH |].
  destruct l; simpl in *; constructor. now inversion Hhd.
Qed.

Lemma descending_strongly (key : nat -> Q) (l : list nat) :
  descending (map key l) ->
  StronglySorted (fun a b => key b <= key a) l.
Proof.
  intros H. apply Sorted_StronglySorted.
  - intros a b c Hab Hbc. now apply Qle_trans with (key b).
  - now apply Sorted_map_inv in H.
Qed.

Lemma StronglySorted_nth {A} (R : A -> A -> Prop) (l : list A) (d : A) :
  StronglySorted R l ->
  forall i j, (i < j)%nat -> (j < length l)%nat -> R (nth i l d) (nth j l d).
Proof.
  induction 1 as [| a l Hs IH Hall]; intros i j Hij Hj; simpl in Hj;
    [lia |].
  destruct j as [| j]; [lia |]. destruct i as [| i]; simpl.
  - rewrite Forall_forall in Hall. apply Hall, nth_In. lia.
  - apply IH; lia.
Qed.

(** Two descending arrangements of the same positions agree when no two
    positions have the same key. *)
Lemma descending_perm_unique (key : nat -> Q) (l1 : list nat) :
  forall l2,
    Permutation l1 l2 ->
    (forall a b, In a l1 -> In b l1 -> a <> b -> ~ key a == key b) ->
    StronglySorted (fun a b => key b <= key a) l1 ->
    StronglySorted (fun a b => key b <= key a) l2 ->
    l1 = l2.
Proof.
  induction l1 as [| a t1 IH]; intros l2 Hperm Hdist H1 H2.
  - now apply Permutation_nil in Hperm.
  - destruct l2 as [| b t2].
    + apply Permutation_sym, Permutation_nil in Hperm. discriminate.
    + inversion H1 as [| ? ? Hs1 Hall1]; subst.
      inversion H2 as [| ? ? Hs2 Hall2]; subst.
      destruct (Nat.eq_dec a b) as [-> | Hne].
      * f_equal. apply IH; [now apply Permutation_cons_inv in Hperm | | |];
          try assumption.
        intros x y Hx Hy. apply Hdist; now right.
      * exfalso.
        assert (Ha : In a t2).
        { pose proof (Permutation_in a Hperm (or_introl eq_refl)) as [E | Hin];
            [now symmetry in E | exact Hin]. }
        assert (Hb : In b t1).
        { pose proof (Permutation_in b (Permutation_sym Hperm)
                        (or_introl eq_refl)) as [E | Hin];
            [contradiction | exact Hin]. }
        rewrite Forall_forall in Hall1, Hall2.
        apply (Hdist a b); [now left | now right | exact Hne |].
        apply Qle_antisym; [apply Hall2, Ha | apply Hall1, Hb].
Qed.

Lemma no_ties_nth (l : list Q) :
  no_ties l = true ->
  forall a b, (a < length l)%nat -> (b < length l)%nat -> a <> b ->
              ~ nth a l 0 == nth b l 0.
Proof.
  induction l as [| x l IH]; simpl; intros H a b Ha Hb Hne; [lia |].
  apply andb_prop in H as [Hx Hl]. rewrite forallb_forall in Hx.
  destruct a as [| a], b as [| b]; try lia.
  - intros E. assert (Hin : In (nth b l 0) l) by (apply nth_In; lia).
    specialize (Hx _ Hin). apply negb_true_iff in Hx.
    apply Qeq_bool_neq in Hx. now apply Hx.
  - intros E. assert (Hin : In (nth a l 0) l) by (apply nth_In; lia).
    specialize (Hx _ Hin). apply negb_true_iff in Hx.
    apply Qeq_bool_neq in Hx. apply Hx. now symmetry.
  - apply IH; try assumption; lia.
Qed.

Lemma merged_points_length (skaters goalies : DataFrame) :
  scored_table skater_cols skaters = true ->
  scored_table goalie_cols goalies = true ->
  length (merged_points skaters goalies) =
  (index_len skaters + index_len goalies)%nat.
Proof.
  intros Hs Hg. unfold scored_table in Hs, Hg.
  do 3 (apply andb_prop in Hs as [Hs _]).
  do 3 (apply andb_prop in Hg as [Hg _]).
  unfold merged_points.
  now rewrite length_map, length_app, !column_or_nan_length.
Qed.

(** X9. When no two players have the same fantasy points, the ranking does
    not depend on the sort algorithm: every algorithm that sorts gives the
    same table. *)
Theorem untied_ranking_any_sort (kind1 kind2 : sort_kind)
    (skaters goalies : DataFrame) :
  sort_kind_ok kind1 -> sort_kind_ok kind2 ->
  scored_table skater_cols skaters = true ->
  scored_table goalie_cols goalies = true ->
  no_ties (merged_points skaters goalies) = true ->
  create_combined_rankings kind1 skaters goalies =
  create_combined_rankings kind2 skaters goalies.
Proof.
  intros Hk1 Hk2 Hs Hg Hties.
  destruct (combined_rankings_indexer kind1 skaters goalies Hk1 Hs Hg)
    as (ix1 & Hrun1 & Hperm1 & Hdesc1).
  destruct (combined_rankings_indexer kind2 skaters goalies Hk2 Hs Hg)
    as (ix2 & Hrun2 & Hperm2 & Hdesc2).
  rewrite Hrun1, Hrun2.
  assert (E : ix1 = ix2); [| now rewrite E].
  apply (descending_perm_unique
           (fun i => nth i (merged_points skaters goalies) 0)).
  - now rewrite Hperm1, Hperm2.
  - intros a b Ha Hb Hne.
    apply (Permutation_in _ Hperm1), in_seq in Ha.
    apply (Permutation_in _ Hperm1), in_seq in Hb.
    pose proof (merged_points_length skaters goalies Hs Hg) as Hlen.
    apply no_ties_nth; try assumption; lia.
  - now apply descending_strongly.
  - now apply descending_strongly.
Qed.

Lemma untied_ranking_any_sort_witness :
  sort_kind_ok kind_stable /\ sort_kind_ok kind_reversing /\
  scored_table skater_cols untied_skaters = true /\
  scored_table goalie_cols scored_goalies = true /\
  no_ties (merged_points untied_skaters scored_goalies) = true /\
  create_combined_rankings kind_stable untied_skaters scored_goalies =
  create_combined_rankings kind_reversing untied_skaters scored_goalies.
Proof.
  split; [apply kind_stable_ok |]. split; [apply kind_reversing_ok |].
  do 3 (split; [reflexivity |]).
  apply (untied_ranking_any_sort kind_stable kind_reversing
           untied_skaters scored_goalies);
    [apply kind_stable_ok | apply kind_reversing_ok
     | reflexivity | reflexivity | reflexivity].
Defined.

(** The points of a row of the ranking are those of the record the indexer
    names. *)
Lemma ranked_frame_points (skaters goalies : DataFrame) (indexer : list nat)
    (r : nat) :
  (r < length indexer)%nat ->
  points_at (ranked_frame skaters goalies indexer) r =
  nth (nth r indexer 0%nat) (merged_points skaters goalies) 0.
Proof.
  intros Hr. unfold points_at, ranked_frame.
  rewrite cell_setitem_other by discriminate.
  rewrite cell_take by exact Hr.
  unfold cell. cbn [columns].
  rewrite (merged_lookup_both skaters goalies "Fantasy Points")
    by (simpl; auto).
  unfold merged_points.
  change 0 with (num_of VNaN) at 1. now rewrite map_nth.
Qed.

Lemma ranked_frame_descending (skaters goalies : DataFrame)
    (indexer : list nat) (i j : nat) :
  descending (map (fun k => nth k (merged_points skaters goalies) 0) indexer) ->
  (i <= j)%nat -> (j < length indexer)%nat ->
  points_at (ranked_frame skaters goalies indexer) j <=
  points_at (ranked_frame skaters goalies indexer) i.
Proof.
  intros Hdesc Hij Hj. rewrite !ranked_frame_points by lia.
  destruct (Nat.eq_dec i j) as [-> | Hne]; [apply Qle_refl |].
  apply (StronglySorted_nth _ _ 0%nat (descending_strongly _ _ Hdesc)); lia.
Qed.

(** X10. Down the ranking the fantasy points never increase: a player ranked
    before another has at least as many points, so the first row holds the
    maximum. *)
Theorem ranking_order_respects_points (kind : sort_kind)
    (skaters goalies : DataFrame) :
  sort_kind_ok kind ->
  scored_table skater_cols skaters = true ->
  scored_table goalie_cols goalies = true ->
  exists ranked,
    create_combined_rankings kind skaters goalies = Ok ranked /\
    forall i j, (i <= j)%nat -> (j < index_len ranked)%nat ->
                points_at ranked j <= points_at ranked i.
Proof.
  intros Hkind Hs Hg.
  destruct (combined_rankings_indexer kind skaters goalies Hkind Hs Hg)
    as (indexer & Hrun & Hperm & Hdesc).
  eexists. split; [exact Hrun |].
  intros i j Hij Hj. now apply ranked_frame_descending.
Qed.

Lemma ranking_order_respects_points_witness :
  sort_kind_ok kind_reversing /\
  scored_table skater_cols scored_skaters = true /\
  scored_table goalie_cols scored_goalies = true /\
  exists ranked,
    create_combined_rankings kind_reversing scored_skaters scored_goalies =
      Ok ranked /\
    forall i j, (i <= j)%nat -> (j < index_len ranked)%nat ->
                points_at ranked j <= points_at ranked i.
Proof.
  split; [apply kind_reversing_ok |].
  repeat (split; [reflexivity |]).
  apply (ranking_order_respects_points kind_reversing
           scored_skaters scored_goalies);
    [apply kind_reversing_ok | reflexivity | reflexivity].
Defined.

(** ** [main]: the session *)

(** Once the session remembers a press, a run shows the results whenever the
    data loads, pressed or not. *)
Lemma main_session_calculated (runs : list (bool * bool))
    (session_state : list string) :
  mem fantasy_calculated session_state = true ->
  main_session runs session_state =
  screens_with ResultsScreen runs.
Proof.
  intros Hmem. unfold screens_with.
  induction runs as [| [loaded pressed] runs IH]; simpl;
    [reflexivity |].
  unfold main_run. rewrite Hmem, orb_true_r.
  destruct loaded; simpl; now rewrite IH.
Qed.

Lemma mem_snoc (c : string) (l : list string) : mem c (l ++ [c]) = true.
Proof.
  unfold mem. rewrite existsb_app. simpl.
  now rewrite String.eqb_refl, orb_true_r.
Qed.

(** X11. After a run in which the data loaded and the button was pressed,
    every later run of the session shows the results when the data loads,
    whether the button is pressed again or not; a failed load in between
    does not make the session forget the press. *)
Theorem session_remembers_press (earlier later : list (bool * bool))
    (session_state : list string) :
  main_session (earlier ++ (true, true) :: later) session_state =
  (main_session (earlier ++ [(true, true)]) session_state
   ++ screens_with ResultsScreen later)%list.
Proof.
  revert session_state.
  induction earlier as [| [loaded pressed] earlier IH]; intros st.
  - cbn [app main_session]. unfold main_run. cbn [negb orb].
    destruct (mem fantasy_calculated st) eqn:Hmem; cbn [app].
    + now rewrite (main_session_calculated later st Hmem).
    + now rewrite (main_session_calculated later _ (mem_snoc _ st)).
  - cbn [app main_session].
    destruct (main_run loaded pressed st) as [st' screen].
    cbn [app]. now rewrite IH.
Qed.

(** X12. In a session that does not remember a press, as long as the button
    is not pressed, every run shows the preview when the data loads and the
    error message when it does not. *)
Theorem preview_until_first_press (runs : list (bool * bool))
    (session_state : list string) :
  mem fantasy_calculated session_state = false ->
  forallb (fun r : bool * bool => negb (snd r)) runs = true ->
  main_session runs session_state =
  screens_with PreviewScreen runs.
Proof.
  intros Hmem. unfold screens_with.
  induction runs as [| [loaded pressed] runs IH]; simpl;
    [reflexivity |].
  intros H. apply andb_prop in H as [Hp Hrest].
  apply negb_true_iff in Hp. cbn [snd] in Hp. subst pressed.
  unfold main_run. rewrite Hmem.
  destruct loaded; simpl; now rewrite (IH Hrest).
Qed.

Lemma preview_until_first_press_witness :
  mem fantasy_calculated [] = false /\
  forallb (fun r : bool * bool => negb (snd r))
          [(true, false); (false, false)] = true /\
  main_session [(true, false); (false, false)] [] =
  screens_with PreviewScreen [(true, false); (false, false)].
Proof.
  repeat (split; [reflexivity |]).
  apply (preview_until_first_press [(true, false); (false, false)] []);
    reflexivity.
Defined.

(** ** [main]: the summary metrics *)

Lemma first_true_bound (mask : list bool) (j : nat) :
  first_true mask = Some j ->
  (j < length mask)%nat /\ nth j mask false = true /\
  forall i, (i < j)%nat -> nth i mask false = false.
Proof.
  revert j. induction mask as [| b mask IH]; intros j; simpl; [discriminate |].
  destruct b.
  - intros [= <-]. repeat split; [lia | lia].
  - destruct (first_true mask) as [j' |]; [| discriminate].
    intros [= <-]. destruct (IH j' eq_refl) as (Hlt & Hj & Hmin).
    repeat split; [lia | exact Hj |].
    intros [| i] Hi; [reflexivity |]. apply Hmin. lia.
Qed.

Lemma first_true_exists (mask : list bool) :
  existsb (fun b => b) mask = true -> exists j, first_true mask = Some j.
Proof.
  induction mask as [| b mask IH]; simpl; [discriminate |].
  destruct b; [now exists 0%nat |].
  intros H. destruct (IH H) as [j Hj]. exists (S j). now rewrite Hj.
Qed.

Lemma mask_select_first {A} (mask : list bool) (l : list A) (d : A) (j : nat) :
  first_true mask = Some j -> (j < length l)%nat ->
  nth 0 (mask_select mask l) d = nth j l d.
Proof.
  revert l j. induction mask as [| b mask IH]; intros l j; simpl;
    [discriminate |].
  destruct l as [| x l]; simpl; [lia |].
  destruct b.
  - now intros [= <-] _.
  - destruct (first_true mask) as [j' |] eqn:E; [| discriminate].
    intros [= <-] Hj. apply IH; [reflexivity | lia].
Qed.

Lemma count_true_first (mask : list bool) (n j : nat) :
  first_true mask = Some j -> (j < n)%nat ->
  exists m, count_true (firstn n mask) = S m.
Proof.
  unfold count_true. revert n j.
  induction mask as [| b mask IH]; intros n j; simpl; [discriminate |].
  destruct n as [| n]; [lia |]. simpl.
  destruct b; simpl; [now eexists |].
  destruct (first_true mask) as [j' |] eqn:E; [| discriminate].
  intros [= <-] Hj. apply (IH n j'); [reflexivity | lia].
Qed.

(** The metrics when some row has the position G: the number of rows, the
    player and the points of the first row, and the player of the first row
    whose position is G. *)
Lemma summary_stats_spec (combined : DataFrame) (pos : Series) (j : nat) :
  well_formed combined = true ->
  has_column "Player" combined = true ->
  has_column "Fantasy Points" combined = true ->
  getitem combined "Pos" = Ok pos ->
  first_true (series_eq pos (VStr "G")) = Some j ->
  summary_stats combined =
  Ok (mkSummary (index_len combined)
                (cell combined "Player" 0)
                (cell combined "Fantasy Points" 0)
                (cell combined "Player" j)).
Proof.
  intros Hwf HP HF Hpos Hfirst.
  destruct (first_true_bound _ _ Hfirst) as (Hj & _).
  unfold series_eq in Hj. rewrite length_map in Hj.
  assert (Hlen : length pos = index_len combined).
  { apply (well_formed_length combined "Pos"); [assumption |].
    unfold getitem in Hpos.
    destruct (lookup "Pos" (columns combined)); now inversion Hpos. }
  rewrite Hlen in Hj.
  destruct (has_column_getitem _ _ HP) as [sp Hsp].
  destruct (has_column_getitem _ _ HF) as [sf Hsf].
  pose proof (well_formed_length combined "Player" sp Hwf Hsp) as Hlp.
  destruct (count_true_first _ _ _ Hfirst Hj) as [m Hm].
  assert (Hc : forall i, cell combined "Player" i = nth i sp VNaN)
    by (intros i; unfold cell; now rewrite Hsp).
  assert (Hf : cell combined "Fantasy Points" 0 = nth 0 sf VNaN)
    by (unfold cell; now rewrite Hsf).
  rewrite !Hc, Hf.
  unfold summary_stats, iloc0.
  destruct (index_len combined) as [| n] eqn:Hn; [lia |].
  cbn [rbind]. unfold row_get.
  rewrite !lookup_map_snd.
  unfold Series in Hsp, Hsf. rewrite Hsp, Hsf.
  cbn [rbind]. rewrite Hpos. cbn [rbind].
  unfold boolean_index. cbn [index_len columns]. rewrite Hn, Hm.
  cbn [rbind]. rewrite !lookup_map_snd. rewrite Hsp.
  cbn [rbind snd].
  now rewrite (mask_select_first _ sp VNaN j Hfirst) by lia.
Qed.

(** The first row at which a mask of a position holds. *)
Lemma first_position_row (combined : DataFrame) (pos : Series) (p : string)
    (j : nat) :
  getitem combined "Pos" = Ok pos ->
  first_true (series_eq pos (VStr p)) = Some j ->
  (j < length pos)%nat /\
  cell combined "Pos" j = VStr p /\
  forall i, (i < j)%nat -> cell combined "Pos" i <> VStr p.
Proof.
  intros Hpos Hfirst.
  destruct (first_true_bound _ _ Hfirst) as (Hj & Hat & Hmin).
  unfold series_eq in Hj. rewrite length_map in Hj.
  assert (Hcell : forall i, cell combined "Pos" i = nth i pos VNaN).
  { intros i. unfold cell. unfold getitem in Hpos.
    destruct (lookup "Pos" (columns combined)); now inversion Hpos. }
  assert (Heq : forall i, (i < length pos)%nat ->
            nth i (series_eq pos (VStr p)) false =
            value_eqb (nth i pos VNaN) (VStr p)).
  { intros i Hi. unfold series_eq.
    now apply (nth_map_in_range (fun x => value_eqb x (VStr p))). }
  split; [exact Hj |]. split.
  - rewrite Hcell. rewrite Heq in Hat by exact Hj.
    destruct (nth j pos VNaN) as [q | s |]; simpl in Hat; try discriminate.
    apply String.eqb_eq in Hat. now subst.
  - intros i Hi E. rewrite Hcell in E.
    specialize (Hmin i Hi). rewrite Heq in Hmin by lia.
    rewrite E in Hmin. simpl in Hmin. rewrite String.eqb_refl in Hmin.
    discriminate.
Qed.

(** X13. When some row of the ranking has the position G, the summary shows
    the number of rows, the player and the points of the first row, and as
    top goalie the player of the first row whose position is G. *)
Theorem summary_with_goalie (combined : DataFrame) (pos : Series) (j : nat) :
  well_formed combined = true ->
  has_column "Player" combined = true ->
  has_column "Fantasy Points" combined = true ->
  getitem combined "Pos" = Ok pos ->
  first_true (series_eq pos (VStr "G")) = Some j ->
  exists s,
    summary_stats combined = Ok s /\
    total_players_ranked s = index_len combined /\
    top_player s = cell combined "Player" 0 /\
    top_fantasy_points s = cell combined "Fantasy Points" 0 /\
    top_goalie s = cell combined "Player" j /\
    cell combined "Pos" j = VStr "G" /\
    forall i, (i < j)%nat -> cell combined "Pos" i <> VStr "G".
Proof.
  intros Hwf HP HF Hpos Hfirst.
  eexists. split; [now apply (summary_stats_spec combined pos j) |].
  cbn [total_players_ranked top_player top_fantasy_points top_goalie].
  repeat (split; [reflexivity |]).
  now destruct (first_position_row combined pos "G" j Hpos Hfirst) as (_ & H).
Qed.

Lemma summary_with_goalie_witness :
  well_formed example_rankings = true /\
  has_column "Player" example_rankings = true /\
  has_column "Fantasy Points" example_rankings = true /\
  getitem example_rankings "Pos" =
    Ok [VStr "LW"; VStr "C"; VStr "D"; VStr "G"; VStr "G"] /\
  first_true (series_eq [VStr "LW"; VStr "C"; VStr "D"; VStr "G"; VStr "G"]
                        (VStr "G")) = Some 3%nat /\
  exists s,
    summary_stats example_rankings = Ok s /\
    total_players_ranked s = index_len example_rankings /\
    top_player s = cell example_rankings "Player" 0 /\
    top_fantasy_points s = cell example_rankings "Fantasy Points" 0 /\
    top_goalie s = cell example_rankings "Player" 3 /\
    cell example_rankings "Pos" 3 = VStr "G" /\
    forall i, (i < 3)%nat -> cell example_rankings "Pos" i <> VStr "G".
Proof.
  repeat (split; [reflexivity |]).
  apply (summary_with_goalie example_rankings
           [VStr "LW"; VStr "C"; VStr "D"; VStr "G"; VStr "G"] 3);
    reflexivity.
Defined.

(** *** The summary of a ranking *)

Lemma well_formed_take (df : DataFrame) (indexer : list nat) :
  well_formed df = true -> well_formed (take df indexer) = true.
Proof.
  unfold well_formed, take, names. cbn [columns index_len].
  intros H. apply andb_prop in H as [_ Hd].
  rewrite map_map. cbn [fst].
  apply andb_true_intro. split; [| exact Hd].
  apply forallb_forall. intros cs Hin.
  apply in_map_iff in Hin as (cs' & <- & _). cbn [snd].
  rewrite length_map. apply Nat.eqb_refl.
Qed.

Lemma ranked_frame_well_formed (skaters goalies : DataFrame)
    (indexer : list nat) :
  well_formed skaters = true -> well_formed goalies = true ->
  well_formed (ranked_frame skaters goalies indexer) = true.
Proof.
  intros Hs Hg. unfold ranked_frame.
  apply well_formed_setitem.
  - apply well_formed_take.
    unfold well_formed, merged_columns. cbn [columns index_len forallb snd].
    rewrite !length_app, !repeat_length, !column_or_nan_length by assumption.
    rewrite Nat.eqb_refl. reflexivity.
  - cbn [take index_len]. unfold range_series.
    rewrite length_map, length_seq. lia.
Qed.

Lemma ranked_frame_pos (skaters goalies : DataFrame) (indexer : list nat) :
  getitem (ranked_frame skaters goalies indexer) "Pos" =
  Ok (map (fun i => nth i (column_or_nan skaters "Pos"
                           ++ repeat (VStr "G") (index_len goalies)) VNaN)
          indexer).
Proof. reflexivity. Qed.

(** With a goalie in the table, some row of the ranking has the position
    G. *)
Lemma ranked_frame_first_goalie (skaters goalies : DataFrame)
    (indexer : list nat) (pos : Series) :
  well_formed skaters = true ->
  Permutation indexer (seq 0 (index_len skaters + index_len goalies)) ->
  (0 < index_len goalies)%nat ->
  getitem (ranked_frame skaters goalies indexer) "Pos" = Ok pos ->
  exists j, first_true (series_eq pos (VStr "G")) = Some j.
Proof.
  intros Hwf Hperm Hg Hpos. rewrite ranked_frame_pos in Hpos.
  injection Hpos as <-.
  apply first_true_exists, existsb_exists. exists true. split; [| reflexivity].
  unfold series_eq. rewrite map_map. apply in_map_iff.
  exists (index_len skaters). split.
  - rewrite app_nth2 by (rewrite column_or_nan_length by assumption; lia).
    rewrite column_or_nan_length by assumption.
    rewrite Nat.sub_diag. now destruct (index_len goalies); [lia |].
  - apply (Permutation_in _ (Permutation_sym Hperm)), in_seq. lia.
Qed.

(** X14. When the goalie table has a record, the summary of the ranking
    does not raise: it counts every player, its top points are the highest
    of the ranking, and its top goalie is a player of position G with the
    most points among the rows of that position. *)
Theorem ranking_summary_succeeds (kind : sort_kind)
    (skaters goalies : DataFrame) :
  sort_kind_ok kind ->
  scored_table skater_cols skaters = true ->
  scored_table goalie_cols goalies = true ->
  (0 < index_len goalies)%nat ->
  exists ranked s j,
    create_combined_rankings kind skaters goalies = Ok ranked /\
    summary_stats ranked = Ok s /\
    total_players_ranked s = (index_len skaters + index_len goalies)%nat /\
    (forall i, (i < index_len ranked)%nat ->
               points_at ranked i <= num_of (top_fantasy_points s)) /\
    (j < index_len ranked)%nat /\
    top_goalie s = cell ranked "Player" j /\
    cell ranked "Pos" j = VStr "G" /\
    (forall i, (i < index_len ranked)%nat -> cell ranked "Pos" i = VStr "G" ->
               points_at ranked i <= points_at ranked j).
Proof.
  intros Hkind Hs Hg Hsome.
  destruct (combined_rankings_indexer kind skaters goalies Hkind Hs Hg)
    as (indexer & Hrun & Hperm & Hdesc).
  assert (Hwfs : well_formed skaters = true).
  { unfold scored_table in Hs. now do 3 (apply andb_prop in Hs as [Hs _]). }
  assert (Hwfg : well_formed goalies = true).
  { unfold scored_table in Hg. now do 3 (apply andb_prop in Hg as [Hg _]). }
  pose proof (Permutation_length Hperm) as Hlen. rewrite length_seq in Hlen.
  set (ranked := ranked_frame skaters goalies indexer) in *.
  destruct (ranked_frame_first_goalie skaters goalies indexer _
              Hwfs Hperm Hsome (ranked_frame_pos skaters goalies indexer))
    as [j Hj].
  pose proof (summary_stats_spec ranked _ j
                (ranked_frame_well_formed skaters goalies indexer Hwfs Hwfg)
                eq_refl eq_refl
                (ranked_frame_pos skaters goalies indexer) Hj) as Hsum.
  destruct (first_position_row ranked _ "G" j
              (ranked_frame_pos skaters goalies indexer) Hj)
    as (Hjlt & Hat & Hmin).
  rewrite length_map in Hjlt.
  eexists. eexists. exists j.
  split; [exact Hrun |]. split; [exact Hsum |].
  cbn [total_players_ranked top_fantasy_points top_goalie].
  assert (Hn : index_len ranked = length indexer) by reflexivity.
  rewrite Hn.
  split; [exact Hlen |]. split.
  { intros i Hi. apply (ranked_frame_descending _ _ _ 0 i Hdesc); lia. }
  split; [exact Hjlt |]. split; [reflexivity |]. split; [exact Hat |].
  intros i Hi HG.
  apply (ranked_frame_descending _ _ _ j i Hdesc); [| exact Hi].
  destruct (Nat.le_gt_cases j i) as [Hle | Hgt]; [exact Hle |].
  now destruct (Hmin i Hgt).
Qed.

Lemma ranking_summary_succeeds_witness :
  sort_kind_ok kind_stable /\
  scored_table skater_cols scored_skaters = true /\
  scored_table goalie_cols scored_goalies = true /\
  (0 < index_len scored_goalies)%nat /\
  exists ranked s j,
    create_combined_rankings kind_stable scored_skaters scored_goalies =
      Ok ranked /\
    summary_stats ranked = Ok s /\
    total_players_ranked s =
      (index_len scored_skaters + index_len scored_goalies)%nat /\
    (forall i, (i < index_len ranked)%nat ->
               points_at ranked i <= num_of (top_fantasy_points s)) /\
    (j < index_len ranked)%nat /\
    top_goalie s = cell ranked "Player" j /\
    cell ranked "Pos" j = VStr "G" /\
    (forall i, (i < index_len ranked)%nat -> cell ranked "Pos" i = VStr "G" ->
               points_at ranked i <= points_at ranked j).
Proof.
  split; [apply kind_stable_ok |].
  repeat (split; [reflexivity |]).
  split; [simpl; lia |].
  apply (ranking_summary_succeeds kind_stable scored_skaters scored_goalies);
    [apply kind_stable_ok | reflexivity | reflexivity | simpl; lia].
Defined.

(** ** [main]: the position tabs *)

Lemma count_true_map {A} (f : A -> bool) (l : list A) :
  count_true (map f l) = length (filter f l).
Proof.
  unfold count_true. rewrite filter_map_comm. apply length_map.
Qed.

(** The rows a position mask selects are the rows of that position. *)
Lemma position_mask_count (combined : DataFrame) (p : Series) (pos : string) :
  well_formed combined = true ->
  getitem combined "Pos" = Ok p ->
  count_true (firstn (index_len combined) (series_eq p (VStr pos))) =
  players_at combined pos.
Proof.
  intros Hwf Hp. unfold getitem in Hp.
  destruct (lookup "Pos" (columns combined)) as [s |] eqn:Hs;
    inversion Hp; subst s.
  pose proof (well_formed_length combined "Pos" p Hwf Hs) as Hlen.
  unfold players_at, series_eq.
  rewrite firstn_all2 by (rewrite length_map; lia).
  rewrite count_true_map.
  rewrite <- (map_nth_seq p VNaN) at 1.
  rewrite filter_map_comm, length_map, Hlen.
  f_equal. apply filter_ext. intros i. unfold cell. now rewrite Hs.
Qed.

Lemma names_boolean_index (df : DataFrame) (mask : list bool) :
  names (boolean_index df mask) = names df.
Proof.
  unfold names, boolean_index. cbn [columns]. rewrite map_map.
  reflexivity.
Qed.

Lemma has_columns_setitem (cols : list string) (df : DataFrame) (c : string)
    (s : Series) :
  has_columns cols df = true ->
  has_columns (c :: cols) (setitem df c s) = true.
Proof.
  unfold has_columns. cbn [forallb]. intros H.
  rewrite has_column_setitem, String.eqb_refl. cbn [orb andb].
  rewrite forallb_forall in *. intros c' Hc'.
  rewrite has_column_setitem. rewrite (H c' Hc'). apply orb_true_r.
Qed.

(** X15. A position tab (Defense, LW, RW) shows the warning exactly when the
    ranking has no player of the position; otherwise it shows a table with
    one row per player of the position, numbered from 1 in the position's
    own rank column, the player count, and a chart of at most fifteen
    players. *)
Theorem position_tab_views (combined : DataFrame)
    (pos rank_label message : string) :
  well_formed combined = true ->
  has_columns ("Pos" :: position_cols) combined = true ->
  (players_at combined pos = 0%nat ->
   position_tab combined pos rank_label message = Ok (TabWarning message)) /\
  ((0 < players_at combined pos)%nat ->
   exists table chart_data,
     position_tab combined pos rank_label message =
       Ok (TabTable table chart_data (players_at combined pos)) /\
     names table = rank_label :: position_cols /\
     index_len table = players_at combined pos /\
     index_len chart_data = Nat.min 15 (players_at combined pos) /\
     forall i, (i < players_at combined pos)%nat ->
               cell table rank_label i = VNum (inject_Z (Z.of_nat (S i)))).
Proof.
  intros Hwf Hcols.
  pose proof Hcols as Hall.
  unfold has_columns in Hcols. cbn [forallb] in Hcols.
  apply andb_prop in Hcols as [Hpos Hcols].
  destruct (has_column_getitem _ _ Hpos) as [p Hp].
  assert (Hget : getitem combined "Pos" = Ok p)
    by (unfold getitem; now rewrite Hp).
  pose proof (position_mask_count combined p pos Hwf Hget) as Hcount.
  unfold position_tab. rewrite Hget. cbn [rbind]. unfold reset_index.
  set (only := boolean_index combined (series_eq p (VStr pos))).
  assert (Hn : index_len only = players_at combined pos) by exact Hcount.
  assert (Hne : (length (columns only) =? 0)%nat = false).
  { unfold only, boolean_index. cbn [columns]. rewrite length_map.
    apply Nat.eqb_neq. intros E. apply length_zero_iff_nil in E.
    unfold has_column, names in Hpos. rewrite E in Hpos. discriminate. }
  unfold empty. rewrite Hne, orb_false_r, Hn.
  split.
  - intros ->. reflexivity.
  - intros Hk.
    destruct (players_at combined pos) as [| k] eqn:Ek; [lia |].
    cbn [Nat.eqb negb].
    set (ranked := setitem only rank_label (range_series 1 (S k + 1))).
    assert (Hsel : has_columns (rank_label :: position_cols) ranked = true).
    { apply has_columns_setitem. unfold has_columns, has_column, only.
      rewrite names_boolean_index. exact Hcols. }
    assert (Hr : index_len ranked = S k) by exact Hn.
    change (select ranked _)
      with (select ranked (rank_label :: position_cols)).
    rewrite (select_present _ _ Hsel). cbn [rbind]. rewrite !Hr.
    eexists. eexists. split; [reflexivity |].
    split.
    { unfold names. cbn [columns].
      apply map_fst_combine. now rewrite length_map. }
    split; [reflexivity |].
    split.
    { destruct (10 <=? S k)%nat eqn:E; cbn [head index_len]; rewrite ?Hr.
      - reflexivity.
      - apply Nat.leb_gt in E. lia. }
    intros i Hi. unfold cell at 1. cbn [columns combine map lookup].
    rewrite String.eqb_refl.
    unfold column_or_nan, ranked. cbn [columns setitem].
    rewrite lookup_assign_same.
    rewrite rank_column.
    rewrite (nth_map_in_range _ _ i 0%nat) by (rewrite length_seq; lia).
    now rewrite seq_nth by lia.
Qed.

Lemma position_tab_views_witness :
  well_formed example_rankings = true /\
  has_columns ("Pos" :: position_cols) example_rankings = true /\
  (players_at example_rankings "D" = 0%nat ->
   position_tab example_rankings "D" "D Rank" "none" =
     Ok (TabWarning "none")) /\
  ((0 < players_at example_rankings "D")%nat ->
   exists table chart_data,
     position_tab example_rankings "D" "D Rank" "none" =
       Ok (TabTable table chart_data (players_at example_rankings "D")) /\
     names table = "D Rank" :: position_cols /\
     index_len table = players_at example_rankings "D" /\
     index_len chart_data = Nat.min 15 (players_at example_rankings "D") /\
     forall i, (i < players_at example_rankings "D")%nat ->
               cell table "D Rank" i = VNum (inject_Z (Z.of_nat (S i)))).
Proof.
  repeat (split; [reflexivity |]).
  apply (position_tab_views example_rankings "D" "D Rank" "none");
    reflexivity.
Defined.

(** ** [main]: the Forwards and Goalies tabs *)

Lemma ranked_frame_player_type (skaters goalies : DataFrame)
    (indexer : list nat) :
  getitem (ranked_frame skaters goalies indexer) "Player Type" =
  Ok (map (fun i => nth i (repeat (VStr "Skater") (index_len skaters)
                           ++ repeat (VStr "Goalie") (index_len goalies)) VNaN)
          indexer).
Proof. reflexivity. Qed.

(** The rows of one player type in the ranking are the records of its input
    table. *)
Lemma ranked_frame_type_count (skaters goalies : DataFrame)
    (indexer : list nat) (t : Series) (player_type : string) :
  Permutation indexer (seq 0 (index_len skaters + index_len goalies)) ->
  getitem (ranked_frame skaters goalies indexer) "Player Type" = Ok t ->
  count_true (firstn (index_len (ranked_frame skaters goalies indexer))
                     (series_eq t (VStr player_type))) =
  ((if String.eqb "Skater" player_type then index_len skaters else 0)
   + (if String.eqb "Goalie" player_type then index_len goalies else 0))%nat.
Proof.
  intros Hperm Ht. rewrite ranked_frame_player_type in Ht.
  injection Ht as <-.
  unfold series_eq. rewrite map_map.
  rewrite firstn_all2 by (rewrite length_map; apply Nat.le_refl).
  rewrite count_true_map.
  rewrite (Permutation_length (filter_perm _ _ _ Hperm)).
  rewrite seq_app, filter_app, length_app. cbn [Nat.add].
  f_equal.
  - destruct (String.eqb "Skater" player_type) eqn:E.
    + rewrite filter_all; [apply length_seq |].
      intros i Hi. apply in_seq in Hi.
      rewrite app_nth1 by (rewrite repeat_length; lia).
      rewrite nth_repeat_lt by lia. exact E.
    + rewrite filter_none; [reflexivity |].
      intros i Hi. apply in_seq in Hi.
      rewrite app_nth1 by (rewrite repeat_length; lia).
      rewrite nth_repeat_lt by lia. exact E.
  - destruct (String.eqb "Goalie" player_type) eqn:E.
    + rewrite filter_all; [apply length_seq |].
      intros i Hi. apply in_seq in Hi.
      rewrite app_nth2 by (rewrite repeat_length; lia).
      rewrite repeat_length, nth_repeat_lt by lia. exact E.
    + rewrite filter_none; [reflexivity |].
      intros i Hi. apply in_seq in Hi.
      rewrite app_nth2 by (rewrite repeat_length; lia).
      rewrite repeat_length, nth_repeat_lt by lia. exact E.
Qed.

(** X16. The Forwards tab lists every skater of the ranking, whatever the
    position, and the Goalies tab every goalie: their tables have one row
    per record of the skater and of the goalie table, and each chart shows
    at most fifteen of them. *)
Theorem player_type_tabs_list_all (kind : sort_kind)
    (skaters goalies : DataFrame) :
  sort_kind_ok kind ->
  scored_table skater_cols skaters = true ->
  scored_table goalie_cols goalies = true ->
  exists ranked skater_table skater_chart goalie_table goalie_chart,
    create_combined_rankings kind skaters goalies = Ok ranked /\
    forwards_tab ranked = Ok (skater_table, skater_chart) /\
    goalies_tab ranked = Ok (goalie_table, goalie_chart) /\
    index_len skater_table = index_len skaters /\
    index_len goalie_table = index_len goalies /\
    index_len skater_chart = Nat.min 15 (index_len skaters) /\
    index_len goalie_chart = Nat.min 15 (index_len goalies).
Proof.
  intros Hkind Hs Hg.
  destruct (combined_rankings_indexer kind skaters goalies Hkind Hs Hg)
    as (indexer & Hrun & Hperm & _).
  set (ranked := ranked_frame skaters goalies indexer) in *.
  pose proof (ranked_frame_type_count skaters goalies indexer _ "Skater" Hperm
                (ranked_frame_player_type skaters goalies indexer)) as Hsk.
  pose proof (ranked_frame_type_count skaters goalies indexer _ "Goalie" Hperm
                (ranked_frame_player_type skaters goalies indexer)) as Hgl.
  cbn [String.eqb Ascii.eqb Bool.eqb] in Hsk, Hgl.
  rewrite Nat.add_0_r in Hsk. cbn [Nat.add] in Hgl.
  fold ranked in Hsk, Hgl.
  exists ranked.
  unfold forwards_tab, goalies_tab, player_type_tab.
  pose proof (ranked_frame_player_type skaters goalies indexer) as Ht.
  fold ranked in Ht. rewrite Ht.
  cbn [rbind]. unfold reset_index.
  rewrite !select_present by reflexivity.
  cbn [rbind].
  do 4 eexists. split; [exact Hrun |].
  split; [reflexivity |]. split; [reflexivity |].
  cbn [index_len head setitem boolean_index].
  now rewrite Hsk, Hgl.
Qed.

Lemma player_type_tabs_list_all_witness :
  sort_kind_ok kind_stable /\
  scored_table skater_cols scored_skaters = true /\
  scored_table goalie_cols scored_goalies = true /\
  exists ranked skater_table skater_chart goalie_table goalie_chart,
    create_combined_rankings kind_stable scored_skaters scored_goalies =
      Ok ranked /\
    forwards_tab ranked = Ok (skater_table, skater_chart) /\
    goalies_tab ranked = Ok (goalie_table, goalie_chart) /\
    index_len skater_table = index_len scored_skaters /\
    index_len goalie_table = index_len scored_goalies /\
    index_len skater_chart = Nat.min 15 (index_len scored_skaters) /\
    index_len goalie_chart = Nat.min 15 (index_len scored_goalies).
Proof.
  split; [apply kind_stable_ok |].
  repeat (split; [reflexivity |]).
  apply (player_type_tabs_list_all kind_stable scored_skaters scored_goalies);
    [apply kind_stable_ok | reflexivity | reflexivity].
Defined.

(** ** [main]: the All Players tab *)

Lemma lookup_combine_map {A} (f : string -> A) (c : string)
    (cols : list string) :
  In c cols -> lookup c (combine cols (map f cols)) = Some (f c).
Proof.
  induction cols as [| c0 cols IH]; simpl; [tauto |].
  intros Hin. destruct (String.eqb c c0) eqn:E.
  - apply String.eqb_eq in E. now subst.
  - destruct Hin as [-> | Hin]; [now rewrite String.eqb_refl in E |].
    now apply IH.
Qed.

(** A cell of a selection is the cell of the frame. *)
Lemma cell_select (df shown : DataFrame) (cols : list string) (c : string)
    (i : nat) :
  has_columns cols df = true -> select df cols = Ok shown -> In c cols ->
  cell shown c i = cell df c i.
Proof.
  intros Hcols Hsel Hin. rewrite (select_present _ _ Hcols) in Hsel.
  injection Hsel as <-. unfold cell at 1. cbn [columns].
  rewrite (lookup_combine_map (column_or_nan df)) by exact Hin.
  apply cell_column_or_nan.
Qed.

Lemma names_head (n : nat) (df : DataFrame) : names (head n df) = names df.
Proof. unfold names, head. cbn [columns]. now rewrite map_map. Qed.










(** A skater whose position was missing in the file has the position 0
    after [load_data]: the tab of the ranking raises. *)
Remark missing_position_breaks_tab :
  all_players_tab unplaced_rankings (Top 100) [] = Raise TypeError.
Proof. vm_compute. reflexivity. Qed.

(** ** [main]: the team breakdown *)

Lemma nth_firstn_lt {A} (n i : nat) (l : list A) (d : A) :
  (i < n)%nat -> nth i (firstn n l) d = nth i l d.
Proof.
  revert i l. induction n as [| n IH]; intros i l Hi; [lia |].
  destruct l as [| x l]; [now destruct i |].
  destruct i as [| i]; simpl; [reflexivity |]. apply IH. lia.
Qed.

Lemma group_key_present (g : value) (ks : Series) :
  In g (group_keys ks) -> value_eqb g g = true.
Proof.
  intros Hin. apply group_keys_observed in Hin.
  apply existsb_exists in Hin as (x & _ & Hx).
  rewrite value_eqb_sym in Hx.
  apply value_eqb_refl. exact (value_eqb_present _ _ Hx).
Qed.

(** X18. The teams the breakdown lists are those with the highest totals:
    a team the cut to ten leaves out has a total no higher than that of any
    listed team. *)
Theorem team_breakdown_lists_highest (kind : sort_kind)
    (combined : DataFrame) :
  sort_kind_ok kind ->
  scored_table ["Team"] combined = true ->
  exists totals stats,
    team_totals combined = Ok totals /\
    team_breakdown kind combined = Ok stats /\
    forall p, (p < index_len totals)%nat ->
      team_listed stats (cell totals "Team" p) = false ->
      forall i, (i < index_len stats)%nat ->
        num_of (cell totals "Total Fantasy Points" p) <=
        num_of (cell stats "Total Fantasy Points" i).
Proof.
  intros Hkind Hscored.
  destruct (team_totals_spec combined Hscored) as (ks & vs & Hks & Hvs & Htot).
  set (keys := group_keys ks) in *.
  set (sums := map (fun g => VNum (total_where g ks vs)) keys) in *.
  destruct (nargsort_descending kind Hkind sums (numeric_map_VNum _ _))
    as (indexer & Hsort & Hperm & Hdesc & _).
  assert (Hlen : length sums = length keys) by (unfold sums; apply length_map).
  rewrite Hlen in Hperm.
  pose proof (Permutation_length Hperm) as Hix. rewrite length_seq in Hix.
  eexists. eexists.
  split; [exact Htot |]. split.
  { unfold team_breakdown. rewrite Htot. cbn [rbind].
    unfold sort_values, getitem. cbn [columns lookup String.eqb Ascii.eqb
                                     Bool.eqb rbind].
    fold sums. rewrite Hsort. reflexivity. }
  cbn [index_len head take].
  intros p Hp Hout i Hi.
  change (cell _ "Team" p) with (nth p keys VNaN) in Hout.
  change (cell _ "Total Fantasy Points" p) with (nth p sums VNaN).
  change (cell _ "Total Fantasy Points" i)
    with (nth i (firstn 10 (map (fun j => nth j sums VNaN) indexer)) VNaN).
  unfold team_listed in Hout.
  change (column_or_nan _ "Team")
    with (firstn 10 (map (fun j => nth j keys VNaN) indexer)) in Hout.
  assert (Hin : In p indexer).
  { apply (Permutation_in _ (Permutation_sym Hperm)), in_seq. lia. }
  destruct (In_nth _ _ 0%nat Hin) as (j & Hj & Hnth).
  assert (Hlate : (10 <= j)%nat).
  { destruct (Nat.le_gt_cases 10 j) as [H | H]; [exact H |].
    exfalso. rewrite <- not_true_iff_false in Hout. apply Hout.
    apply existsb_exists. exists (nth p keys VNaN). split.
    - rewrite <- Hnth.
      rewrite <- (nth_map_in_range (fun j => nth j keys VNaN) indexer j
                    0%nat VNaN Hj).
      rewrite <- (nth_firstn_lt 10 j _ VNaN H).
      apply nth_In. rewrite length_firstn, length_map. lia.
    - apply (group_key_present _ ks). now apply nth_In. }
  rewrite nth_firstn_lt by lia.
  rewrite (nth_map_in_range (fun j => nth j sums VNaN) indexer i 0%nat VNaN)
    by lia.
  rewrite <- Hnth.
  apply (StronglySorted_nth _ _ 0%nat
           (descending_strongly (fun k => num_of (nth k sums VNaN)) _ Hdesc));
    lia.
Qed.

Lemma team_breakdown_lists_highest_witness :
  sort_kind_ok kind_stable /\
  scored_table ["Team"] eleven_team_rankings = true /\
  exists totals stats,
    team_totals eleven_team_rankings = Ok totals /\
    team_breakdown kind_stable eleven_team_rankings = Ok stats /\
    forall p, (p < index_len totals)%nat ->
      team_listed stats (cell totals "Team" p) = false ->
      forall i, (i < index_len stats)%nat ->
        num_of (cell totals "Total Fantasy Points" p) <=
        num_of (cell stats "Total Fantasy Points" i).
Proof.
  split; [apply kind_stable_ok |].
  split; [reflexivity |].
  apply (team_breakdown_lists_highest kind_stable eleven_team_rankings);
    [apply kind_stable_ok | reflexivity].
Defined.

(** ** [load_data] on its own output *)

Lemma remove_quotes_no_quote (s : string) :
  has_quote (remove_quotes s) = false.
Proof.
  induction s as [| c s IH]; simpl; [reflexivity |].
  destruct (Ascii.eqb c double_quote) eqn:E; [exact IH |].
  simpl. now rewrite E, IH.
Qed.

Lemma remove_quotes_fixed (s : string) :
  has_quote s = false -> remove_quotes s = s.
Proof.
  induction s as [| c s IH]; simpl; [reflexivity |].
  intros H. apply orb_false_iff in H as [Hc Hs].
  rewrite Hc. f_equal. now apply IH.
Qed.

Lemma names_clean_column_names (df : DataFrame) :
  names (clean_column_names df) = map remove_quotes (names df).
Proof.
  unfold clean_column_names, set_columns, names. cbn [columns].
  apply map_fst_combine. now rewrite !length_map.
Qed.

Lemma combine_fst_snd {A B} (l : list (A * B)) :
  combine (map fst l) (map snd l) = l.
Proof.
  induction l as [| [a b] l IH]; simpl; [reflexivity |]. now rewrite IH.
Qed.

Lemma clean_column_names_fixed (df : DataFrame) :
  (forall c, In c (names df) -> has_quote c = false) ->
  clean_column_names df = df.
Proof.
  intros H. unfold clean_column_names, set_columns.
  rewrite (map_ext_in remove_quotes (fun c => c))
    by (intros c Hc; apply remove_quotes_fixed; now apply H).
  rewrite map_id. unfold names. rewrite combine_fst_snd.
  now destruct df.
Qed.

Lemma assign_fixed (c : string) (s : Series) (cols : list (string * Series)) :
  lookup c cols = Some s -> assign c s cols = cols.
Proof.
  induction cols as [| [c' s'] cols IH]; simpl; [discriminate |].
  destruct (String.eqb c c') eqn:E.
  - apply String.eqb_eq in E. intros [= ->]. now subst.
  - intros H. now rewrite IH.
Qed.

(** The conversion loop changes nothing when the columns it names hold no
    string. *)
Lemma convert_numeric_fixed (parse : string -> option Q) (cols : list string)
    (df : DataFrame) :
  (forall c s, In c cols -> lookup c (columns df) = Some s ->
               to_numeric parse s = s) ->
  convert_numeric parse cols df = Ok df.
Proof.
  induction cols as [| col cols IH]; intros H; cbn [convert_numeric];
    [reflexivity |].
  assert (Hrest : convert_numeric parse cols df = Ok df)
    by (apply IH; intros c s Hc; apply H; now right).
  destruct (has_column col df) eqn:Hhas; [| exact Hrest].
  destruct (has_column_getitem _ _ Hhas) as [s Hs].
  unfold getitem. rewrite Hs. cbn [rbind].
  rewrite (H col s (or_introl eq_refl) Hs).
  unfold setitem. rewrite (assign_fixed _ _ _ Hs).
  destruct df. exact Hrest.
Qed.

Lemma fill_coerce_fixed (parse : string -> option Q) (v : value) :
  coerce parse (fill_value (VNum 0) (coerce parse v)) =
  fill_value (VNum 0) (coerce parse v).
Proof.
  destruct v as [q | s |]; simpl; try reflexivity.
  now destruct (parse s).
Qed.

Lemma fillna_fixed (df : DataFrame) :
  fillna (VNum 0) (fillna (VNum 0) df) = fillna (VNum 0) df.
Proof.
  unfold fillna. cbn [index_len columns]. f_equal.
  rewrite map_map. apply map_ext. intros [c s]. cbn [fst snd]. f_equal.
  rewrite map_map. apply map_ext. now intros [q | t |].
Qed.

(** One table through the body of [load_data], and through it again. *)
Lemma normalize_fixed (parse : string -> option Q) (declared : list string)
    (raw converted : DataFrame) :
  convert_numeric parse declared (clean_column_names raw) = Ok converted ->
  let out := fillna (VNum 0) converted in
  names out = map remove_quotes (names raw) /\
  clean_column_names out = out /\
  convert_numeric parse declared out = Ok out /\
  fillna (VNum 0) out = out.
Proof.
  intros Hrun out.
  destruct (convert_numeric_spec parse declared (clean_column_names raw))
    as (df' & Hrun' & _ & Hnames & Hcols).
  rewrite Hrun in Hrun'. injection Hrun' as <-.
  assert (Hn : names out = map remove_quotes (names raw)).
  { unfold out. now rewrite names_fillna, Hnames, names_clean_column_names. }
  split; [exact Hn |]. split.
  { apply clean_column_names_fixed. intros c Hc. rewrite Hn in Hc.
    apply in_map_iff in Hc as (c0 & <- & _). apply remove_quotes_no_quote. }
  split; [| apply fillna_fixed].
  apply convert_numeric_fixed. intros c s Hc Hs.
  unfold out in Hs. rewrite lookup_fillna, Hcols in Hs.
  destruct (lookup c (columns (clean_column_names raw))) as [s0 |];
    [| discriminate].
  apply mem_In in Hc. rewrite Hc in Hs. injection Hs as <-.
  unfold to_numeric. rewrite !map_map. apply map_ext.
  intros v. apply fill_coerce_fixed.
Qed.

(** X19. Loading is a normalisation: the tables [load_data] returns for two
    tables as [read_csv] gives them, given to the body of [load_data] again,
    come back as they are. *)
Theorem load_data_idempotent (parse : string -> option Q)
    (skaters goalies s g : DataFrame) :
  well_formed (clean_column_names skaters) = true ->
  well_formed (clean_column_names goalies) = true ->
  load_data parse skaters goalies = Some (s, g) ->
  load_data parse s g = Some (s, g).
Proof.
  intros _ _. unfold load_data.
  destruct (convert_numeric parse numeric_cols_skaters
              (clean_column_names skaters)) as [s0 | e] eqn:Hs;
    [| discriminate].
  destruct (convert_numeric parse numeric_cols_goalies
              (clean_column_names goalies)) as [g0 | e] eqn:Hg;
    [| discriminate].
  cbn [rbind]. intros [= <- <-].
  destruct (normalize_fixed parse _ _ _ Hs) as (_ & Hcs & Hns & Hfs).
  destruct (normalize_fixed parse _ _ _ Hg) as (_ & Hcg & Hng & Hfg).
  rewrite Hcs, Hcg, Hns, Hng. cbn [rbind]. now rewrite Hfs, Hfg.
Qed.

Lemma load_data_idempotent_witness :
  well_formed (clean_column_names raw_skaters) = true /\
  well_formed (clean_column_names example_goalies) = true /\
  load_data parse_decimal raw_skaters example_goalies =
    Some (fst example_loaded, snd example_loaded) /\
  load_data parse_decimal (fst example_loaded) (snd example_loaded) =
    Some (fst example_loaded, snd example_loaded).
Proof.
  repeat (split; [reflexivity |]).
  apply (load_data_idempotent parse_decimal raw_skaters example_goalies);
    reflexivity.
Defined.

(** X20. The labels of the tables [load_data] returns are the labels read
    from the files with every double quote removed: none of them holds a
    quote, and labels without quotes are kept as they are. *)
Theorem loaded_labels_unquoted (parse : string -> option Q)
    (skaters goalies s g : DataFrame) :
  well_formed (clean_column_names skaters) = true ->
  well_formed (clean_column_names goalies) = true ->
  load_data parse skaters goalies = Some (s, g) ->
  names s = map remove_quotes (names skaters) /\
  names g = map remove_quotes (names goalies) /\
  (forall c, In c (names s ++ names g) -> has_quote c = false) /\
  ((forall c, In c (names skaters) -> has_quote c = false) ->
   names s = names skaters).
Proof.
  intros _ _. unfold load_data.
  destruct (convert_numeric parse numeric_cols_skaters
              (clean_column_names skaters)) as [s0 | e] eqn:Hs;
    [| discriminate].
  destruct (convert_numeric parse numeric_cols_goalies
              (clean_column_names goalies)) as [g0 | e] eqn:Hg;
    [| discriminate].
  cbn [rbind]. intros [= <- <-].
  destruct (normalize_fixed parse _ _ _ Hs) as (Hn & _).
  destruct (normalize_fixed parse _ _ _ Hg) as (Hm & _).
  split; [exact Hn |]. split; [exact Hm |]. split.
  - intros c Hc. rewrite Hn, Hm, <- map_app in Hc.
    apply in_map_iff in Hc as (c0 & <- & _). apply remove_quotes_no_quote.
  - intros H. rewrite Hn.
    rewrite (map_ext_in remove_quotes (fun c => c))
      by (intros c Hc; apply remove_quotes_fixed; now apply H).
    apply map_id.
Qed.

Lemma loaded_labels_unquoted_witness :
  well_formed (clean_column_names raw_skaters) = true /\
  well_formed (clean_column_names example_goalies) = true /\
  load_data parse_decimal raw_skaters example_goalies =
    Some (fst example_loaded, snd example_loaded) /\
  names (fst example_loaded) = map remove_quotes (names raw_skaters) /\
  names (snd example_loaded) = map remove_quotes (names example_goalies) /\
  (forall c, In c (names (fst example_loaded) ++ names (snd example_loaded)) ->
             has_quote c = false) /\
  ((forall c, In c (names raw_skaters) -> has_quote c = false) ->
   names (fst example_loaded) = names raw_skaters).
Proof.
  repeat (split; [reflexivity |]).
  apply (loaded_labels_unquoted parse_decimal raw_skaters example_goalies);
    reflexivity.
Defined.

(** ** [main]: the position breakdown *)

Lemma q_max_l (a b : Q) : a <= q_max a b.
Proof.
  unfold q_max. destruct (Qle_bool a b) eqn:E.
  - now apply Qle_bool_iff.
  - apply Qle_refl.
Qed.

Lemma q_max_r (a b : Q) : b <= q_max a b.
Proof.
  unfold q_max. destruct (Qle_bool a b) eqn:E; [apply Qle_refl |].
  apply Qlt_le_weak, Qnot_le_lt. intros H.
  apply Qle_bool_iff in H. congruence.
Qed.

Lemma fold_q_max_upper (x : Q) (l : list Q) (y : Q) :
  In y (x :: l) -> y <= fold_right q_max x l.
Proof.
  induction l as [| a l IH]; simpl.
  - intros [-> | []]. apply Qle_refl.
  - intros [-> | [-> | Hin]].
    + apply Qle_trans with (fold_right q_max y l);
        [apply IH; now left | apply q_max_r].
    + apply q_max_l.
    + apply Qle_trans with (fold_right q_max x l);
        [apply IH; now right | apply q_max_r].
Qed.

Lemma group_cells_numeric (g : value) (ks vs : Series) :
  forallb is_num vs = true -> forallb is_num (group_cells g ks vs) = true.
Proof.
  revert vs. induction ks as [| k ks IH]; intros [| v vs] H; simpl;
    try reflexivity.
  simpl in H. apply andb_prop in H as [Hv Hvs].
  destruct (value_eqb k g); simpl; [rewrite Hv |]; now apply IH.
Qed.

Lemma group_cells_nonempty (g : value) (ks vs : Series) :
  length ks = length vs ->
  existsb (fun k => value_eqb k g) ks = true ->
  group_cells g ks vs <> [].
Proof.
  revert vs. induction ks as [| k ks IH]; intros [| v vs] Hlen H; simpl in *;
    try discriminate.
  destruct (value_eqb k g); [discriminate |].
  apply IH; [lia | exact H].
Qed.

Lemma present_numeric (cells : Series) :
  forallb is_num cells = true -> present cells = map num_of cells.
Proof.
  intros H. unfold present. f_equal. apply filter_all.
  intros v Hv. rewrite forallb_forall in H. specialize (H v Hv).
  now destruct v.
Qed.

(** The three aggregates of a group of numbers that is not empty. *)
Lemma agg_numeric (mean : mean_kind) (cells : Series) :
  forallb is_num cells = true -> cells <> [] ->
  exists top,
    agg_count cells = VNum (inject_Z (Z.of_nat (length cells))) /\
    agg_mean mean cells = VNum (mean (map num_of cells)) /\
    agg_max cells = VNum top /\
    (forall v, In v cells -> num_of v <= top).
Proof.
  intros Hnum Hne. unfold agg_count, agg_mean, agg_max.
  rewrite (present_numeric cells Hnum).
  destruct cells as [| v cells]; [contradiction |].
  rewrite length_map. cbn [map].
  eexists. split; [reflexivity |]. split; [reflexivity |].
  split; [reflexivity |].
  intros w Hw. apply fold_q_max_upper.
  change (num_of v :: map num_of cells) with (map num_of (v :: cells)).
  now apply in_map.
Qed.

(** X21. The position breakdown lists every position observed in the
    ranking once, none cut off; its row for a position holds the number of
    players of the position, the mean of their fantasy points as pandas
    takes it and their maximum, which no player of the position exceeds;
    and the rows come in non-increasing order of the mean. *)
Theorem position_breakdown_rows (kind : sort_kind) (mean : mean_kind)
    (combined : DataFrame) :
  sort_kind_ok kind ->
  scored_table ["Pos"] combined = true ->
  exists stats,
    position_breakdown kind mean combined = Ok stats /\
    (forall t, position_observed combined t = true ->
       length (filter (fun k => value_eqb k t)
                      (column_or_nan stats "Position")) = 1%nat) /\
    (forall i, (i < index_len stats)%nat ->
       let cells := position_cells combined (cell stats "Position" i) in
       cells <> [] /\
       cell stats "Player Count" i =
         VNum (inject_Z (Z.of_nat (length cells))) /\
       cell stats "Average Points" i = VNum (mean (map num_of cells)) /\
       (exists top, cell stats "Max Points" i = VNum top /\
                    forall v, In v cells -> num_of v <= top)) /\
    (forall i j, (i <= j)%nat -> (j < index_len stats)%nat ->
       num_of (cell stats "Average Points" j) <=
       num_of (cell stats "Average Points" i)).
Proof.
  intros Hkind Hscored.
  unfold scored_table, has_columns, numeric_column in Hscored.
  apply andb_prop in Hscored as [H Hnum]. apply andb_prop in H as [H Hfp].
  apply andb_prop in H as [Hwf Hpos]. cbn [forallb] in Hpos.
  apply andb_prop in Hpos as [Hpos _].
  destruct (has_column_getitem _ _ Hpos) as [ks Hks].
  destruct (has_column_getitem _ _ Hfp) as [vs Hvs].
  rewrite Hvs in Hnum.
  pose proof (well_formed_length combined _ ks Hwf Hks) as Hlk.
  pose proof (well_formed_length combined _ vs Hwf Hvs) as Hlv.
  set (keys := group_keys ks).
  assert (Hagg : forall g, In g keys ->
            exists top,
              agg_count (group_cells g ks vs) =
                VNum (inject_Z (Z.of_nat (length (group_cells g ks vs)))) /\
              agg_mean mean (group_cells g ks vs) =
                VNum (mean (map num_of (group_cells g ks vs))) /\
              agg_max (group_cells g ks vs) = VNum top /\
              (forall v, In v (group_cells g ks vs) -> num_of v <= top)).
  { intros g Hg. apply agg_numeric.
    - now apply group_cells_numeric.
    - apply group_cells_nonempty; [lia |].
      now apply group_keys_observed. }
  set (means := map (fun g => agg_mean mean (group_cells g ks vs)) keys).
  assert (Hmeans : forallb is_num means = true).
  { apply forallb_forall. intros v Hv. unfold means in Hv.
    apply in_map_iff in Hv as (g & <- & Hg).
    destruct (Hagg g Hg) as (top & _ & -> & _). reflexivity. }
  destruct (nargsort_descending kind Hkind means Hmeans)
    as (indexer & Hsort & Hperm & Hdesc & _).
  assert (Hlen : length means = length keys) by apply length_map.
  rewrite Hlen in Hperm.
  pose proof (Permutation_length Hperm) as Hix. rewrite length_seq in Hix.
  assert (Hobs : forall t, position_observed combined t =
                           existsb (fun k => value_eqb k t) ks)
    by (intros t; unfold position_observed, column_or_nan; now rewrite Hks).
  eexists. split.
  { unfold position_breakdown, groupby_agg, getitem.
    rewrite Hks, Hvs. cbn [rbind].
    rewrite (numeric_no_str vs Hnum). cbn [rbind].
    unfold sort_values, getitem, set_columns.
    cbn [columns map snd combine lookup String.eqb Ascii.eqb Bool.eqb rbind].
    fold keys. fold means. rewrite Hsort. reflexivity. }
  cbn [index_len take].
  assert (Hrow : forall i, (i < length indexer)%nat ->
            (nth i indexer 0 < length keys)%nat)
    by (intros i Hi; now apply (indexer_in_range _ _ _ Hperm)).
  split.
  { intros t Ht. rewrite Hobs in Ht.
    change (column_or_nan _ "Position")
      with (map (fun i => nth i keys VNaN) indexer).
    rewrite (Permutation_length
               (filter_perm _ _ _ (Permutation_map _ Hperm))).
    rewrite (map_nth_seq keys VNaN). now apply group_keys_count. }
  split.
  { intros i Hi.
    change (cell _ "Position" i)
      with (nth i (map (fun j => nth j keys VNaN) indexer) VNaN).
    change (cell _ "Player Count" i)
      with (nth i (map (fun j =>
                     nth j (map (fun g => agg_count (group_cells g ks vs))
                                keys) VNaN) indexer) VNaN).
    change (cell _ "Average Points" i)
      with (nth i (map (fun j => nth j means VNaN) indexer) VNaN).
    change (cell _ "Max Points" i)
      with (nth i (map (fun j =>
                     nth j (map (fun g => agg_max (group_cells g ks vs))
                                keys) VNaN) indexer) VNaN).
    rewrite (nth_map_in_range (fun j => nth j keys VNaN) _ i 0%nat) by exact Hi.
    rewrite (nth_map_in_range (fun j => nth j (map _ keys) VNaN) _ i 0%nat)
      by exact Hi.
    rewrite (nth_map_in_range (fun j => nth j means VNaN) _ i 0%nat)
      by exact Hi.
    rewrite (nth_map_in_range (fun j => nth j (map _ keys) VNaN) _ i 0%nat)
      by exact Hi.
    specialize (Hrow i Hi). set (p := nth i indexer 0%nat) in *.
    unfold means.
    rewrite !(nth_map_in_range _ keys p VNaN VNaN) by exact Hrow.
    unfold position_cells, column_or_nan. rewrite Hks, Hvs.
    destruct (Hagg (nth p keys VNaN) (nth_In _ _ Hrow))
      as (top & Hc & Hm & Ht & Hup).
    rewrite Hc, Hm, Ht.
    split.
    - apply group_cells_nonempty; [lia |].
      apply group_keys_observed. now apply nth_In.
    - split; [reflexivity |]. split; [reflexivity |].
      exists top. split; [reflexivity | exact Hup]. }
  intros i j Hij Hj.
  change (cell _ "Average Points" j)
    with (nth j (map (fun j => nth j means VNaN) indexer) VNaN).
  change (cell _ "Average Points" i)
    with (nth i (map (fun j => nth j means VNaN) indexer) VNaN).
  rewrite !(nth_map_in_range (fun j => nth j means VNaN) _ _ 0%nat) by lia.
  destruct (Nat.eq_dec i j) as [-> | Hne]; [apply Qle_refl |].
  apply (StronglySorted_nth _ _ 0%nat
           (descending_strongly (fun k => num_of (nth k means VNaN)) _ Hdesc));
    lia.
Qed.

Lemma position_breakdown_rows_witness :
  sort_kind_ok kind_stable /\
  scored_table ["Pos"] example_rankings = true /\
  exists stats,
    position_breakdown kind_stable kahan_mean example_rankings = Ok stats /\
    (forall t, position_observed example_rankings t = true ->
       length (filter (fun k => value_eqb k t)
                      (column_or_nan stats "Position")) = 1%nat) /\
    (forall i, (i < index_len stats)%nat ->
       let cells := position_cells example_rankings
                                   (cell stats "Position" i) in
       cells <> [] /\
       cell stats "Player Count" i =
         VNum (inject_Z (Z.of_nat (length cells))) /\
       cell stats "Average Points" i = VNum (kahan_mean (map num_of cells)) /\
       (exists top, cell stats "Max Points" i = VNum top /\
                    forall v, In v cells -> num_of v <= top)) /\
    (forall i j, (i <= j)%nat -> (j < index_len stats)%nat ->
       num_of (cell stats "Average Points" j) <=
       num_of (cell stats "Average Points" i)).
Proof.
  split; [apply kind_stable_ok |].
  split; [reflexivity |].
  apply (position_breakdown_rows kind_stable kahan_mean example_rankings);
    [apply kind_stable_ok | reflexivity].
Defined.

(** The mean is not bounded by the maximum: the binary64 mean of three
    players with 0.2 points each is above 0.2. *)
Remark mean_above_maximum :
  b64 (1 # 5) < kahan_mean [b64 (1 # 5); b64 (1 # 5); b64 (1 # 5)].
Proof. vm_compute. reflexivity. Qed.

(** ** [main]: the preview *)

Lemma cell_head (n : nat) (df : DataFrame) (c : string) (i : nat) :
  (i < n)%nat -> cell (head n df) c i = cell df c i.
Proof.
  intros Hi. unfold cell, head. cbn [columns]. rewrite lookup_map_snd.
  destruct (lookup c (columns df)) as [s |] eqn:E;
    pose proof E as E'; unfold Series in E'; rewrite ?E, ?E';
    [| reflexivity].
  cbn [snd]. now apply nth_firstn_lt.
Qed.

(** X22. Before the calculation the page shows, for each loaded table that
    has the previewed columns, the number of its records and its first ten
    records under those columns, cell for cell; without one of the columns
    the preview raises [KeyError]. *)
Theorem preview_first_ten (df : DataFrame) (cols : list string) :
  well_formed df = true ->
  (has_columns cols df = true ->
   exists shown,
     preview df cols = Ok (index_len df, shown) /\
     names shown = cols /\
     index_len shown = Nat.min 10 (index_len df) /\
     forall c i, In c cols -> (i < 10)%nat -> cell shown c i = cell df c i) /\
  (has_columns cols df = false ->
   exists c, In c cols /\ has_column c df = false /\
             preview df cols = Raise (KeyError c)).
Proof.
  intros _. unfold preview. split.
  - intros Hcols. rewrite (select_present _ _ Hcols). cbn [rbind].
    eexists. split; [reflexivity |]. split.
    { rewrite names_head. unfold names. cbn [columns].
      apply map_fst_combine. now rewrite length_map. }
    split; [reflexivity |].
    intros c i Hc Hi. rewrite cell_head by exact Hi.
    now apply (cell_select df _ cols c i Hcols (select_present _ _ Hcols)).
  - intros Hcols.
    destruct (select_missing _ _ Hcols) as (c & Hin & Hc & Hrun).
    exists c. now rewrite Hrun.
Qed.

Lemma preview_first_ten_witness :
  well_formed two_skaters = true /\
  (has_columns ["Player"; "Team"; "Pos"; "G"; "A"; "PTS"] two_skaters = true ->
   exists shown,
     skaters_preview two_skaters = Ok (index_len two_skaters, shown) /\
     names shown = ["Player"; "Team"; "Pos"; "G"; "A"; "PTS"] /\
     index_len shown = Nat.min 10 (index_len two_skaters) /\
     forall c i, In c ["Player"; "Team"; "Pos"; "G"; "A"; "PTS"] ->
                 (i < 10)%nat -> cell shown c i = cell two_skaters c i) /\
  (has_columns ["Player"; "Team"; "Pos"; "G"; "A"; "PTS"] two_skaters = false ->
   exists c, In c ["Player"; "Team"; "Pos"; "G"; "A"; "PTS"] /\
             has_column c two_skaters = false /\
             skaters_preview two_skaters = Raise (KeyError c)).
Proof.
  split; [reflexivity |].
  apply (preview_first_ten two_skaters
           ["Player"; "Team"; "Pos"; "G"; "A"; "PTS"]).
  reflexivity.
Defined.
